(** * DICOM microservice: tag parsing, pixel normalisation, header values,
      and the upload orchestrator.

    A shallow embedding of [src/utils.py] and [src/main.py].

    - Python [str] values are modelled as [string], i.e. sequences of code
      points below 256 (the Latin-1 range).
    - Python [int] is [Z]; fixed-width NumPy integers are [Z] with the
      wrap-around written out.
    - Floating-point samples are IEEE-754 values of [SpecFloat].
    - Exceptions are values of [exn]; a computation that may raise returns
      [result A].
    - Paths are the strings that [str(path)] gives in [pathlib]'s POSIX
      flavour. *)

From Stdlib Require Import ZArith String Ascii List Bool Lia.
From Stdlib Require Import DecimalString DecimalZ.
From Stdlib Require Import Floats.SpecFloat.
From stdpp Require Import gmap strings.

Local Open Scope string_scope.
Local Open Scope Z_scope.

(** ** Python exceptions *)

(** The exception classes that the two modules raise, catch or let through.
    [HTTPException] is FastAPI's; it derives from [Exception], so a clause
    [except Exception] catches it.  Every constructor here is a subclass of
    [Exception]; only [ValueError] is caught by [except ValueError] and only
    [AttributeError] by [except AttributeError] (and by [hasattr]). *)
Inductive exn : Type :=
| ValueError (msg : string)
| OverflowError (msg : string)
| AttributeError (msg : string)
| HTTPException (status_code : Z) (detail : string)
| OtherError (cls : string) (msg : string).

Inductive result (A : Type) : Type :=
| Ok (a : A)
| Raise (e : exn).
Arguments Ok {A} a.
Arguments Raise {A} e.

Definition is_ValueError (e : exn) : bool :=
  match e with ValueError _ => true | _ => false end.

Definition is_AttributeError (e : exn) : bool :=
  match e with AttributeError _ => true | _ => false end.

(** Decimal rendering of an integer, as [str(n)] gives it. *)
Definition str_of_Z (n : Z) : string :=
  NilEmpty.string_of_int (Z.to_int n).

(** [str(e)]: the message of a built-in exception; for [HTTPException],
    Starlette's ["<status>: <detail>"]. *)
Definition str_exn (e : exn) : string :=
  match e with
  | ValueError m | OverflowError m | AttributeError m | OtherError _ m => m
  | HTTPException c d => str_of_Z c ++ ": " ++ d
  end.

(** ** Python string primitives *)

Module PyStr.

Definition code (c : ascii) : Z := Z.of_N (N_of_ascii c).

(** [str.isspace] on one character, restricted to code points < 256. *)
Definition isspace (c : ascii) : bool :=
  let n := code c in
  ((9 <=? n) && (n <=? 13)) || ((28 <=? n) && (n <=? 32))
  || (n =? 133) || (n =? 160).

Fixpoint lstrip_chars (l : list ascii) : list ascii :=
  match l with
  | c :: l' => if isspace c then lstrip_chars l' else l
  | [] => []
  end.

Definition rstrip_chars (l : list ascii) : list ascii :=
  rev (lstrip_chars (rev l)).

Definition strip_chars (l : list ascii) : list ascii :=
  rstrip_chars (lstrip_chars l).

(** [s.strip()] *)
Definition strip (s : string) : string :=
  string_of_list_ascii (strip_chars (list_ascii_of_string s)).

(** [s.split(sep)] for a one-character separator: never an empty list. *)
Fixpoint split_chars (sep : ascii) (l : list ascii) : list (list ascii) :=
  match l with
  | [] => [[]]
  | c :: l' =>
      if Ascii.eqb c sep then [] :: split_chars sep l'
      else match split_chars sep l' with
           | p :: ps => (c :: p) :: ps
           | [] => [[c]]
           end
  end.

Definition split (sep : ascii) (s : string) : list string :=
  map string_of_list_ascii (split_chars sep (list_ascii_of_string s)).

(** [s.replace(old, new)] for a one-character [old]. *)
Fixpoint replace_chars (old : ascii) (new : list ascii) (l : list ascii)
  : list ascii :=
  match l with
  | [] => []
  | c :: l' =>
      if Ascii.eqb c old then new ++ replace_chars old new l'
      else c :: replace_chars old new l'
  end.

Definition replace (old : ascii) (new : string) (s : string) : string :=
  string_of_list_ascii
    (replace_chars old (list_ascii_of_string new) (list_ascii_of_string s)).

(** [sep.join(parts)] *)
Fixpoint join (sep : string) (parts : list string) : string :=
  match parts with
  | [] => ""
  | [p] => p
  | p :: ps => p ++ sep ++ join sep ps
  end.

(** *** [int(s, 16)] *)

(** Value of a character as a base-16 digit. *)
Definition hex_digit (c : ascii) : option Z :=
  let n := code c in
  if (48 <=? n) && (n <=? 57) then Some (n - 48)
  else if (97 <=? n) && (n <=? 102) then Some (n - 87)
  else if (65 <=? n) && (n <=? 70) then Some (n - 55)
  else None.

(** White space skipped by the integer parser: the C-locale blanks, and the
    two Latin-1 spaces that the conversion to ASCII turns into blanks. *)
Definition int_space (c : ascii) : bool :=
  let n := code c in
  ((9 <=? n) && (n <=? 13)) || (n =? 32) || (n =? 133) || (n =? 160).

Fixpoint skip_int_space (l : list ascii) : list ascii :=
  match l with
  | c :: l' => if int_space c then skip_int_space l' else l
  | [] => []
  end.

Definition underscore : ascii := "_"%char.

(** The digit loop: digits and single underscores; an underscore may be
    neither doubled nor last.  Returns the value, the number of digits
    and the unread rest. *)
Fixpoint scan_digits (l : list ascii) (prev_us : bool) (acc : Z) (n : nat)
  : option (Z * nat * list ascii) :=
  match l with
  | [] => if prev_us then None else Some (acc, n, [])
  | c :: l' =>
      if Ascii.eqb c underscore then
        if prev_us then None else scan_digits l' true acc n
      else
        match hex_digit c with
        | Some d => scan_digits l' false (16 * acc + d) (S n)
        | None => if prev_us then None else Some (acc, n, l)
        end
  end.

Definition skip_sign (l : list ascii) : bool * list ascii :=
  match l with
  | c :: l' =>
      if Ascii.eqb c "+"%char then (false, l')
      else if Ascii.eqb c "-"%char then (true, l')
      else (false, l)
  | [] => (false, l)
  end.

(** An ["0x"] or ["0X"] prefix is skipped, and one underscore after it. *)
Definition skip_prefix (l : list ascii) : list ascii :=
  match l with
  | z :: x :: l' =>
      if Ascii.eqb z "0"%char
         && (Ascii.eqb x "x"%char || Ascii.eqb x "X"%char) then
        match l' with
        | c :: l'' => if Ascii.eqb c underscore then l'' else l'
        | [] => l'
        end
      else l
  | _ => l
  end.

Definition int16_chars (l : list ascii) : option Z :=
  let '(neg, l1) := skip_sign (skip_int_space l) in
  let l2 := skip_prefix l1 in
  match l2 with
  | c :: _ => if Ascii.eqb c underscore then None else
      match scan_digits l2 false 0 0%nat with
      | Some (v, n, rest) =>
          if (n =? 0)%nat then None
          else match skip_int_space rest with
               | [] => Some (if neg then - v else v)
               | _ :: _ => None
               end
      | None => None
      end
  | [] => None
  end.

(** [int(s, 16)]; [None] stands for the [ValueError] it raises. *)
Definition int16 (s : string) : option Z :=
  int16_chars (list_ascii_of_string s).

End PyStr.

(** ** [src/utils.py]: tag parsing *)

(** [parse_dicom_tag(tag_string)] *)
Definition parse_dicom_tag (tag_string : string) : result (Z * Z) :=
  let tag_string_cleaned := PyStr.strip tag_string in
  let parts := PyStr.split ","%char tag_string_cleaned in
  match parts with
  | [p0; p1] =>
      let group_str := PyStr.strip p0 in
      let element_str := PyStr.strip p1 in
      match PyStr.int16 group_str, PyStr.int16 element_str with
      | Some group_int, Some element_int => Ok (group_int, element_int)
      | _, _ =>
          Raise (ValueError ("Invalid hex values in tag: '" ++ group_str
                             ++ "', '" ++ element_str ++ "'."))
      end
  | _ =>
      Raise (ValueError
               "Tag string must contain exactly one comma inside parentheses.")
  end.


(** ** NumPy arrays and the normalisation arithmetic *)

Module Np.

Inductive float_format : Type := Binary32 | Binary64.

Definition prec (f : float_format) : Z :=
  match f with Binary32 => 24 | Binary64 => 53 end.
Definition emax (f : float_format) : Z :=
  match f with Binary32 => 128 | Binary64 => 1024 end.

(** A pixel grid as the decoder hands it over: an integer array of a given
    signedness and width, or a floating-point array.  [data] lists the
    samples in row-major order; all operations below are element-wise and
    keep [shape]. *)
Inductive ndarray : Type :=
| IntArray (signed : bool) (bits : Z) (shape : list nat) (data : list Z)
| FloatArray (fmt : float_format) (shape : list nat)
             (data : list spec_float).

Definition shape_of (a : ndarray) : list nat :=
  match a with IntArray _ _ sh _ | FloatArray _ sh _ => sh end.

Definition size_of (a : ndarray) : nat :=
  match a with
  | IntArray _ _ _ d => length d
  | FloatArray _ _ d => length d
  end.

(** Fixed-width integer arithmetic wraps around. *)
Definition wrap (signed : bool) (bits : Z) (z : Z) : Z :=
  let r := z mod 2 ^ bits in
  if signed && (2 ^ (bits - 1) <=? r) then r - 2 ^ bits else r.

(** Conversion of an integer to a float of the given format (round to
    nearest even). *)
Definition of_Z (f : float_format) (z : Z) : spec_float :=
  binary_normalize (prec f) (emax f) z 0 false.

Definition fsub (f : float_format) := SFsub (prec f) (emax f).
Definition fdiv (f : float_format) := SFdiv (prec f) (emax f).
Definition fmul (f : float_format) := SFmul (prec f) (emax f).

Definition isnan (x : spec_float) : bool :=
  match x with S754_nan => true | _ => false end.

Definition isfinite (x : spec_float) : bool :=
  match x with S754_zero _ | S754_finite _ _ _ => true | _ => false end.

(** [np.fmin] and [np.fmax]: the other operand wins over a NaN. *)
Definition fmin (x y : spec_float) : spec_float :=
  if SFleb x y || isnan y then x else y.
Definition fmax (x y : spec_float) : spec_float :=
  if SFleb y x || isnan y then x else y.

(** [ufunc.reduce] over a non-empty sequence. *)
Definition reduce {A} (op : A -> A -> A) (l : list A) : option A :=
  match l with
  | [] => None
  | x :: xs => Some (fold_left op xs x)
  end.

(** The scalar that [np.nanmin] / [np.nanmax] return. *)
Inductive scalar : Type :=
| IntScalar (n : Z)
| FloatScalar (x : spec_float).

Definition zero_size (op : string) : exn :=
  ValueError ("zero-size array to reduction operation " ++ op
              ++ " which has no identity").

Definition nanmin (a : ndarray) : result scalar :=
  match a with
  | IntArray _ _ _ d =>
      match reduce Z.min d with
      | Some m => Ok (IntScalar m)
      | None => Raise (zero_size "fmin")
      end
  | FloatArray _ _ d =>
      match reduce fmin d with
      | Some m => Ok (FloatScalar m)
      | None => Raise (zero_size "fmin")
      end
  end.

Definition nanmax (a : ndarray) : result scalar :=
  match a with
  | IntArray _ _ _ d =>
      match reduce Z.max d with
      | Some m => Ok (IntScalar m)
      | None => Raise (zero_size "fmax")
      end
  | FloatArray _ _ d =>
      match reduce fmax d with
      | Some m => Ok (FloatScalar m)
      | None => Raise (zero_size "fmax")
      end
  end.

(** [np.isfinite] on a scalar. *)
Definition scalar_isfinite (s : scalar) : bool :=
  match s with IntScalar _ => true | FloatScalar x => isfinite x end.

(** [max_val > min_val] *)
Definition scalar_gt (hi lo : scalar) : bool :=
  match hi, lo with
  | IntScalar h, IntScalar l => l <? h
  | FloatScalar h, FloatScalar l => SFltb l h
  | _, _ => false
  end.

(** [np.clip(x, 0, 255)] on a float: NaN goes through. *)
Definition clip (f : float_format) (x : spec_float) : spec_float :=
  let lo := of_Z f 0 in
  let hi := of_Z f 255 in
  let t := if isnan x then x else if SFltb lo x then x else lo in
  if isnan t then t else if SFltb t hi then t else hi.

(** Integer part of a finite float, rounding toward zero. *)
Definition trunc (x : spec_float) : option Z :=
  match x with
  | S754_zero _ => Some 0
  | S754_finite s m e =>
      let v := if 0 <=? e then Zpos m * 2 ^ e else Zpos m / 2 ^ (- e) in
      Some (if s then - v else v)
  | _ => None
  end.

(** [astype(np.uint8)] on a float.  C leaves the conversion of NaN and of
    values outside the target range undefined; [undef] is whatever the
    platform stores in that case. *)
Definition astype_uint8 (undef : Z) (x : spec_float) : Z :=
  match trunc x with
  | Some v => if (0 <=? v) && (v <=? 255) then v else undef
  | None => undef
  end.

(** [((pixel_array - min_val) / (max_val - min_val)) * 255.0], one sample.
    On an integer array both differences are taken in the array's own
    type; the quotient is a double. *)
Definition scale_int (signed : bool) (bits : Z) (lo hi s : Z) : spec_float :=
  fmul Binary64
    (fdiv Binary64 (of_Z Binary64 (wrap signed bits (s - lo)))
                   (of_Z Binary64 (wrap signed bits (hi - lo))))
    (of_Z Binary64 255).

Definition scale_float (f : float_format) (lo hi s : spec_float)
  : spec_float :=
  fmul f (fdiv f (fsub f s lo) (fsub f hi lo)) (of_Z f 255).

(** [np.clip(np.zeros_like(pixel_array), 0, 255).astype(np.uint8)] *)
Definition zeros (n : nat) : list Z := repeat 0 n.

(** Lines 80-92 of [convert_dicom_to_png]: from the pixel grid to the
    8-bit grid handed to the image encoder. *)
Definition png_image (undef : Z) (a : ndarray) : result (list nat * list Z) :=
  match nanmin a with
  | Raise e => Raise e
  | Ok min_val =>
      match nanmax a with
      | Raise e => Raise e
      | Ok max_val =>
          if scalar_isfinite min_val && scalar_isfinite max_val
             && scalar_gt max_val min_val
          then
            match a, min_val, max_val with
            | IntArray sg b sh d, IntScalar lo, IntScalar hi =>
                Ok (sh, map (fun s => astype_uint8 undef
                               (clip Binary64 (scale_int sg b lo hi s))) d)
            | FloatArray f sh d, FloatScalar lo, FloatScalar hi =>
                Ok (sh, map (fun s => astype_uint8 undef
                               (clip f (scale_float f lo hi s))) d)
            | _, _, _ => Ok (shape_of a, zeros (size_of a))
            end
          else Ok (shape_of a, zeros (size_of a))
      end
  end.

Definition uint8 := IntArray false 8.
Definition uint16 := IntArray false 16.
Definition int16 := IntArray true 16.

End Np.




(** ** The error monad of the embedding *)

Definition bind {A B} (m : result A) (k : A -> result B) : result B :=
  match m with
  | Ok a => k a
  | Raise e => Raise e
  end.

Notation "x <- m ;; k" := (bind m (fun x => k))
  (at level 100, m at next level, right associativity).

(** [try: m except Exception as e: h(e)] *)
Definition try_except {A} (m : result A) (h : exn -> result A) : result A :=
  match m with
  | Ok a => Ok a
  | Raise e => h e
  end.

(** ** The decoder's data model (pydicom) *)

(** An element tag is one 32-bit number, group in the high half. *)
Definition tag_group (t : Z) : Z := Z.shiftr t 16.
Definition tag_element (t : Z) : Z := Z.land t 65535.

(** [Tag(group, element)] of pydicom: each half is limited to two bytes
    (an [OverflowError] otherwise) and the tag must not be negative
    (a [ValueError]). *)
Definition Tag (group element : Z) : result Z :=
  if (65535 <? group) || (65535 <? element) then
    Raise (OverflowError
             "the group and element values are limited to a maximum of 2-bytes each")
  else
    let long_value := Z.lor (Z.shiftl group 16) element in
    if long_value <? 0 then Raise (ValueError "tags must be positive")
    else Ok long_value.

(** What the code can observe of [elem.value]: [None], a [str], an object
    with [__iter__] (the [str()] of each item), or any other object (its
    [str()]).  A [str()] call may raise. *)
Inductive elem_value : Type :=
| VNone
| VStr (s : string)
| VIter (items : list (result string))
| VOther (s : result string).

Record DataElement : Type := {
  tag : Z;
  keyword : string;
  VR : string;
  value : elem_value;
}.

(** A parsed file: the primary element table in iteration (tag) order, the
    separate file-meta table, and what reading the [pixel_array] property
    gives: the grid, or the exception the decoder raises ([AttributeError]
    when the file has no pixel data). *)
Record FileDataset : Type := {
  elements : list DataElement;
  file_meta : list DataElement;
  pixel_array : result Np.ndarray;
}.

(** [table.get(tag)] *)
Definition get (table : list DataElement) (t : Z) : option DataElement :=
  List.find (fun el => tag el =? t) table.

(** [hasattr(obj, name)] given the outcome of reading the attribute: only an
    [AttributeError] means "absent", any other exception goes through. *)
Definition hasattr {A} (attr : result A) : result bool :=
  match attr with
  | Ok _ => Ok true
  | Raise (AttributeError _) => Ok false
  | Raise e => Raise e
  end.

(** ** External collaborators *)

(** The library calls whose results the code only passes along. *)
Class External : Type := {
  (** [hashlib.sha256(content).hexdigest()] *)
  sha256_hexdigest : list Byte.byte -> string;
  (** [str(uuid.uuid4())], by the number of draws made before *)
  uuid4 : nat -> string;
  (** [pydicom.dcmread(file, stop_before_pixels)] on the file's content *)
  dcmread : bool -> list Byte.byte -> result FileDataset;
  (** [Image.fromarray(grid)] then [save(format="PNG")] *)
  png_save : list nat -> list Z -> result (list Byte.byte);
  (** [str(tag)] *)
  str_tag : Z -> string;
  (** the byte a cast of NaN to [uint8] leaves *)
  undef_uint8 : Z;
}.

(** ** [src/utils.py] *)

Definition LF : ascii := ascii_of_nat 10.
Definition CR : ascii := ascii_of_nat 13.

(** *** Paths: [pathlib], POSIX flavour *)

(** A path is kept as the string that [str(path)] gives.  The file store of
    the model is keyed by these strings: two identifiers whose paths print
    alike name one file.  Paths that print differently and that the file
    system would still resolve to one file (through a [..] segment or a
    link) are kept apart. *)
Module PurePosixPath.

Definition sep : ascii := "/"%char.

Definition dot : ascii := "."%char.

Fixpoint ends_with_sep (l : list ascii) : bool :=
  match l with
  | [] => false
  | [c] => Ascii.eqb c sep
  | _ :: l' => ends_with_sep l'
  end.

Definition starts_with_sep (l : list ascii) : bool :=
  match l with
  | c :: _ => Ascii.eqb c sep
  | [] => false
  end.

(** [posixpath.join(a, b)]: an absolute [b] replaces [a]. *)
Definition join (a b : list ascii) : list ascii :=
  if starts_with_sep b then b
  else
    match a with
    | [] => b
    | _ :: _ => if ends_with_sep a then (a ++ b)%list else (a ++ sep :: b)%list
    end.

(** [posixpath.splitroot(p)] without the drive: the root is empty, one
    slash, or two slashes when the path starts with exactly two. *)
Definition splitroot (p : list ascii) : list ascii * list ascii :=
  match p with
  | c1 :: r1 =>
      if Ascii.eqb c1 sep then
        match r1 with
        | c2 :: r2 =>
            if Ascii.eqb c2 sep then
              match r2 with
              | c3 :: _ =>
                  if Ascii.eqb c3 sep then ([sep], r1) else ([sep; sep], r2)
              | [] => ([sep; sep], r2)
              end
            else ([sep], r1)
        | [] => ([sep], r1)
        end
      else ([], p)
  | [] => ([], p)
  end.

(** The test [x and x != '.'] on a segment. *)
Definition kept (x : list ascii) : bool :=
  match x with
  | [] => false
  | [c] => negb (Ascii.eqb c dot)
  | _ :: _ :: _ => true
  end.

(** [sep.join(tail)] *)
Fixpoint join_parts (tail : list (list ascii)) : list ascii :=
  match tail with
  | [] => []
  | [x] => x
  | x :: xs => (x ++ sep :: join_parts xs)%list
  end.

(** [str(PurePosixPath(p))]: empty segments and [.] segments are dropped,
    and the empty path prints as a dot. *)
Definition str_chars (p : list ascii) : list ascii :=
  let '(root, rel) := splitroot p in
  let tail := List.filter kept (PyStr.split_chars sep rel) in
  match root, tail with
  | [], [] => [dot]
  | _, _ => (root ++ join_parts tail)%list
  end.

(** [str(self / key)] *)
Definition joinpath (self key : string) : string :=
  string_of_list_ascii
    (str_chars (join (list_ascii_of_string self) (list_ascii_of_string key))).

End PurePosixPath.

(** [get_file_path(file_id, upload_dir)] *)
Definition get_file_path (file_id upload_dir : string) : string :=
  PurePosixPath.joinpath upload_dir (file_id ++ ".dcm").

(** [", ".join(str(x) for x in items)] *)
Fixpoint str_all (items : list (result string)) : result (list string) :=
  match items with
  | [] => Ok []
  | x :: xs => s <- x ;; ss <- str_all xs ;; Ok (s :: ss)
  end.

(** Truth value of a [str]. *)
Definition truthy (s : string) : bool := negb (String.eqb s "").

(** Lines 59-63 of [dicom_value_to_header]: the items of an iterable that
    is not a [str] are joined, anything else goes through [str()]. *)
Definition stringify (v : elem_value) : result string :=
  match v with
  | VIter items => ss <- str_all items ;; Ok (PyStr.join ", " ss)
  | VStr s => Ok s
  | VOther s => s
  | VNone => Ok "None"
  end.

Definition is_None (v : elem_value) : bool :=
  match v with VNone => true | _ => false end.

(** [dicom_value_to_header(elem)] *)
Definition dicom_value_to_header (elem : DataElement) : option string :=
  if String.eqb (VR elem) "SQ" || is_None (value elem) then None
  else
    match stringify (value elem) with
    | Raise _ => None
    | Ok value0 =>
        let value1 := PyStr.replace CR "" (PyStr.replace LF " " value0) in
        if truthy value1 && truthy (PyStr.strip value1)
        then Some (PyStr.strip value1) else None
    end.

Section Utils.
Context `{External}.

(** [calculate_file_hash(file_content)] *)
Definition calculate_file_hash (file_content : list Byte.byte) : string :=
  sha256_hexdigest file_content.

(** [convert_dicom_to_png(dicom_dataset)] *)
Definition convert_dicom_to_png (dicom_dataset : FileDataset)
  : result (list Byte.byte) :=
  try_except
    (pixels <- pixel_array dicom_dataset ;;
     grid <- Np.png_image undef_uint8 pixels ;;
     let '(shape, png_image) := grid in
     png_save shape png_image)
    (fun e =>
       if is_AttributeError e
       then Raise (ValueError "DICOM dataset doesn't contain pixel data")
       else Raise (ValueError ("Error processing DICOM pixel data: "
                               ++ str_exn e))).

End Utils.

(** ** Responses *)

Record tag_data : Type := {
  td_tag : string;
  td_keyword : string;
  td_vr : string;
}.

(** The [response_data] dictionary; the keys that are not always present
    are optional fields. *)
Record response_data : Type := {
  r_file_id : string;
  r_filename : option (option string);
  r_success : bool;
  r_is_duplicate : option bool;
  r_tag_data : option tag_data;
  r_png_error : option string;
}.

Definition set_tag_data (r : response_data) (t : tag_data) : response_data :=
  {| r_file_id := r_file_id r; r_filename := r_filename r;
     r_success := r_success r; r_is_duplicate := r_is_duplicate r;
     r_tag_data := Some t; r_png_error := r_png_error r |}.

Definition set_png_error (r : response_data) (msg : string) : response_data :=
  {| r_file_id := r_file_id r; r_filename := r_filename r;
     r_success := r_success r; r_is_duplicate := r_is_duplicate r;
     r_tag_data := r_tag_data r; r_png_error := Some msg |}.

(** What a handler returns: the dictionary (sent as JSON), or an image
    stream with its headers. *)
Inductive response : Type :=
| JsonResponse (body : response_data)
| StreamingResponse (content : list Byte.byte) (media_type : string)
                    (headers : list (string * string)).

(** [d[k] = v] on a dictionary kept in insertion order. *)
Fixpoint dict_set (d : list (string * string)) (k v : string)
  : list (string * string) :=
  match d with
  | [] => [(k, v)]
  | (k', v') :: d' =>
      if String.eqb k' k then (k', v) :: d' else (k', v') :: dict_set d' k v
  end.

Definition image_related_groups : list Z := [8; 24; 40].

Section DicomUpload.
Context `{External}.

(** Lines 121-128 of [dicom_upload]: the lookup in the primary table and,
    for a tag of group 0x0002 missing there, in the file-meta table. *)
Definition resolve (dicom_dataset : FileDataset) (dicom_tag : Z)
  : option DataElement :=
  match get (elements dicom_dataset) dicom_tag with
  | Some element => Some element
  | None =>
      if (tag_group dicom_tag =? 2)
         && negb (Nat.eqb (length (file_meta dicom_dataset)) 0)
      then get (file_meta dicom_dataset) dicom_tag
      else None
  end.

(** Lines 117-144 of [dicom_upload]: the tag is parsed, resolved and
    described in the response. *)
Definition extract_tag (tag_str : string) (dicom_dataset : FileDataset)
           (response_data0 : response_data) : result response_data :=
  try_except
    (ge <- parse_dicom_tag tag_str ;;
     let '(group_int, element_int) := ge in
     dicom_tag <- Tag group_int element_int ;;
     match resolve dicom_dataset dicom_tag with
     | Some el =>
         Ok (set_tag_data response_data0
               {| td_tag := str_tag (tag el);
                  td_keyword := keyword el;
                  td_vr := VR el |})
     | None =>
         Raise (HTTPException 404
                  ("Tag " ++ tag_str ++ " not found in DICOM file"))
     end)
    (fun e =>
       if is_ValueError e
       then Raise (HTTPException 400 ("Invalid tag format: " ++ str_exn e))
       else Raise (HTTPException 500 ("Error extracting tag: " ++ str_exn e))).

(** The loop over the data set that adds one header per element of the
    image-related groups. *)
Definition add_header (image_headers : list (string * string))
           (elem : DataElement) : list (string * string) :=
  if existsb (Z.eqb (tag_group (tag elem))) image_related_groups then
    match dicom_value_to_header elem with
    | Some v =>
        if truthy v then
          let header_name :=
            if truthy (keyword elem) then "X-DICOM-" ++ keyword elem
            else "X-DICOM-" ++ str_of_Z (tag_group (tag elem)) ++ "-"
                 ++ str_of_Z (tag_element (tag elem)) in
          dict_set image_headers header_name v
        else image_headers
    | None => image_headers
    end
  else image_headers.

Definition fixed_headers (file_id : string) (t : option tag_data)
  : result (list (string * string)) :=
  match t with
  | Some t =>
      Ok [("Content-Disposition", "inline; filename=" ++ file_id ++ ".png");
          ("X-DICOM-ID", file_id);
          ("X-Tag", td_tag t);
          ("X-Keyword", td_keyword t);
          ("X-VR", td_vr t)]
  | None => Raise (OtherError "KeyError" "'tag_data'")
  end.

(** Lines 146-183 of [dicom_upload]: the image, or the dictionary with a
    [png_error]. *)
Definition render (file_id : string) (dicom_dataset : FileDataset)
           (response_data1 : response_data) : result response :=
  has <- hasattr (pixel_array dicom_dataset) ;;
  if (has : bool) then
    try_except
      (png_data <- convert_dicom_to_png dicom_dataset ;;
       image_headers <- fixed_headers file_id (r_tag_data response_data1) ;;
       Ok (StreamingResponse png_data "image/png"
             (fold_left add_header (elements dicom_dataset) image_headers)))
      (fun e =>
         Ok (JsonResponse
               (set_png_error response_data1
                  ("Error converting to PNG: " ++ str_exn e))))
  else
    Ok (JsonResponse
          (set_png_error response_data1
             "DICOM file does not contain image data")).

(** [dicom_upload(file_id, tag, dicom_dataset, response_data)] *)
Definition dicom_upload (file_id tag_str : string)
           (dicom_dataset : FileDataset) (response_data0 : response_data)
  : result response :=
  response_data1 <- extract_tag tag_str dicom_dataset response_data0 ;;
  render file_id dicom_dataset response_data1.

End DicomUpload.

(** ** [src/main.py]: the upload orchestrator *)

(** File-system and validator calls, in the order they are made. *)
Inductive event : Type :=
| EvWrite (path : string)
| EvValidate (path : string)
| EvUnlink (path : string)
| EvDump
| EvRead (path : string).

(** The state a request runs against: the module-level dictionary
    [FILE_HASH_MAP], the byte files of the upload directory by path, the
    dictionary last dumped to [HASH_MAP_PATH] (if any), and the number of
    identifiers drawn so far. *)
Record world : Type := {
  FILE_HASH_MAP : gmap string string;
  files : gmap string (list Byte.byte);
  hash_map_json : option (gmap string string);
  uuid_draws : nat;
  trace : list event;
}.

Definition UPLOAD_DIR : string := "uploads".

(** Computations that read and change the world and may raise. *)
Definition IO (A : Type) : Type := world -> result A * world.

Definition io_ret {A} (a : A) : IO A := fun w => (Ok a, w).
Definition io_raise {A} (e : exn) : IO A := fun w => (Raise e, w).
Definition io_lift {A} (r : result A) : IO A := fun w => (r, w).

Definition io_bind {A B} (m : IO A) (k : A -> IO B) : IO B :=
  fun w =>
    match m w with
    | (Ok a, w') => k a w'
    | (Raise e, w') => (Raise e, w')
    end.

Notation "x <~ m ;; k" := (io_bind m (fun x => k))
  (at level 100, m at next level, right associativity).

(** [try: m except Exception as e: h(e)]; what [m] did to the world before
    raising stays done. *)
Definition io_try {A} (m : IO A) (h : exn -> IO A) : IO A :=
  fun w =>
    match m w with
    | (Ok a, w') => (Ok a, w')
    | (Raise e, w') => h e w'
    end.

Definition log (ev : event) (w : world) : world :=
  {| FILE_HASH_MAP := FILE_HASH_MAP w; files := files w;
     hash_map_json := hash_map_json w; uuid_draws := uuid_draws w;
     trace := trace w ++ [ev] |}.

Definition with_files (fs : gmap string (list Byte.byte)) (w : world) : world :=
  {| FILE_HASH_MAP := FILE_HASH_MAP w; files := fs;
     hash_map_json := hash_map_json w; uuid_draws := uuid_draws w;
     trace := trace w |}.

(** [file_hash in FILE_HASH_MAP] and [FILE_HASH_MAP[file_hash]] *)
Definition index_lookup (file_hash : string) : IO (option string) :=
  fun w => (Ok (FILE_HASH_MAP w !! file_hash), w).

(** [FILE_HASH_MAP[file_hash] = file_id] *)
Definition index_record (file_hash file_id : string) : IO unit :=
  fun w =>
    (Ok tt,
     {| FILE_HASH_MAP := <[file_hash := file_id]> (FILE_HASH_MAP w);
        files := files w; hash_map_json := hash_map_json w;
        uuid_draws := uuid_draws w; trace := trace w |}).

(** [json.dump(FILE_HASH_MAP, open(HASH_MAP_PATH, "w"))] *)
Definition index_dump : IO unit :=
  fun w =>
    (Ok tt,
     log EvDump
       {| FILE_HASH_MAP := FILE_HASH_MAP w; files := files w;
          hash_map_json := Some (FILE_HASH_MAP w);
          uuid_draws := uuid_draws w; trace := trace w |}).

(** [path.exists()] *)
Definition path_exists (path : string) : IO bool :=
  fun w => (Ok (bool_decide (is_Some (files w !! path))), w).

(** [open(path, "wb").write(content)] *)
Definition write_file (path : string) (content : list Byte.byte) : IO unit :=
  fun w => (Ok tt, log (EvWrite path) (with_files (<[path := content]> (files w)) w)).

(** [os.unlink(path)] *)
Definition unlink (path : string) : IO unit :=
  fun w =>
    match files w !! path with
    | Some _ => (Ok tt, log (EvUnlink path) (with_files (delete path (files w)) w))
    | None => (Raise (OtherError "FileNotFoundError" path), log (EvUnlink path) w)
    end.

Section Main.
Context `{External}.

(** [str(uuid.uuid4())] *)
Definition new_uuid : IO string :=
  fun w =>
    (Ok (uuid4 (uuid_draws w)),
     {| FILE_HASH_MAP := FILE_HASH_MAP w; files := files w;
        hash_map_json := hash_map_json w; uuid_draws := S (uuid_draws w);
        trace := trace w |}).

(** [pydicom.dcmread(path, stop_before_pixels)] *)
Definition dcmread_path (path : string) (stop_before_pixels : bool)
  : IO FileDataset :=
  fun w =>
    match files w !! path with
    | Some content => (dcmread stop_before_pixels content, log (EvRead path) w)
    | None => (Raise (OtherError "FileNotFoundError" path), log (EvRead path) w)
    end.

(** [is_valid_dicom_file(file_path)] *)
Definition is_valid_dicom_file (file_path : string) : IO bool :=
  fun w =>
    match dcmread_path file_path true w with
    | (Ok _, _) => (Ok true, log (EvValidate file_path) w)
    | (Raise _, _) => (Ok false, log (EvValidate file_path) w)
    end.

(** The [else] branch of lines 73-91: a new identifier, the file written
    and validated, the index entry recorded and dumped. *)
Definition store_new (file_content : list Byte.byte) (file_hash : string)
  : IO (string * string) :=
  file_id <~ new_uuid ;;
  let file_path := get_file_path file_id UPLOAD_DIR in
  _ <~ write_file file_path file_content ;;
  valid <~ is_valid_dicom_file file_path ;;
  if (valid : bool) then
    _ <~ index_record file_hash file_id ;;
    _ <~ index_dump ;;
    io_ret (file_id, file_path)
  else
    _ <~ unlink file_path ;;
    io_raise (HTTPException 400 "The uploaded file is not a valid DICOM file").

(** Lines 62-67: the index hit, kept only if its file is still there. *)
Definition find_existing (file_hash : string) : IO (option string) :=
  hit <~ index_lookup file_hash ;;
  match hit with
  | Some existing_file_id =>
      present <~ path_exists (get_file_path existing_file_id UPLOAD_DIR) ;;
      io_ret (if (present : bool) then Some existing_file_id else None)
  | None => io_ret None
  end.

(** Lines 59-91 of [process_dicom]: the digest, the dedup decision and,
    for a new upload, the storing.  Returns the identifier, the path and
    [existing_file_id]. *)
Definition ingest (file_content : list Byte.byte)
  : IO (string * string * option string) :=
  let file_hash := calculate_file_hash file_content in
  existing_file_id <~ find_existing file_hash ;;
  stored <~
    match existing_file_id with
    | Some file_id =>
        if truthy file_id
        then io_ret (file_id, get_file_path file_id UPLOAD_DIR)
        else store_new file_content file_hash
    | None => store_new file_content file_hash
    end ;;
  io_ret (fst stored, snd stored, existing_file_id).

(** [existing_file_id is not None] *)
Definition is_not_None {A} (o : option A) : bool :=
  match o with Some _ => true | None => false end.

(** [process_dicom(file, tag)], the handler of [POST /dicom/upload]. *)
Definition process_dicom (file_content : list Byte.byte)
           (filename : option string) (tag_str : string) : IO response :=
  io_try
    (stored <~ ingest file_content ;;
     let '(file_id, file_path, existing_file_id) := stored in
     dicom_dataset <~ dcmread_path file_path false ;;
     let response_data0 :=
       {| r_file_id := file_id;
          r_filename := Some filename;
          r_success := true;
          r_is_duplicate := Some (is_not_None existing_file_id);
          r_tag_data := None;
          r_png_error := None |} in
     io_lift (dicom_upload file_id tag_str dicom_dataset response_data0))
    (fun e =>
       io_raise (HTTPException 500
                   ("Error processing DICOM file: " ++ str_exn e))).

End Main.


(** ** [src/main.py]: the handler of [POST /random_file] *)

Definition HASH_MAP_NAME : string := "hash_map.json".

(** [HASH_MAP_PATH] *)
Definition HASH_MAP_PATH : string :=
  PurePosixPath.joinpath UPLOAD_DIR HASH_MAP_NAME.

(** [l] without the prefix [p], when it has it. *)
Fixpoint strip_prefix_chars (p l : list ascii) : option (list ascii) :=
  match p with
  | [] => Some l
  | c :: p' =>
      match l with
      | d :: l' => if Ascii.eqb c d then strip_prefix_chars p' l' else None
      | [] => None
      end
  end.

Definition starts_with_chars (p l : list ascii) : bool :=
  match strip_prefix_chars p l with Some _ => true | None => false end.

(** [s.replace(old, new)] for a non-empty [old]: the occurrences are found
    from the left and do not overlap.  [skip] counts the characters of a
    match still to be dropped. *)
Fixpoint replace_sub_chars (old new : list ascii) (skip : nat)
         (l : list ascii) : list ascii :=
  match l with
  | [] => []
  | c :: l' =>
      match skip with
      | S k => replace_sub_chars old new k l'
      | O =>
          if starts_with_chars old l
          then (new ++ replace_sub_chars old new (length old - 1) l')%list
          else c :: replace_sub_chars old new 0 l'
      end
  end.

(** [s.replace(old, new)]; an empty [old] matches before every character
    and at the end. *)
Definition str_replace (old new s : string) : string :=
  let o := list_ascii_of_string old in
  let n := list_ascii_of_string new in
  let l := list_ascii_of_string s in
  string_of_list_ascii
    (match o with
     | [] => (n ++ flat_map (fun c => c :: n) l)%list
     | _ :: _ => replace_sub_chars o n 0 l
     end).

(** What a stored path shows in the listing of the upload directory: the
    name of its first segment below the directory, and whether that segment
    is the file itself (rather than a sub-directory holding it). *)
Definition dir_entry (path : string) : option (string * bool) :=
  match strip_prefix_chars (list_ascii_of_string (UPLOAD_DIR ++ "/"))
                           (list_ascii_of_string path) with
  | Some rest =>
      match PyStr.split_chars "/"%char rest with
      | [] => None
      | [] :: _ => None
      | [name] => Some (string_of_list_ascii name, true)
      | name :: _ :: _ => Some (string_of_list_ascii name, false)
      end
  | None => None
  end.

(** [list(UPLOAD_DIR.iterdir())]: the entries that the byte files show, and
    the index file once it was dumped. *)
Definition iterdir : IO (list (string * bool)) :=
  fun w =>
    (Ok (remove_dups (omap dir_entry (map fst (map_to_list (files w))))
         ++ match hash_map_json w with
            | Some _ => [(HASH_MAP_NAME, true)]
            | None => []
            end)%list,
     w).

(** [random.choice(seq)], given the index it draws. *)
Definition random_choice (pick : nat) (seq : list string) : result string :=
  match seq with
  | [] => Raise (OtherError "IndexError" "Cannot choose from an empty sequence")
  | x :: _ => Ok (nth (pick mod length seq) seq x)
  end.

Section RandomFile.
Context `{External}.

(** [process_existing_file(tag)], the handler of [POST /random_file];
    [pick] is the draw of [random.choice].  The test [if not dicom_file] of
    line 131 never fires, a path being true, and is left out. *)
Definition process_existing_file (pick : nat) (tag_str : string)
  : IO response :=
  io_try
    (entries <~ iterdir ;;
     if Nat.eqb (length entries) 0 then
       io_raise (HTTPException 404 "No DICOM files found in uploads directory")
     else
       entries' <~ iterdir ;;
       let file_path :=
         map fst
           (List.filter
              (fun f => snd f && negb (String.eqb (fst f) HASH_MAP_NAME))
              entries') in
       dicom_file <~ io_lift (random_choice pick file_path) ;;
       dicom_dataset <~ dcmread_path (UPLOAD_DIR ++ "/" ++ dicom_file) false ;;
       let file_id := str_replace ".dcm" "" dicom_file in
       let response_data0 :=
         {| r_file_id := file_id; r_filename := None; r_success := true;
            r_is_duplicate := None; r_tag_data := None;
            r_png_error := None |} in
       io_lift (dicom_upload file_id tag_str dicom_dataset response_data0))
    (fun e =>
       io_raise (HTTPException 500
                   ("Error processing DICOM file: " ++ str_exn e))).

End RandomFile.

(** ** Sample data *)

(** A study description with an embedded line feed. *)
Definition line1_line2 : DataElement :=
  {| tag := 528446; keyword := "StudyDescription"; VR := "LO";
     value := VStr ("Line1" ++ String LF "Line2") |}.

(** A patient name (0010,0010) and a transfer syntax (0002,0010). *)
Definition patient_name : DataElement :=
  {| tag := 1048592; keyword := "PatientName"; VR := "PN";
     value := VStr "Doe^John" |}.

Definition transfer_syntax : DataElement :=
  {| tag := 131088; keyword := "TransferSyntaxUID"; VR := "UI";
     value := VStr "1.2.840.10008.1.2.1" |}.

(** A file without pixel data, one whose pixel data cannot be decoded, and
    one with a three-sample grid. *)
Definition no_pixels : FileDataset :=
  {| elements := [patient_name]; file_meta := [transfer_syntax];
     pixel_array :=
       Raise (AttributeError "Unable to convert the pixel data") |}.

Definition bad_pixels : FileDataset :=
  {| elements := [patient_name]; file_meta := [transfer_syntax];
     pixel_array :=
       Raise (ValueError "The length of the pixel data in the dataset doesn't match the expected length") |}.

Definition ramp : FileDataset :=
  {| elements := [line1_line2; patient_name]; file_meta := [transfer_syntax];
     pixel_array := Ok (Np.uint16 [1%nat; 3%nat] [0; 50; 100]) |}.

Definition hex_char (d : Z) : ascii :=
  nth (Z.to_nat d) (list_ascii_of_string "0123456789ABCDEF") "0"%char.

Definition hex4 (n : Z) : string :=
  String (hex_char (n / 4096 mod 16))
    (String (hex_char (n / 256 mod 16))
       (String (hex_char (n / 16 mod 16))
          (String (hex_char (n mod 16)) ""))).

Definition starts_with (p s : string) : bool :=
  String.eqb (substring 0 (String.length p) s) p.

(** A stand-in for the libraries, to run the model on concrete requests:
    the digest is the content itself, the n-th identifier is ["id-n"], a
    file parses when it starts with ["DICM"] and its next character selects
    one of the sample data sets, and the encoder returns the grid's bytes. *)
Definition sample_external : External :=
  {| sha256_hexdigest := string_of_list_byte;
     uuid4 := fun n => "id-" ++ str_of_Z (Z.of_nat n);
     dcmread := fun _ content =>
       let text := string_of_list_byte content in
       if starts_with "DICM0" text then Ok no_pixels
       else if starts_with "DICM1" text then Ok bad_pixels
       else if starts_with "DICM" text then Ok ramp
       else Raise (OtherError "InvalidDicomError"
                     "File is missing DICOM File Meta Information header");
     png_save := fun _ grid =>
       Ok (map (fun v => match Byte.of_N (Z.to_N v) with
                         | Some b => b
                         | None => Byte.x00
                         end) grid);
     str_tag := fun t => "(" ++ hex4 (tag_group t) ++ "," ++ hex4 (tag_element t) ++ ")";
     undef_uint8 := 0 |}.

Definition empty_world : world :=
  {| FILE_HASH_MAP := ∅; files := ∅; hash_map_json := None;
     uuid_draws := 0; trace := [] |}.

(** * Vocabulary of the properties *)

(** A plain hexadecimal string: hex digits only, at least one. *)
Definition is_hex (c : ascii) : bool :=
  match PyStr.hex_digit c with Some _ => true | None => false end.

(** The value of a hex digit, and of a string of them read in base 16. *)
Definition digit_value (c : ascii) : Z :=
  match PyStr.hex_digit c with Some d => d | None => 0 end.

Definition hex_value (l : list ascii) : Z :=
  fold_left (fun acc c => 16 * acc + digit_value c) l 0.

Definition plain_hex (l : list ascii) : Prop :=
  l <> [] /\ Forall (fun c => is_hex c = true) l.

(** The characters of a string. *)
Definition chars (s : string) : list ascii := list_ascii_of_string s.

(** A new upload: the digest is not in the index, or the file it names is
    gone. *)
Definition is_new_upload `{External} (content : list Byte.byte) (w : world)
  : Prop :=
  match FILE_HASH_MAP w !! calculate_file_hash content with
  | None => True
  | Some file_id => files w !! get_file_path file_id UPLOAD_DIR = None
  end.


(** No identifier serves two digests. *)
Definition index_injective (w : world) : Prop :=
  forall h1 h2 file_id,
    FILE_HASH_MAP w !! h1 = Some file_id ->
    FILE_HASH_MAP w !! h2 = Some file_id -> h1 = h2.

(** The identifiers still to be drawn are not in the index. *)
Definition draws_fresh `{External} (w : world) : Prop :=
  forall n h, (uuid_draws w <= n)%nat ->
              FILE_HASH_MAP w !! h <> Some (uuid4 n).

(** An identifier that is a single path segment: it holds no slash. *)
Definition one_segment (file_id : string) : Prop :=
  ~ In "/"%char (chars file_id).

(** The identifiers in the index are single path segments. *)
Definition index_one_segment (w : world) : Prop :=
  forall h file_id, FILE_HASH_MAP w !! h = Some file_id -> one_segment file_id.

(** The state a service is expected to start from and to stay in. *)
Definition consistent `{External} (w : world) : Prop :=
  index_injective w /\ draws_fresh w /\ index_one_segment w.

(** What is assumed of [uuid4]: no identifier is drawn twice, none is the
    empty string, and none holds a slash (they are made of hexadecimal
    digits and hyphens). *)
Definition uuid4_distinct `{External} : Prop :=
  forall m n, uuid4 m = uuid4 n -> m = n.

Definition uuid4_nonempty `{External} : Prop := forall n, uuid4 n <> "".

Definition uuid4_one_segment `{External} : Prop :=
  forall n, one_segment (uuid4 n).

(** What a request does to the world: the dedup decision with the storing,
    and file reads. *)
Inductive step `{External} : world -> world -> Prop :=
| step_ingest content r w w' : ingest content w = (r, w') -> step w w'
| step_log ev w : step w (log ev w).

(** [existing_file_id] after lines 62-67, in closed form. *)
Definition existing_of (h : string) (w : world) : option string :=
  match FILE_HASH_MAP w !! h with
  | Some file_id =>
      if bool_decide (is_Some (files w !! get_file_path file_id UPLOAD_DIR))
      then Some file_id else None
  | None => None
  end.

(** The outcome of [ingest] when the upload is stored as a new one. *)
Definition as_new `{External} (content : list Byte.byte) (w : world)
           (existing : option string)
  : result (string * string * option string) * world :=
  match store_new content (calculate_file_hash content) w with
  | (Ok stored, w') => (Ok (fst stored, snd stored, existing), w')
  | (Raise e, w') => (Raise e, w')
  end.

(** Samples that [nanmin] and [nanmax] take into account. *)
Definition not_nan (x : spec_float) : bool := negb (Np.isnan x).

(** The two infinities and a few doubles. *)
Definition pinf : spec_float := S754_infinity false.
Definition ninf : spec_float := S754_infinity true.

(** The scaling as the specification words it, on exact numbers:
    [(s - min) / (max - min) * 255], clamped to [0, 255] and truncated. *)
Definition spec_scale (lo hi s : Z) : Z :=
  Z.min 255 (Z.max 0 ((s - lo) * 255 / (hi - lo))).

(** The claim as the specification words it: on a grid with non-finite
    samples the bounds are those of the finite samples. *)
Definition bounds_over_finite_samples : Prop :=
  forall f sh d,
    Exists (fun x => Np.isfinite x = false) d ->
    Np.nanmin (Np.FloatArray f sh d)
    = Np.nanmin (Np.FloatArray f sh (List.filter Np.isfinite d))
    /\ Np.nanmax (Np.FloatArray f sh d)
       = Np.nanmax (Np.FloatArray f sh (List.filter Np.isfinite d)).

Definition one : spec_float := Np.of_Z Np.Binary64 1.
Definition zero : spec_float := Np.of_Z Np.Binary64 0.
Definition hundred : spec_float := Np.of_Z Np.Binary64 100.

(** Three uploads: one that is no DICOM file, and two that parse. *)
Definition not_dicom : list Byte.byte := list_byte_of_string "plain text".
Definition dicm0 : list Byte.byte := list_byte_of_string "DICM0".
Definition dicm1 : list Byte.byte := list_byte_of_string "DICM1".

(** The world after the file ["DICM0"] was uploaded to the empty service. *)
Definition after_dicm0 : world :=
  snd (@ingest sample_external dicm0 empty_world).

(** The world after the file ["DICM1"] was uploaded next. *)
Definition after_dicm0_dicm1 : world :=
  snd (@process_dicom sample_external dicm1 None "0010,0010" after_dicm0).


(** The dictionary [process_dicom] hands to [dicom_upload] for a first
    upload. *)
Definition first_response : response_data :=
  {| r_file_id := "id-0"; r_filename := Some (Some "scan.dcm");
     r_success := true; r_is_duplicate := Some false;
     r_tag_data := None; r_png_error := None |}.

(** White space, as [str.strip] sees it. *)
Definition blank (l : list ascii) : Prop :=
  Forall (fun c => PyStr.isspace c = true) l.

(** Characters other than the comma. *)
Definition comma_free (l : list ascii) : Prop :=
  Forall (fun c => Ascii.eqb c ","%char = false) l.

(** A stringified value made fit for one line, character by character:
    every line feed becomes a blank, every carriage return is dropped, all
    other characters are kept in their order; then the white space at both
    ends is taken off. *)
Definition one_line (l : list ascii) : list ascii :=
  PyStr.strip_chars
    (flat_map (fun c => if Ascii.eqb c LF then [" "%char]
                        else if Ascii.eqb c CR then [] else [c]) l).

(** The last part of a split, with some characters appended. *)
Fixpoint app_last (parts : list (list ascii)) (tl : list ascii)
  : list (list ascii) :=
  match parts with
  | [] => [tl]
  | [p] => [(p ++ tl)%list]
  | p :: ps => p :: app_last ps tl
  end.

(** [d.get(k)] on a dictionary kept as a list. *)
Fixpoint dict_get (d : list (string * string)) (k : string) : option string :=
  match d with
  | [] => None
  | (k', v) :: d' => if String.eqb k' k then Some v else dict_get d' k
  end.

(** The elements the header loop looks at. *)
Definition image_related (elem : DataElement) : bool :=
  existsb (Z.eqb (tag_group (tag elem))) image_related_groups.

(** A header value fit for one line: not empty, no line feed, no carriage
    return. *)
Definition single_line (v : string) : Prop :=
  v <> "" /\ ~ In LF (chars v) /\ ~ In CR (chars v).

(** The name under which the header loop files an element. *)
Definition header_name (elem : DataElement) : string :=
  if truthy (keyword elem) then "X-DICOM-" ++ keyword elem
  else "X-DICOM-" ++ str_of_Z (tag_group (tag elem)) ++ "-"
       ++ str_of_Z (tag_element (tag elem)).

(** The five headers every image response starts from. *)
Definition five_headers (file_id : string) (t : tag_data)
  : list (string * string) :=
  [("Content-Disposition", "inline; filename=" ++ file_id ++ ".png");
   ("X-DICOM-ID", file_id);
   ("X-Tag", td_tag t);
   ("X-Keyword", td_keyword t);
   ("X-VR", td_vr t)].

(** The samples fit the integer type of the grid and so does their range:
    an unsigned grid of samples below [2 ^ bits], or a signed grid whose
    extreme samples are less than [2 ^ (bits - 1)] apart. *)
Definition range_fits (signed : bool) (bits : Z) (d : list Z) : Prop :=
  if signed
  then 1 <= bits
       /\ forall s t, In s d -> In t d -> s - t < 2 ^ (bits - 1)
  else 0 <= bits /\ forall s, In s d -> 0 <= s < 2 ^ bits.

(** The scaling of one integer sample on exact differences. *)
Definition scale_exact (lo hi s : Z) : spec_float :=
  Np.fmul Np.Binary64
    (Np.fdiv Np.Binary64 (Np.of_Z Np.Binary64 (s - lo))
                         (Np.of_Z Np.Binary64 (hi - lo)))
    (Np.of_Z Np.Binary64 255).

(** The index file holds the index in memory: the dictionary last dumped is
    [FILE_HASH_MAP], or nothing was dumped yet and [FILE_HASH_MAP] is
    empty. *)
Definition in_sync (w : world) : Prop :=
  match hash_map_json w with
  | Some dumped => FILE_HASH_MAP w = dumped
  | None => FILE_HASH_MAP w = ∅
  end.

(** Every file the index refers to, if it is still stored, holds bytes of
    the recorded digest that the validator accepts. *)
Definition entries_validated `{External} (w : world) : Prop :=
  forall h file_id content,
    FILE_HASH_MAP w !! h = Some file_id ->
    files w !! get_file_path file_id UPLOAD_DIR = Some content ->
    calculate_file_hash content = h
    /\ exists ds, dcmread true content = Ok ds.

(** The names [process_existing_file] chooses from: the regular files of
    the upload directory other than the index file. *)
Definition candidates (w : world) : list string :=
  map fst
    (List.filter (fun f => snd f && negb (String.eqb (fst f) HASH_MAP_NAME))
       (remove_dups (omap dir_entry (map fst (map_to_list (files w))))
        ++ match hash_map_json w with
           | Some _ => [(HASH_MAP_NAME, true)]
           | None => []
           end)%list).

(** An identifier without a dot and without a slash, as [uuid4] gives
    them. *)
Definition plain_id (file_id : string) : Prop :=
  ~ In "."%char (chars file_id) /\ ~ In "/"%char (chars file_id).

(** * Properties *)

(** ** Tag parsing *)

Example parse_0010_0010 : parse_dicom_tag "0010,0010" = Ok (16, 16).
Proof. reflexivity. Qed.

Example parse_spaces_prefix : parse_dicom_tag " 7fE0 , 0x0010 " = Ok (32736, 16).
Proof. reflexivity. Qed.

Example parse_underscore_sign : parse_dicom_tag "+1_0,-0X_A" = Ok (16, -10).
Proof. reflexivity. Qed.

Example parse_no_comma :
  parse_dicom_tag "0010"
  = Raise (ValueError "Tag string must contain exactly one comma inside parentheses.").
Proof. reflexivity. Qed.

Example parse_not_hex :
  parse_dicom_tag "zzzz,0010"
  = Raise (ValueError "Invalid hex values in tag: 'zzzz', '0010'.").
Proof. reflexivity. Qed.

Example parse_two_commas :
  parse_dicom_tag "0010,0010,0010"
  = Raise (ValueError "Tag string must contain exactly one comma inside parentheses.").
Proof. reflexivity. Qed.

Example parse_empty_part :
  parse_dicom_tag "0010,"
  = Raise (ValueError "Invalid hex values in tag: '0010', ''.").
Proof. reflexivity. Qed.

(** *** Plain hexadecimal strings *)

Lemma is_hex_code c :
  is_hex c = true ->
  48 <= PyStr.code c <= 57 \/ 97 <= PyStr.code c <= 102
  \/ 65 <= PyStr.code c <= 70.
Proof.
  unfold is_hex, PyStr.hex_digit.
  destruct (48 <=? PyStr.code c) eqn:E1, (PyStr.code c <=? 57) eqn:E2,
    (97 <=? PyStr.code c) eqn:E3, (PyStr.code c <=? 102) eqn:E4,
    (65 <=? PyStr.code c) eqn:E5, (PyStr.code c <=? 70) eqn:E6;
    simpl; intros; try discriminate; lia.
Qed.

Lemma eqb_code c x : Ascii.eqb c x = true -> PyStr.code c = PyStr.code x.
Proof. intros E. apply Ascii.eqb_eq in E. now subst. Qed.

(** Side conditions on the code of a character literal. *)
Ltac code_literal :=
  match goal with
  | |- context [PyStr.code ?x] =>
      let v := eval vm_compute in (PyStr.code x) in
      change (PyStr.code x) with v
  end; lia.

(** A hex digit is no blank, no separator, no sign, no underscore and no
    ["x"]. *)
Lemma is_hex_not c x :
  is_hex c = true ->
  (PyStr.code x < 48 \/ 57 < PyStr.code x < 65 \/ 70 < PyStr.code x < 97
   \/ 102 < PyStr.code x) ->
  Ascii.eqb c x = false.
Proof.
  intros Hc Hx. destruct (Ascii.eqb c x) eqn:E; [|reflexivity].
  apply eqb_code in E. apply is_hex_code in Hc. lia.
Qed.

Lemma is_hex_not_space c : is_hex c = true -> PyStr.isspace c = false.
Proof.
  intros Hc. apply is_hex_code in Hc. unfold PyStr.isspace.
  repeat match goal with
         | |- context [?a <=? ?b] => destruct (Z.leb_spec a b)
         | |- context [?a =? ?b] => destruct (Z.eqb_spec a b)
         end; simpl; try reflexivity; lia.
Qed.

Lemma is_hex_not_int_space c : is_hex c = true -> PyStr.int_space c = false.
Proof.
  intros Hc. apply is_hex_code in Hc. unfold PyStr.int_space.
  repeat match goal with
         | |- context [?a <=? ?b] => destruct (Z.leb_spec a b)
         | |- context [?a =? ?b] => destruct (Z.eqb_spec a b)
         end; simpl; try reflexivity; lia.
Qed.

Lemma lstrip_chars_head c l :
  PyStr.isspace c = false -> PyStr.lstrip_chars (c :: l) = c :: l.
Proof. intros E. simpl. now rewrite E. Qed.

Lemma strip_chars_no_space l :
  Forall (fun c => PyStr.isspace c = false) l -> PyStr.strip_chars l = l.
Proof.
  intros F. unfold PyStr.strip_chars, PyStr.rstrip_chars.
  assert (L : forall k, Forall (fun c => PyStr.isspace c = false) k ->
                        PyStr.lstrip_chars k = k).
  { intros k Fk. destruct Fk; [reflexivity|]. now apply lstrip_chars_head. }
  rewrite (L l F). rewrite L.
  - apply rev_involutive.
  - now apply Stdlib.Lists.List.Forall_rev.
Qed.

Lemma split_chars_none sep l :
  Forall (fun c => Ascii.eqb c sep = false) l -> PyStr.split_chars sep l = [l].
Proof.
  induction 1 as [|c l Hc F IH]; [reflexivity|].
  simpl. now rewrite Hc, IH.
Qed.

Lemma split_chars_one sep a b :
  Forall (fun c => Ascii.eqb c sep = false) a ->
  Forall (fun c => Ascii.eqb c sep = false) b ->
  PyStr.split_chars sep (a ++ sep :: b) = [a; b].
Proof.
  intros Fa Fb. induction Fa as [|c a Hc Fa IH]; simpl.
  - rewrite Ascii.eqb_refl. now rewrite split_chars_none.
  - now rewrite Hc, IH.
Qed.

Lemma scan_digits_plain l : forall acc n,
  Forall (fun c => is_hex c = true) l ->
  PyStr.scan_digits l false acc n
  = Some (fold_left (fun acc c => 16 * acc + digit_value c) l acc,
          (n + length l)%nat, []).
Proof.
  induction l as [|c l IH]; intros acc n F; simpl.
  - now rewrite Nat.add_0_r.
  - inversion F as [|? ? Hc Fl]; subst.
    rewrite (is_hex_not c PyStr.underscore Hc) by code_literal.
    unfold digit_value. unfold is_hex in Hc.
    destruct (PyStr.hex_digit c) as [d|]; [|discriminate].
    rewrite IH by assumption. do 3 f_equal. lia.
Qed.

(** [int(s, 16)] accepts every plain hexadecimal string, whatever its
    length, with the usual value. *)
Lemma int16_plain l :
  plain_hex l -> PyStr.int16_chars l = Some (hex_value l).
Proof.
  intros [Hne F]. destruct l as [|c l]; [easy|].
  inversion F as [|? ? Hc Fl]; subst.
  unfold PyStr.int16_chars.
  assert (S1 : PyStr.skip_int_space (c :: l) = c :: l).
  { simpl. now rewrite is_hex_not_int_space. }
  rewrite S1. unfold PyStr.skip_sign.
  rewrite (is_hex_not c "+"%char Hc) by code_literal.
  rewrite (is_hex_not c "-"%char Hc) by code_literal.
  assert (S2 : PyStr.skip_prefix (c :: l) = c :: l).
  { unfold PyStr.skip_prefix. destruct l as [|x l']; [reflexivity|].
    inversion Fl as [|? ? Hx _]; subst.
    rewrite (is_hex_not x "x"%char Hx) by code_literal.
    rewrite (is_hex_not x "X"%char Hx) by code_literal.
    now rewrite andb_false_r. }
  rewrite S2.
  rewrite (is_hex_not c PyStr.underscore Hc) by code_literal.
  rewrite scan_digits_plain by assumption. simpl. reflexivity.
Qed.

Lemma strip_no_space l :
  Forall (fun c => PyStr.isspace c = false) l ->
  PyStr.strip (string_of_list_ascii l) = string_of_list_ascii l.
Proof.
  intros F. unfold PyStr.strip. rewrite list_ascii_of_string_of_list_ascii.
  f_equal. now apply strip_chars_no_space.
Qed.

Lemma strip_plain l :
  Forall (fun c => is_hex c = true) l ->
  PyStr.strip (string_of_list_ascii l) = string_of_list_ascii l.
Proof.
  intros F. apply strip_no_space.
  eapply List.Forall_impl; [|exact F]. intros c. apply is_hex_not_space.
Qed.

(** Every input made of two plain hexadecimal strings around one comma is
    accepted, with the usual values. *)
Lemma parse_dicom_tag_plain a b :
  plain_hex a -> plain_hex b ->
  parse_dicom_tag (string_of_list_ascii (a ++ ","%char :: b))
  = Ok (hex_value a, hex_value b).
Proof.
  intros Ha Hb. pose proof Ha as [_ Fa]. pose proof Hb as [_ Fb].
  assert (Ca : Forall (fun c => Ascii.eqb c ","%char = false) a).
  { eapply List.Forall_impl; [|exact Fa]. intros c Hc.
    apply is_hex_not; [exact Hc | code_literal]. }
  assert (Cb : Forall (fun c => Ascii.eqb c ","%char = false) b).
  { eapply List.Forall_impl; [|exact Fb]. intros c Hc.
    apply is_hex_not; [exact Hc | code_literal]. }
  assert (Sp : Forall (fun c => PyStr.isspace c = false) (a ++ ","%char :: b)).
  { apply Forall_app. split; [|constructor; [reflexivity|]].
    - eapply List.Forall_impl; [|exact Fa]. intros c. apply is_hex_not_space.
    - eapply List.Forall_impl; [|exact Fb]. intros c. apply is_hex_not_space. }
  unfold parse_dicom_tag, PyStr.split.
  rewrite (strip_no_space _ Sp).
  rewrite list_ascii_of_string_of_list_ascii.
  rewrite (split_chars_one _ _ _ Ca Cb). cbn [map].
  rewrite !strip_plain by assumption.
  unfold PyStr.int16. rewrite !list_ascii_of_string_of_list_ascii.
  now rewrite (int16_plain a Ha), (int16_plain b Hb).
Qed.

Lemma parse_dicom_tag_raises s e :
  parse_dicom_tag s = Raise e -> is_ValueError e = true.
Proof.
  unfold parse_dicom_tag.
  destruct (PyStr.split _ _) as [|a [|b [|c l]]]; try (intros [= <-]; reflexivity).
  destruct (PyStr.int16 _); [destruct (PyStr.int16 _)|];
    try discriminate; intros [= <-]; reflexivity.
Qed.

(** *** The tag constructor *)

Lemma Tag_in_range g e :
  0 <= g <= 65535 -> 0 <= e <= 65535 ->
  Tag g e = Ok (65536 * g + e)
  /\ tag_group (65536 * g + e) = g /\ tag_element (65536 * g + e) = e.
Proof.
  intros Hg He. unfold Tag, tag_group, tag_element.
  destruct (Z.ltb_spec 65535 g); [lia|].
  destruct (Z.ltb_spec 65535 e); [lia|]. cbn [orb].
  assert (L : Z.lor (Z.shiftl g 16) e = 65536 * g + e).
  { rewrite <- Z.lxor_lor, <- Z.add_nocarry_lxor.
    - rewrite Z.shiftl_mul_pow2 by lia. change (2 ^ 16) with 65536. lia.
    - apply Z.bits_inj'. intros n Hn. rewrite Z.land_spec, Z.bits_0.
      destruct (Z.lt_ge_cases n 16).
      + rewrite Z.shiftl_spec_low by lia. reflexivity.
      + rewrite (Z.bits_above_log2 e n); [apply andb_false_r| lia |].
        destruct (Z.eq_dec e 0) as [->|]; [simpl; lia|].
        apply Z.log2_lt_pow2; [lia|].
        apply Z.lt_le_trans with (2 ^ 16); [change (2 ^ 16) with 65536; lia|].
        apply Z.pow_le_mono_r; lia.
    - apply Z.bits_inj'. intros n Hn. rewrite Z.land_spec, Z.bits_0.
      destruct (Z.lt_ge_cases n 16).
      + rewrite Z.shiftl_spec_low by lia. reflexivity.
      + rewrite (Z.bits_above_log2 e n); [apply andb_false_r| lia |].
        destruct (Z.eq_dec e 0) as [->|]; [simpl; lia|].
        apply Z.log2_lt_pow2; [lia|].
        apply Z.lt_le_trans with (2 ^ 16); [change (2 ^ 16) with 65536; lia|].
        apply Z.pow_le_mono_r; lia. }
  rewrite L. destruct (Z.ltb_spec (65536 * g + e) 0); [lia|].
  split; [reflexivity|]. split.
  - rewrite Z.shiftr_div_pow2 by lia. change (2 ^ 16) with 65536.
    symmetry. apply (Z.div_unique _ _ g e); lia.
  - change 65535 with (Z.ones 16). rewrite Z.land_ones by lia.
    change (2 ^ 16) with 65536. symmetry.
    apply (Z.mod_unique _ _ g e); lia.
Qed.

Lemma Tag_overflow g e :
  65535 < g \/ 65535 < e -> exists m, Tag g e = Raise (OverflowError m).
Proof.
  intros Hr. unfold Tag.
  destruct (Z.ltb_spec 65535 g), (Z.ltb_spec 65535 e); cbn [orb]; eauto; lia.
Qed.

Lemma Tag_negative g e :
  g <= 65535 -> e <= 65535 -> g < 0 \/ e < 0 ->
  exists m, Tag g e = Raise (ValueError m).
Proof.
  intros Hg He Hn. unfold Tag.
  destruct (Z.ltb_spec 65535 g); [lia|].
  destruct (Z.ltb_spec 65535 e); [lia|]. cbn [orb].
  assert (L : Z.lor (Z.shiftl g 16) e < 0).
  { apply Z.lor_neg. rewrite Z.shiftl_neg. exact Hn. }
  destruct (Z.ltb_spec (Z.lor (Z.shiftl g 16) e) 0); [eauto | lia].
Qed.

Lemma digit_value_nonneg c : 0 <= digit_value c.
Proof.
  unfold digit_value, PyStr.hex_digit.
  repeat match goal with
         | |- context [?a <=? ?b] => destruct (Z.leb_spec a b)
         end; cbn; lia.
Qed.

Lemma hex_value_nonneg l : 0 <= hex_value l.
Proof.
  unfold hex_value.
  assert (G : forall acc, 0 <= acc ->
                0 <= fold_left (fun acc c => 16 * acc + digit_value c) l acc).
  { induction l as [|c l IH]; intros acc Ha; [exact Ha|].
    cbn [fold_left]. apply IH. pose proof (digit_value_nonneg c). lia. }
  apply G. lia.
Qed.

(** C2: the 16-bit limit is not applied by [parse_dicom_tag], which reads
    components of any size, but by the tag constructor called next (line
    120), and a component above 0xFFFF is rejected there with an
    [OverflowError]: the tag block answers it with a 500 "Error extracting
    tag", not with the 400 "Invalid tag format" that every other malformed
    tag string gets, a negative component included.  What is accepted has
    both components in 0..0xFFFF; two strings of hexadecimal digits around
    one comma are read with their usual values and, when these fit in 16
    bits, make the tag.  Of the examples, ["0010,0010"] gives the tag
    (0x0010, 0x0010) and the three malformed strings give the 400. *)
Theorem oversized_tag_is_500 `{External} (ds : FileDataset)
        (rd : response_data) :
  (forall s g e,
     parse_dicom_tag s = Ok (g, e) -> 65535 < g \/ 65535 < e ->
     exists m,
       Tag g e = Raise (OverflowError m)
       /\ extract_tag s ds rd
          = Raise (HTTPException 500 ("Error extracting tag: " ++ m))
       /\ forall file_id,
            dicom_upload file_id s ds rd
            = Raise (HTTPException 500 ("Error extracting tag: " ++ m)))
  /\ (forall s g e,
        parse_dicom_tag s = Ok (g, e) ->
        g <= 65535 -> e <= 65535 -> g < 0 \/ e < 0 ->
        exists m,
          extract_tag s ds rd
          = Raise (HTTPException 400 ("Invalid tag format: " ++ m)))
  /\ (forall s x,
        parse_dicom_tag s = Raise x ->
        extract_tag s ds rd
        = Raise (HTTPException 400 ("Invalid tag format: " ++ str_exn x)))
  /\ (forall s rd1,
        extract_tag s ds rd = Ok rd1 ->
        exists g e,
          parse_dicom_tag s = Ok (g, e)
          /\ 0 <= g <= 65535 /\ 0 <= e <= 65535
          /\ Tag g e = Ok (65536 * g + e))
  /\ (forall a b,
        plain_hex a -> plain_hex b ->
        parse_dicom_tag (string_of_list_ascii (a ++ ","%char :: b))
        = Ok (hex_value a, hex_value b)
        /\ (hex_value a <= 65535 -> hex_value b <= 65535 ->
            Tag (hex_value a) (hex_value b)
            = Ok (65536 * hex_value a + hex_value b)))
  /\ parse_dicom_tag "12345,0010" = Ok (74565, 16)
  /\ parse_dicom_tag "0010,0010" = Ok (16, 16)
  /\ Tag 16 16 = Ok 1048592
  /\ extract_tag "0010" ds rd
     = Raise (HTTPException 400
                "Invalid tag format: Tag string must contain exactly one comma inside parentheses.")
  /\ extract_tag "zzzz,0010" ds rd
     = Raise (HTTPException 400
                "Invalid tag format: Invalid hex values in tag: 'zzzz', '0010'.")
  /\ extract_tag "0010,0010,0010" ds rd
     = Raise (HTTPException 400
                "Invalid tag format: Tag string must contain exactly one comma inside parentheses.").
Proof.
  split; [|split; [|split; [|split; [|split]]]].
  - intros s g e Hp Hr. destruct (Tag_overflow g e Hr) as [m Hm].
    exists m. split; [exact Hm|].
    assert (E : extract_tag s ds rd
                = Raise (HTTPException 500 ("Error extracting tag: " ++ m))).
    { unfold extract_tag. rewrite Hp. cbn [bind]. rewrite Hm. reflexivity. }
    split; [exact E|]. intros file_id. unfold dicom_upload. now rewrite E.
  - intros s g e Hp Hg He Hn. destruct (Tag_negative g e Hg He Hn) as [m Hm].
    exists m. unfold extract_tag. rewrite Hp. cbn [bind]. rewrite Hm.
    reflexivity.
  - intros s x Hp. pose proof (parse_dicom_tag_raises s x Hp) as V.
    unfold extract_tag. rewrite Hp. cbn [bind try_except]. now rewrite V.
  - intros s rd1. unfold extract_tag, try_except, bind.
    destruct (parse_dicom_tag s) as [[g e]|x];
      [|destruct (is_ValueError x); discriminate].
    destruct (Tag g e) as [t|x] eqn:T;
      [|destruct (is_ValueError x); discriminate].
    intros _. exists g, e. split; [reflexivity|].
    assert (R : 0 <= g <= 65535 /\ 0 <= e <= 65535).
    { destruct (Z_lt_le_dec 65535 g) as [G|G].
      { destruct (Tag_overflow g e (or_introl G)) as [m Hm]. congruence. }
      destruct (Z_lt_le_dec 65535 e) as [E|E].
      { destruct (Tag_overflow g e (or_intror E)) as [m Hm]. congruence. }
      destruct (Z_lt_le_dec g 0) as [G0|G0].
      { destruct (Tag_negative g e G E (or_introl G0)) as [m Hm]. congruence. }
      destruct (Z_lt_le_dec e 0) as [E0|E0].
      { destruct (Tag_negative g e G E (or_intror E0)) as [m Hm]. congruence. }
      lia. }
    destruct R as [Rg Re]. repeat split; try lia.
    destruct (Tag_in_range g e Rg Re) as [Tg _]. congruence.
  - intros a b Ha Hb. split; [now apply parse_dicom_tag_plain|].
    intros La Lb. pose proof (hex_value_nonneg a).
    pose proof (hex_value_nonneg b). apply Tag_in_range; lia.
  - repeat split; reflexivity.
Qed.

(** ** Header values *)

Lemma lstrip_chars_incl c l : In c (PyStr.lstrip_chars l) -> In c l.
Proof.
  induction l as [|x l IH]; simpl; [easy|].
  destruct (PyStr.isspace x); [right; now apply IH | easy].
Qed.

Lemma strip_chars_incl c l : In c (PyStr.strip_chars l) -> In c l.
Proof.
  unfold PyStr.strip_chars, PyStr.rstrip_chars. intros Hc.
  apply in_rev in Hc. apply lstrip_chars_incl in Hc. apply in_rev in Hc.
  now apply lstrip_chars_incl.
Qed.

Lemma strip_incl c s : In c (chars (PyStr.strip s)) -> In c (chars s).
Proof.
  unfold chars, PyStr.strip. rewrite list_ascii_of_string_of_list_ascii.
  apply strip_chars_incl.
Qed.

(** After [replace(old, new)] the character [old] is gone, unless [new]
    brings it back; other characters come from the input or from [new]. *)
Lemma replace_chars_spec old new l c :
  In c (PyStr.replace_chars old new l) ->
  In c new \/ (c <> old /\ In c l).
Proof.
  induction l as [|x l IH]; simpl; [easy|].
  destruct (Ascii.eqb x old) eqn:E.
  - rewrite in_app_iff. intros [Hn|Hr]; [now left|].
    destruct (IH Hr) as [?|[? ?]]; auto.
  - intros [<-|Hr].
    + right. split; [|now left]. intros ->. now rewrite Ascii.eqb_refl in E.
    + destruct (IH Hr) as [?|[? ?]]; auto.
Qed.

Lemma replace_spec old new s c :
  In c (chars (PyStr.replace old new s)) ->
  In c (chars new) \/ (c <> old /\ In c (chars s)).
Proof.
  unfold chars, PyStr.replace. rewrite list_ascii_of_string_of_list_ascii.
  apply replace_chars_spec.
Qed.

(** The two replacements of [dicom_value_to_header] leave neither a line
    feed nor a carriage return. *)
Lemma replaced_single_line s c :
  In c (chars (PyStr.replace CR "" (PyStr.replace LF " " s))) ->
  c <> LF /\ c <> CR.
Proof.
  intros Hc. apply replace_spec in Hc. destruct Hc as [[]|[Hcr Hc]].
  split; [|exact Hcr]. apply replace_spec in Hc.
  destruct Hc as [[<-|[]]|[Hlf _]]; [discriminate | exact Hlf].
Qed.

Lemma dicom_value_to_header_single_line elem v :
  dicom_value_to_header elem = Some v ->
  v <> "" /\ ~ In LF (chars v) /\ ~ In CR (chars v).
Proof.
  unfold dicom_value_to_header.
  destruct (String.eqb (VR elem) "SQ" || is_None (value elem));
    [discriminate|].
  destruct (stringify (value elem)) as [value0|]; [|discriminate].
  destruct (truthy _) eqn:T1; [|discriminate].
  destruct (truthy (PyStr.strip _)) eqn:T2; [|discriminate].
  cbn [andb]. intros [= <-]. split.
  - intros E. unfold truthy in T2. rewrite E in T2. discriminate.
  - split; intros Hc; apply strip_incl, replaced_single_line in Hc;
      destruct Hc; congruence.
Qed.

(** An element whose value gives no header is skipped by the header loop. *)
Lemma add_header_skip `{External} hs elem :
  dicom_value_to_header elem = None -> add_header hs elem = hs.
Proof.
  intros E. unfold add_header. rewrite E. now destruct (existsb _ _).
Qed.

(** A value that is empty once the line breaks are replaced and the blanks
    stripped gives no header. *)
Lemma dicom_value_to_header_empty elem value0 :
  stringify (value elem) = Ok value0 ->
  PyStr.strip (PyStr.replace CR "" (PyStr.replace LF " " value0)) = "" ->
  dicom_value_to_header elem = None.
Proof.
  intros Hv Hs. unfold dicom_value_to_header. rewrite Hv, Hs.
  destruct (_ || _); [reflexivity|]. cbn. now rewrite andb_false_r.
Qed.

Example header_line1_line2 :
  dicom_value_to_header line1_line2 = Some "Line1 Line2".
Proof. reflexivity. Qed.

(** ** Tag resolution *)

Lemma resolve_primary ds t el :
  get (elements ds) t = Some el -> resolve ds t = Some el.
Proof. intros E. unfold resolve. now rewrite E. Qed.

(** A tag of group 0x0002 missing from the primary table is served from the
    file-meta table. *)
Lemma resolve_fallback ds t el :
  get (elements ds) t = None -> tag_group t = 2 ->
  get (file_meta ds) t = Some el -> resolve ds t = Some el.
Proof.
  intros E G M. unfold resolve. rewrite E, G.
  destruct (file_meta ds); [discriminate|]. exact M.
Qed.

Lemma resolve_absent ds t :
  get (elements ds) t = None -> get (file_meta ds) t = None ->
  resolve ds t = None.
Proof.
  intros E M. unfold resolve. rewrite E, M. now destruct (_ && _).
Qed.

(** The file-meta table is not consulted for other groups. *)
Lemma resolve_other_group ds t :
  get (elements ds) t = None -> tag_group t <> 2 -> resolve ds t = None.
Proof.
  intros E G. unfold resolve. rewrite E.
  destruct (Z.eqb_spec (tag_group t) 2); [contradiction | reflexivity].
Qed.

Lemma extract_tag_found `{External} s ds rd g e t el :
  parse_dicom_tag s = Ok (g, e) -> Tag g e = Ok t ->
  resolve ds t = Some el ->
  extract_tag s ds rd
  = Ok (set_tag_data rd {| td_tag := str_tag (tag el);
                           td_keyword := keyword el; td_vr := VR el |}).
Proof.
  intros Hp Ht Hr. unfold extract_tag. rewrite Hp. cbn [bind].
  rewrite Ht. cbn [bind]. now rewrite Hr.
Qed.

(** The 404 raised for an unresolved tag is caught by the [except Exception]
    clause that follows it and leaves as a 500. *)
Lemma extract_tag_not_found `{External} s ds rd g e t :
  parse_dicom_tag s = Ok (g, e) -> Tag g e = Ok t ->
  resolve ds t = None ->
  extract_tag s ds rd
  = Raise (HTTPException 500
             ("Error extracting tag: 404: Tag " ++ s
              ++ " not found in DICOM file")).
Proof.
  intros Hp Ht Hr. unfold extract_tag. rewrite Hp. cbn [bind].
  rewrite Ht. cbn [bind]. now rewrite Hr.
Qed.

(** C5: a well-formed tag that is in neither table makes [dicom_upload]
    raise a 500 (internal error), not the 404 it builds; the fallback to the
    file-meta table for group 0x0002 works as specified. *)
Theorem unresolved_tag_is_500 `{External} (file_id s : string)
        (ds : FileDataset) (rd : response_data) (g e t : Z) :
  parse_dicom_tag s = Ok (g, e) -> Tag g e = Ok t ->
  (get (elements ds) t = None -> get (file_meta ds) t = None ->
   dicom_upload file_id s ds rd
   = Raise (HTTPException 500
              ("Error extracting tag: 404: Tag " ++ s
               ++ " not found in DICOM file")))
  /\ (forall el,
        get (elements ds) t = None -> tag_group t = 2 ->
        get (file_meta ds) t = Some el ->
        extract_tag s ds rd
        = Ok (set_tag_data rd {| td_tag := str_tag (tag el);
                                 td_keyword := keyword el; td_vr := VR el |})).
Proof.
  intros Hp Ht. split.
  - intros E M. unfold dicom_upload.
    rewrite (extract_tag_not_found s ds rd g e t Hp Ht (resolve_absent ds t E M)).
    reflexivity.
  - intros el E G M.
    apply (extract_tag_found s ds rd g e t el Hp Ht).
    now apply resolve_fallback.
Qed.

(** ** Rendering *)

(** No pixel data: the response is the dictionary, with the tag data and a
    [png_error]. *)
Lemma render_no_pixel_data `{External} file_id ds rd m :
  pixel_array ds = Raise (AttributeError m) ->
  render file_id ds rd
  = Ok (JsonResponse
          (set_png_error rd "DICOM file does not contain image data")).
Proof. intros E. unfold render. now rewrite E. Qed.

(** A failure inside [convert_dicom_to_png] ends in a [png_error] too. *)
Lemma render_conversion_fails `{External} file_id ds rd a e :
  pixel_array ds = Ok a ->
  convert_dicom_to_png ds = Raise e ->
  render file_id ds rd
  = Ok (JsonResponse
          (set_png_error rd ("Error converting to PNG: " ++ str_exn e))).
Proof.
  intros Ea Ec. unfold render. rewrite Ea. cbn [hasattr bind].
  now rewrite Ec.
Qed.

(** A decoder failure that is not an [AttributeError] leaves [hasattr], and
    with it [dicom_upload]: line 147 is outside the [try]. *)
Lemma render_decoder_raises `{External} file_id ds rd e :
  pixel_array ds = Raise e -> is_AttributeError e = false ->
  render file_id ds rd = Raise e.
Proof.
  intros E A. unfold render. rewrite E. now destruct e.
Qed.

(** ** The dedup decision and the storing of a new upload *)

Lemma find_existing_miss `{External} h w :
  FILE_HASH_MAP w !! h = None -> find_existing h w = (Ok None, w).
Proof.
  intros E. unfold find_existing, io_bind, index_lookup. now rewrite E.
Qed.

Lemma find_existing_stale `{External} h w file_id :
  FILE_HASH_MAP w !! h = Some file_id ->
  files w !! get_file_path file_id UPLOAD_DIR = None ->
  find_existing h w = (Ok None, w).
Proof.
  intros E F. unfold find_existing, io_bind, index_lookup, path_exists.
  rewrite E. cbn. rewrite F. rewrite bool_decide_eq_false_2; [reflexivity|].
  intros [x Hx]. discriminate.
Qed.

Lemma find_existing_hit `{External} h w file_id content :
  FILE_HASH_MAP w !! h = Some file_id ->
  files w !! get_file_path file_id UPLOAD_DIR = Some content ->
  find_existing h w = (Ok (Some file_id), w).
Proof.
  intros E F. unfold find_existing, io_bind, index_lookup, path_exists.
  rewrite E. cbn. rewrite F. rewrite bool_decide_eq_true_2; [reflexivity|].
  now exists content.
Qed.

(** The world after a new upload was stored and validated. *)
Lemma store_new_valid `{External} content h w ds :
  dcmread true content = Ok ds ->
  let file_id := uuid4 (uuid_draws w) in
  let file_path := get_file_path file_id UPLOAD_DIR in
  exists w',
    store_new content h w = (Ok (file_id, file_path), w')
    /\ FILE_HASH_MAP w' = <[h := file_id]> (FILE_HASH_MAP w)
    /\ files w' = <[file_path := content]> (files w)
    /\ hash_map_json w' = Some (<[h := file_id]> (FILE_HASH_MAP w))
    /\ uuid_draws w' = S (uuid_draws w)
    /\ trace w'
       = (trace w ++ [EvWrite file_path; EvValidate file_path; EvDump])%list.
Proof.
  intros Hv file_id file_path.
  unfold store_new, io_bind, new_uuid, write_file, is_valid_dicom_file,
    dcmread_path, index_record, index_dump, io_ret.
  cbn. rewrite lookup_insert_eq, Hv. cbn.
  eexists. split; [reflexivity|]. cbn.
  repeat split. now rewrite <- !app_assoc.
Qed.

(** The world after a new upload failed validation. *)
Lemma store_new_invalid `{External} content h w x :
  dcmread true content = Raise x ->
  let file_id := uuid4 (uuid_draws w) in
  let file_path := get_file_path file_id UPLOAD_DIR in
  exists w',
    store_new content h w
    = (Raise (HTTPException 400 "The uploaded file is not a valid DICOM file"),
       w')
    /\ FILE_HASH_MAP w' = FILE_HASH_MAP w
    /\ files w' = delete file_path (files w)
    /\ hash_map_json w' = hash_map_json w
    /\ uuid_draws w' = S (uuid_draws w)
    /\ trace w'
       = (trace w ++ [EvWrite file_path; EvValidate file_path;
                      EvUnlink file_path])%list.
Proof.
  intros Hv file_id file_path.
  unfold store_new, io_bind, new_uuid, write_file, is_valid_dicom_file,
    dcmread_path, unlink, io_raise.
  cbn. rewrite lookup_insert_eq, Hv. cbn. rewrite lookup_insert_eq. cbn.
  eexists. split; [reflexivity|]. cbn.
  repeat split.
  - apply delete_insert_eq.
  - now rewrite <- !app_assoc.
Qed.

Lemma ingest_new `{External} content w :
  find_existing (calculate_file_hash content) w = (Ok None, w) ->
  ingest content w
  = match store_new content (calculate_file_hash content) w with
    | (Ok stored, w') => (Ok (fst stored, snd stored, None), w')
    | (Raise e, w') => (Raise e, w')
    end.
Proof.
  intros E. unfold ingest, io_bind at 1. rewrite E.
  unfold io_bind at 1. destruct (store_new _ _ _) as [[stored|e] w']; reflexivity.
Qed.

Lemma ingest_duplicate `{External} content w file_id :
  find_existing (calculate_file_hash content) w = (Ok (Some file_id), w) ->
  file_id <> "" ->
  ingest content w
  = (Ok (file_id, get_file_path file_id UPLOAD_DIR, Some file_id), w).
Proof.
  intros E T. unfold ingest, io_bind at 1. rewrite E.
  unfold truthy. destruct (String.eqb_spec file_id ""); [contradiction|].
  reflexivity.
Qed.

(** ** Error outcomes of [process_dicom] *)

(** Whatever is raised inside the handler leaves it as a 500: the body is
    wrapped in [try ... except Exception], and [HTTPException] is an
    [Exception]. *)
Lemma process_dicom_raises_500 `{External} content filename tag_str w e w' :
  process_dicom content filename tag_str w = (Raise e, w') ->
  exists d, e = HTTPException 500 d.
Proof.
  unfold process_dicom, io_try.
  destruct (io_bind _ _ w) as [[r|x] w1]; [discriminate|].
  unfold io_raise. intros [= <- _]. eauto.
Qed.

Lemma process_dicom_ingest_raises `{External} content filename tag_str w e w' :
  ingest content w = (Raise e, w') ->
  process_dicom content filename tag_str w
  = (Raise (HTTPException 500 ("Error processing DICOM file: " ++ str_exn e)),
     w').
Proof.
  intros E. unfold process_dicom, io_try, io_bind at 1. now rewrite E.
Qed.

Lemma process_dicom_after_ingest `{External} content filename tag_str w
      file_id file_path existing w1 stored_content ds :
  ingest content w = (Ok (file_id, file_path, existing), w1) ->
  files w1 !! file_path = Some stored_content ->
  dcmread false stored_content = Ok ds ->
  process_dicom content filename tag_str w
  = (match dicom_upload file_id tag_str ds
             {| r_file_id := file_id; r_filename := Some filename;
                r_success := true;
                r_is_duplicate := Some (is_not_None existing);
                r_tag_data := None; r_png_error := None |} with
     | Ok r => Ok r
     | Raise e =>
         Raise (HTTPException 500
                  ("Error processing DICOM file: " ++ str_exn e))
     end,
     log (EvRead file_path) w1).
Proof.
  intros E F D. unfold process_dicom, io_try, io_bind at 1. rewrite E.
  unfold io_bind, dcmread_path. rewrite F, D. unfold io_lift.
  destruct (dicom_upload _ _ _ _); reflexivity.
Qed.

Lemma is_new_upload_find `{External} content w :
  is_new_upload content w ->
  find_existing (calculate_file_hash content) w = (Ok None, w).
Proof.
  unfold is_new_upload.
  destruct (FILE_HASH_MAP w !! calculate_file_hash content) as [id|] eqn:E.
  - intros F. eapply find_existing_stale; eassumption.
  - intros _. now apply find_existing_miss.
Qed.

(** Whether the tag is found does not depend on the response under
    construction. *)
Lemma extract_tag_raise_any `{External} s ds rd rd' e :
  extract_tag s ds rd = Raise e -> extract_tag s ds rd' = Raise e.
Proof.
  unfold extract_tag, try_except, bind.
  destruct (parse_dicom_tag s) as [[g el]|x]; [|easy].
  destruct (Tag g el) as [t|x]; [|easy].
  destruct (resolve ds t); [discriminate | easy].
Qed.

(** C1: no error leaves [process_dicom] as a 4xx.  Every exception the
    handler raises is a 500; in particular a new upload that fails
    validation is answered with a 500 that only quotes the 400 in its
    message, and so are a malformed tag and a tag that is not found. *)
Theorem upload_errors_are_500 `{External} (content : list Byte.byte)
        (filename : option string) (tag_str : string) (w : world) :
  (forall e w', process_dicom content filename tag_str w = (Raise e, w') ->
                exists d, e = HTTPException 500 d)
  /\ (forall x, is_new_upload content w ->
                dcmread true content = Raise x ->
                fst (process_dicom content filename tag_str w)
                = Raise (HTTPException 500
                           "Error processing DICOM file: 400: The uploaded file is not a valid DICOM file"))
  /\ (forall file_id file_path existing w1 stored_content ds e,
        ingest content w = (Ok (file_id, file_path, existing), w1) ->
        files w1 !! file_path = Some stored_content ->
        dcmread false stored_content = Ok ds ->
        forall rd, extract_tag tag_str ds rd = Raise e ->
        exists d,
          fst (process_dicom content filename tag_str w)
          = Raise (HTTPException 500 d)).
Proof.
  split; [intros e w'; apply process_dicom_raises_500|]. split.
  - intros x New Hx.
    destruct (store_new_invalid content (calculate_file_hash content) w x Hx)
      as (w' & Hs & _).
    rewrite (process_dicom_ingest_raises content filename tag_str w
               (HTTPException 400 "The uploaded file is not a valid DICOM file") w').
    + reflexivity.
    + rewrite (ingest_new content w (is_new_upload_find content w New)).
      now rewrite Hs.
  - intros file_id file_path existing w1 stored_content ds e Hi Hf Hd rd He.
    destruct (process_dicom content filename tag_str w) as [[r|x] w'] eqn:E.
    + exfalso.
      rewrite (process_dicom_after_ingest content filename tag_str w
                 file_id file_path existing w1 stored_content ds Hi Hf Hd) in E.
      unfold dicom_upload in E.
      erewrite extract_tag_raise_any in E by exact He.
      cbn in E. discriminate.
    + destruct (process_dicom_raises_500 _ _ _ _ _ _ E) as [d ->]. eauto.
Qed.

(** C10: a new upload that fails validation leaves the index, its dumped
    copy and the stored files as they were: the file just written is
    deleted again and nothing is recorded.  (The stored files are unchanged
    provided the new identifier did not name a file already.) *)
Theorem failed_upload_is_atomic `{External} (content : list Byte.byte)
        (filename : option string) (tag_str : string) (w : world) (x : exn) :
  is_new_upload content w ->
  dcmread true content = Raise x ->
  let file_path := get_file_path (uuid4 (uuid_draws w)) UPLOAD_DIR in
  exists e w',
    process_dicom content filename tag_str w = (Raise e, w')
    /\ FILE_HASH_MAP w' = FILE_HASH_MAP w
    /\ hash_map_json w' = hash_map_json w
    /\ files w' = delete file_path (files w)
    /\ files w' !! file_path = None
    /\ (files w !! file_path = None -> files w' = files w)
    /\ trace w'
       = (trace w ++ [EvWrite file_path; EvValidate file_path;
                      EvUnlink file_path])%list.
Proof.
  intros New Hx file_path.
  destruct (store_new_invalid content (calculate_file_hash content) w x Hx)
    as (w' & Hs & Hi & Hf & Hj & _ & Ht).
  eexists _, w'. split.
  - apply process_dicom_ingest_raises.
    rewrite (ingest_new content w (is_new_upload_find content w New)).
    now rewrite Hs.
  - fold file_path in Hf, Ht. repeat split; try assumption.
    + rewrite Hf. apply lookup_delete_eq.
    + intros Fr. rewrite Hf. now apply delete_id.
Qed.


Lemma extract_tag_ok_any `{External} s ds rd rd1 :
  extract_tag s ds rd = Ok rd1 ->
  exists td, rd1 = set_tag_data rd td
             /\ forall rd', extract_tag s ds rd' = Ok (set_tag_data rd' td).
Proof.
  unfold extract_tag, try_except, bind.
  destruct (parse_dicom_tag s) as [[g el]|x];
    [|destruct (is_ValueError x); discriminate].
  destruct (Tag g el) as [t|x]; [|destruct (is_ValueError x); discriminate].
  destruct (resolve ds t) as [d|]; [|discriminate].
  intros [= <-]. eauto.
Qed.

(** Where rendering does degrade gracefully: without pixel data, and when
    the conversion itself fails, the dictionary is returned with the tag
    data and a [png_error]. *)
Lemma dicom_upload_degrades `{External} file_id s ds rd rd1 :
  extract_tag s ds rd = Ok rd1 ->
  (forall m, pixel_array ds = Raise (AttributeError m) ->
             dicom_upload file_id s ds rd
             = Ok (JsonResponse
                     (set_png_error rd1
                        "DICOM file does not contain image data")))
  /\ (forall a e, pixel_array ds = Ok a ->
                  convert_dicom_to_png ds = Raise e ->
                  dicom_upload file_id s ds rd
                  = Ok (JsonResponse
                          (set_png_error rd1
                             ("Error converting to PNG: " ++ str_exn e))))
  /\ r_tag_data rd1 <> None.
Proof.
  intros He. unfold dicom_upload. rewrite He. cbn [bind]. split; [|split].
  - intros m. apply render_no_pixel_data.
  - intros a e. apply render_conversion_fails.
  - destruct (extract_tag_ok_any s ds rd rd1 He) as (td & -> & _).
    discriminate.
Qed.

(** C9: when reading the pixel grid fails with anything but an
    [AttributeError] (a decoder error), the failure leaves [dicom_upload]
    although the tag was resolved, and the upload is answered with a 500:
    the [hasattr] probe of line 147 stands outside the [try] block. *)
Theorem decoder_failure_fails_upload `{External} (file_id s : string)
        (ds : FileDataset) (rd rd1 : response_data) (e : exn) :
  extract_tag s ds rd = Ok rd1 ->
  pixel_array ds = Raise e ->
  is_AttributeError e = false ->
  dicom_upload file_id s ds rd = Raise e
  /\ forall content filename w fid fpath existing w1 stored,
       ingest content w = (Ok (fid, fpath, existing), w1) ->
       files w1 !! fpath = Some stored ->
       dcmread false stored = Ok ds ->
       fst (process_dicom content filename s w)
       = Raise (HTTPException 500
                  ("Error processing DICOM file: " ++ str_exn e)).
Proof.
  intros He Hp Ha. split.
  - unfold dicom_upload. rewrite He. cbn [bind].
    now apply render_decoder_raises.
  - intros content filename w fid fpath existing w1 stored Hi Hf Hd.
    rewrite (process_dicom_after_ingest content filename s w fid fpath
               existing w1 stored ds Hi Hf Hd).
    destruct (extract_tag_ok_any s ds rd rd1 He) as (td & _ & Hany).
    unfold dicom_upload. rewrite Hany. cbn [bind fst].
    now rewrite (render_decoder_raises fid ds _ e Hp Ha).
Qed.

(** ** Identifiers across uploads *)

Lemma process_dicom_steps `{External} content filename tag_str w r w' :
  process_dicom content filename tag_str w = (r, w') -> rtc step w w'.
Proof.
  unfold process_dicom, io_try, io_bind at 1.
  destruct (ingest content w) as [[[[file_id file_path] existing]|e] wi] eqn:E.
  - assert (S1 : step w wi) by (eapply step_ingest; exact E).
    assert (S2 : step wi (log (EvRead file_path) wi)) by constructor.
    unfold io_bind, dcmread_path, io_lift, io_raise.
    destruct (files wi !! file_path) as [c|].
    + destruct (dcmread false c) as [ds|x].
      * destruct (dicom_upload _ _ _ _); intros [= _ <-];
          eapply rtc_l; eauto using rtc_once.
      * intros [= _ <-]. eapply rtc_l; eauto using rtc_once.
    + intros [= _ <-]. eapply rtc_l; eauto using rtc_once.
  - unfold io_raise. intros [= _ <-]. apply rtc_once.
    eapply step_ingest; exact E.
Qed.

Lemma chars_app (x y : string) : chars (x ++ y) = (chars x ++ chars y)%list.
Proof.
  unfold chars. induction x as [|c x IH]; [reflexivity|].
  change (String c x ++ y) with (String c (x ++ y)).
  cbn [list_ascii_of_string]. now rewrite IH.
Qed.

Lemma chars_inj (x y : string) : chars x = chars y -> x = y.
Proof.
  unfold chars. intros E.
  rewrite <- (string_of_list_ascii_of_string x),
    <- (string_of_list_ascii_of_string y). now rewrite E.
Qed.

Lemma chars_of_list l : chars (string_of_list_ascii l) = l.
Proof. apply list_ascii_of_string_of_list_ascii. Qed.

Lemma one_segment_sep_free file_id :
  one_segment file_id ->
  Forall (fun c => Ascii.eqb c PurePosixPath.sep = false) (chars file_id).
Proof.
  unfold one_segment. induction (chars file_id) as [|c l IH]; intros Hn.
  - constructor.
  - constructor.
    + destruct (Ascii.eqb_spec c PurePosixPath.sep) as [->|]; [|reflexivity].
      exfalso. apply Hn. now left.
    + apply IH. intros Hl. apply Hn. now right.
Qed.

Lemma kept_dcm l : PurePosixPath.kept (l ++ chars ".dcm") = true.
Proof. destruct l as [|x [|y l]]; reflexivity. Qed.

(** For an identifier without a slash the path is the upload directory, a
    slash, the identifier and the suffix. *)
Lemma get_file_path_one_segment file_id :
  one_segment file_id ->
  get_file_path file_id UPLOAD_DIR = UPLOAD_DIR ++ "/" ++ file_id ++ ".dcm".
Proof.
  intros Hs. apply one_segment_sep_free in Hs.
  apply chars_inj. unfold get_file_path, PurePosixPath.joinpath.
  rewrite chars_of_list.
  change (list_ascii_of_string (file_id ++ ".dcm"))
    with (chars (file_id ++ ".dcm")).
  change (list_ascii_of_string UPLOAD_DIR) with (chars "uploads").
  rewrite !chars_app.
  set (b := (chars file_id ++ chars ".dcm")%list).
  assert (Fb : Forall (fun c => Ascii.eqb c PurePosixPath.sep = false) b).
  { apply Forall_app. split; [exact Hs|]. repeat constructor. }
  assert (Sb : PurePosixPath.starts_with_sep b = false).
  { destruct Fb as [|c l Hc _]; [reflexivity | exact Hc]. }
  unfold PurePosixPath.join. rewrite Sb.
  change (chars UPLOAD_DIR) with (chars "uploads").
  cbn [chars list_ascii_of_string PurePosixPath.ends_with_sep Ascii.eqb
       PurePosixPath.sep Bool.eqb].
  unfold PurePosixPath.str_chars.
  cbn [app PurePosixPath.splitroot Ascii.eqb PurePosixPath.sep Bool.eqb].
  assert (Sp : PyStr.split_chars PurePosixPath.sep
                 (chars "uploads" ++ PurePosixPath.sep :: b)
               = [chars "uploads"; b])
    by (apply split_chars_one; [repeat constructor | exact Fb]).
  cbn [chars list_ascii_of_string app] in Sp. rewrite Sp.
  assert (K : PurePosixPath.kept b = true) by apply kept_dcm.
  cbn [List.filter PurePosixPath.kept]. rewrite K. reflexivity.
Qed.

Lemma get_file_path_inj a b :
  one_segment a -> one_segment b ->
  get_file_path a UPLOAD_DIR = get_file_path b UPLOAD_DIR -> a = b.
Proof.
  intros Ha Hb. rewrite !get_file_path_one_segment by assumption.
  intros E. apply (f_equal chars) in E.
  rewrite !chars_app in E.
  do 2 apply app_inv_head in E. apply app_inv_tail in E.
  now apply chars_inj.
Qed.

Lemma find_existing_eq `{External} h w :
  find_existing h w = (Ok (existing_of h w), w).
Proof.
  unfold find_existing, existing_of, io_bind, index_lookup, path_exists, io_ret.
  now destruct (FILE_HASH_MAP w !! h).
Qed.

Lemma ingest_eq `{External} content w :
  ingest content w
  = match existing_of (calculate_file_hash content) w with
    | Some file_id =>
        if truthy file_id
        then (Ok (file_id, get_file_path file_id UPLOAD_DIR, Some file_id), w)
        else as_new content w (Some file_id)
    | None => as_new content w None
    end.
Proof.
  unfold ingest, as_new, io_bind at 1. rewrite find_existing_eq.
  destruct (existing_of _ w) as [file_id|].
  - destruct (truthy file_id); [reflexivity|].
    unfold io_bind. destruct (store_new _ _ w) as [[st|e] w']; reflexivity.
  - unfold io_bind. destruct (store_new _ _ w) as [[st|e] w']; reflexivity.
Qed.

(** The two ways [ingest] goes: the stored file is reused and the world is
    left alone, or the upload is stored as a new one. *)
Lemma ingest_shape `{External} content w :
  let h := calculate_file_hash content in
  (exists file_id,
      FILE_HASH_MAP w !! h = Some file_id
      /\ is_Some (files w !! get_file_path file_id UPLOAD_DIR)
      /\ file_id <> ""
      /\ ingest content w
         = (Ok (file_id, get_file_path file_id UPLOAD_DIR, Some file_id), w))
  \/ ((forall file_id,
          FILE_HASH_MAP w !! h = Some file_id ->
          is_Some (files w !! get_file_path file_id UPLOAD_DIR) ->
          file_id = "")
      /\ exists existing, ingest content w = as_new content w existing).
Proof.
  intros h. rewrite ingest_eq. fold h. unfold existing_of.
  destruct (FILE_HASH_MAP w !! h) as [file_id|] eqn:E.
  - destruct (bool_decide_reflect
                (is_Some (files w !! get_file_path file_id UPLOAD_DIR)))
      as [F|F].
    + unfold truthy. destruct (String.eqb_spec file_id "") as [->|Hne].
      * right. split; [intros ? [= <-] _; reflexivity | eauto].
      * left. exists file_id. repeat split; eauto.
    + right. split; [intros ? [= <-] G; contradiction | eauto].
  - right. split; [discriminate | eauto].
Qed.

Lemma as_new_world `{External} content w existing r w' :
  as_new content w existing = (r, w') ->
  let h := calculate_file_hash content in
  let file_id := uuid4 (uuid_draws w) in
  let file_path := get_file_path file_id UPLOAD_DIR in
  uuid_draws w' = S (uuid_draws w)
  /\ ((r = Ok (file_id, file_path, existing)
       /\ FILE_HASH_MAP w' = <[h := file_id]> (FILE_HASH_MAP w)
       /\ files w' = <[file_path := content]> (files w))
      \/ ((exists e, r = Raise e)
          /\ FILE_HASH_MAP w' = FILE_HASH_MAP w
          /\ files w' = delete file_path (files w))).
Proof.
  intros E h file_id file_path. unfold as_new in E. fold h in E.
  destruct (dcmread true content) as [ds|x] eqn:V.
  - destruct (store_new_valid content h w ds V) as (w1 & S1 & I1 & F1 & _ & D1 & _).
    rewrite S1 in E. injection E as <- <-. split; [exact D1|]. left. auto.
  - destruct (store_new_invalid content h w x V) as (w1 & S1 & I1 & F1 & _ & D1 & _).
    rewrite S1 in E. injection E as <- <-. split; [exact D1|]. right. eauto.
Qed.

Lemma step_consistent `{External} w w' :
  uuid4_distinct -> uuid4_one_segment ->
  step w w' -> consistent w -> consistent w'.
Proof.
  intros Hd Hs St (Inj & Fr & Seg).
  destruct St as [content r w w' E | ev w]; [|exact (conj Inj (conj Fr Seg))].
  destruct (ingest_shape content w) as [(id & _ & _ & _ & Ei) | (_ & ex & Ei)];
    rewrite Ei in E.
  - injection E as _ <-. now repeat split.
  - apply as_new_world in E. destruct E as (D & [(_ & I & _) | (_ & I & _)]).
    + repeat split.
      * intros h1 h2 id. rewrite I. rewrite !lookup_insert.
        repeat case_decide; subst; try congruence.
        -- intros [= <-] G. now apply Fr in G.
        -- intros G [= <-]. now apply Fr in G.
        -- apply Inj.
      * intros n h Hn. rewrite I, D in *. rewrite lookup_insert.
        case_decide.
        -- intros [= G]. apply Hd in G. lia.
        -- apply Fr. lia.
      * intros h id. rewrite I, lookup_insert. case_decide.
        -- intros [= <-]. apply Hs.
        -- apply Seg.
    + repeat split.
      * intros h1 h2 id. rewrite I. apply Inj.
      * intros n h Hn. rewrite I, D in *. apply Fr. lia.
      * intros h id. rewrite I. apply Seg.
Qed.

(** A recorded identifier whose file is stored stays recorded, and its file
    stays stored with the same bytes. *)
Lemma step_keeps `{External} w w' h1 id1 stored :
  uuid4_one_segment ->
  step w w' -> consistent w -> id1 <> "" ->
  FILE_HASH_MAP w !! h1 = Some id1 ->
  files w !! get_file_path id1 UPLOAD_DIR = Some stored ->
  FILE_HASH_MAP w' !! h1 = Some id1
  /\ files w' !! get_file_path id1 UPLOAD_DIR = Some stored.
Proof.
  intros Hs St (Inj & Fr & Seg) Hne Hi Hf.
  destruct St as [content r w w' E | ev w]; [|now split].
  assert (P : get_file_path (uuid4 (uuid_draws w)) UPLOAD_DIR
              <> get_file_path id1 UPLOAD_DIR).
  { intros G. apply get_file_path_inj in G; [|apply Hs | eapply Seg, Hi].
    subst id1. now apply Fr in Hi. }
  destruct (ingest_shape content w) as [(id & _ & _ & _ & Ei) | (New & ex & Ei)];
    rewrite Ei in E.
  - injection E as _ <-. now split.
  - apply as_new_world in E. destruct E as (D & [(_ & I & F) | (_ & I & F)]).
    + rewrite I, F. split.
      * rewrite lookup_insert_ne; [exact Hi|].
        intros <-. apply Hne. apply New; [exact Hi | eauto].
      * rewrite lookup_insert_ne; [exact Hf | exact P].
    + rewrite I, F. split; [exact Hi|].
      rewrite lookup_delete_ne; [exact Hf | exact P].
Qed.

Lemma steps_keep `{External} w w' h1 id1 stored :
  uuid4_distinct -> uuid4_one_segment ->
  rtc step w w' -> consistent w -> id1 <> "" ->
  FILE_HASH_MAP w !! h1 = Some id1 ->
  files w !! get_file_path id1 UPLOAD_DIR = Some stored ->
  consistent w'
  /\ FILE_HASH_MAP w' !! h1 = Some id1
  /\ files w' !! get_file_path id1 UPLOAD_DIR = Some stored.
Proof.
  intros Hd Hs Sts.
  induction Sts as [w | w wm w' St Sts IH]; intros C Hne Hi Hf.
  - auto.
  - destruct (step_keeps w wm h1 id1 stored Hs St C Hne Hi Hf) as [Hi' Hf'].
    apply IH; auto. eapply step_consistent; eauto.
Qed.

(** After a successful [ingest] the identifier is recorded for the digest
    and its file is stored. *)
Lemma ingest_records `{External} content w file_id file_path existing w' :
  uuid4_nonempty ->
  ingest content w = (Ok (file_id, file_path, existing), w') ->
  file_path = get_file_path file_id UPLOAD_DIR
  /\ file_id <> ""
  /\ FILE_HASH_MAP w' !! calculate_file_hash content = Some file_id
  /\ is_Some (files w' !! file_path).
Proof.
  intros Hn E.
  destruct (ingest_shape content w) as [(id & Hi & Hf & Hne & Ei) | (_ & ex & Ei)];
    rewrite Ei in E.
  - injection E as <- <- _ <-. auto.
  - apply as_new_world in E.
    destruct E as (_ & [(R & I & F) | ([e R] & _)]); [|discriminate].
    injection R as -> -> _. rewrite I, F, !lookup_insert_eq.
    repeat split; eauto.
Qed.

Lemma render_json_fields `{External} file_id ds rd body :
  render file_id ds rd = Ok (JsonResponse body) ->
  r_file_id body = r_file_id rd /\ r_is_duplicate body = r_is_duplicate rd
  /\ r_tag_data body = r_tag_data rd /\ r_png_error body <> None.
Proof.
  unfold render. destruct (hasattr (pixel_array ds)) as [[|]|x]; cbn [bind].
  - unfold try_except.
    destruct (bind (convert_dicom_to_png ds) _) as [resp|e] eqn:E.
    + unfold bind in E. destruct (convert_dicom_to_png ds); [|discriminate].
      destruct (fixed_headers _ _); [|discriminate].
      injection E as <-. discriminate.
    + intros [= <-]. cbn. repeat split. discriminate.
  - intros [= <-]. cbn. repeat split. discriminate.
  - discriminate.
Qed.

Lemma dicom_upload_json_fields `{External} file_id s ds rd body :
  dicom_upload file_id s ds rd = Ok (JsonResponse body) ->
  r_file_id body = r_file_id rd /\ r_is_duplicate body = r_is_duplicate rd
  /\ r_tag_data body <> None /\ r_png_error body <> None.
Proof.
  unfold dicom_upload. destruct (extract_tag s ds rd) as [rd1|x] eqn:E;
    [|discriminate]. cbn [bind]. intros R.
  apply render_json_fields in R. destruct R as (R1 & R2 & R3 & R4).
  destruct (extract_tag_ok_any s ds rd rd1 E) as (td & -> & _).
  rewrite R1, R2, R3. cbn. repeat split; [discriminate | exact R4].
Qed.

Lemma process_dicom_ok `{External} content filename tag_str w r w' :
  process_dicom content filename tag_str w = (Ok r, w') ->
  exists file_id file_path existing w1 stored ds,
    ingest content w = (Ok (file_id, file_path, existing), w1)
    /\ files w1 !! file_path = Some stored
    /\ dcmread false stored = Ok ds
    /\ dicom_upload file_id tag_str ds
         {| r_file_id := file_id; r_filename := Some filename;
            r_success := true;
            r_is_duplicate := Some (is_not_None existing);
            r_tag_data := None; r_png_error := None |} = Ok r
    /\ w' = log (EvRead file_path) w1.
Proof.
  intros P.
  destruct (ingest content w) as [[[[file_id file_path] existing]|e] w1] eqn:E.
  - destruct (files w1 !! file_path) as [stored|] eqn:F.
    + destruct (dcmread false stored) as [ds|x] eqn:D.
      * rewrite (process_dicom_after_ingest content filename tag_str w file_id
                   file_path existing w1 stored ds E F D) in P.
        destruct (dicom_upload _ _ _ _) as [r'|x] eqn:U; [|discriminate].
        injection P as <- <-. exists file_id, file_path, existing, w1, stored, ds.
        auto.
      * exfalso. unfold process_dicom, io_try, io_bind at 1 in P.
        rewrite E in P. unfold io_bind, dcmread_path in P.
        rewrite F, D in P. discriminate.
    + exfalso. unfold process_dicom, io_try, io_bind at 1 in P.
      rewrite E in P. unfold io_bind, dcmread_path in P.
      rewrite F in P. discriminate.
  - rewrite (process_dicom_ingest_raises content filename tag_str w e w1 E) in P.
    discriminate.
Qed.

(** ** Pixel normalisation *)

Lemma fmin_nan_r x : Np.fmin x S754_nan = x.
Proof. now destruct x. Qed.

Lemma fmax_nan_r x : Np.fmax x S754_nan = x.
Proof. now destruct x. Qed.

Lemma fmin_nan_l y : Np.fmin S754_nan y = y.
Proof. now destruct y. Qed.

Lemma fmax_nan_l y : Np.fmax S754_nan y = y.
Proof. now destruct y. Qed.

Lemma isnan_eq x : Np.isnan x = true -> x = S754_nan.
Proof. now destruct x. Qed.

Section NanReduce.
Variable op : spec_float -> spec_float -> spec_float.
Hypothesis op_nan_r : forall x, op x S754_nan = x.
Hypothesis op_nan_l : forall y, op S754_nan y = y.

Lemma not_nan_false x : not_nan x = false -> x = S754_nan.
Proof. unfold not_nan. destruct x; now intros. Qed.

Lemma fold_skips_nan xs : forall acc,
  fold_left op xs acc = fold_left op (List.filter not_nan xs) acc.
Proof.
  induction xs as [|x xs IH]; intros acc; [reflexivity|].
  cbn [List.filter fold_left]. destruct (not_nan x) eqn:N.
  - cbn [fold_left]. apply IH.
  - apply not_nan_false in N. subst x. rewrite op_nan_r. apply IH.
Qed.

Lemma fold_from_nan xs :
  List.filter not_nan xs <> [] ->
  Some (fold_left op xs S754_nan) = Np.reduce op (List.filter not_nan xs).
Proof.
  induction xs as [|x xs IH]; [easy|].
  cbn [List.filter fold_left]. destruct (not_nan x) eqn:N; intros Hne.
  - rewrite op_nan_l. cbn [Np.reduce]. f_equal. apply fold_skips_nan.
  - apply not_nan_false in N. subst x. rewrite op_nan_r. now apply IH.
Qed.

(** The reduction over all samples is the reduction over those that are
    not NaN, as soon as there is one. *)
Lemma reduce_skips_nan d :
  List.filter not_nan d <> [] ->
  Np.reduce op d = Np.reduce op (List.filter not_nan d).
Proof.
  destruct d as [|x xs]; [easy|].
  cbn [List.filter]. destruct (not_nan x) eqn:N; intros Hne.
  - cbn [Np.reduce]. f_equal. apply fold_skips_nan.
  - apply not_nan_false in N. subst x. cbn [Np.reduce].
    now apply fold_from_nan.
Qed.

(** With NaN only, the result is NaN. *)
Lemma fold_all_nan xs :
  Forall (fun x => Np.isnan x = true) xs ->
  fold_left op xs S754_nan = S754_nan.
Proof.
  induction 1 as [|x xs N _ IH]; [reflexivity|].
  cbn [fold_left]. apply isnan_eq in N. subst x. now rewrite op_nan_r.
Qed.

End NanReduce.

Lemma fmax_pinf_l y : Np.fmax pinf y = pinf.
Proof. now destruct y as [ | [|] | | ]. Qed.

Lemma fmax_pinf_r x : Np.fmax x pinf = pinf.
Proof. now destruct x as [ | [|] | | ]. Qed.

Lemma fmin_ninf_l y : Np.fmin ninf y = ninf.
Proof. now destruct y as [ | [|] | | ]. Qed.

Lemma fmin_ninf_r x : Np.fmin x ninf = ninf.
Proof. now destruct x as [ | [|] | | ]. Qed.

Section Absorbing.
Variable op : spec_float -> spec_float -> spec_float.
Variable top : spec_float.
Hypothesis top_l : forall y, op top y = top.
Hypothesis top_r : forall x, op x top = top.

Lemma fold_absorbed xs : fold_left op xs top = top.
Proof.
  induction xs as [|x xs IH]; [reflexivity|].
  cbn [fold_left]. now rewrite top_l.
Qed.

Lemma fold_absorbs xs : forall acc, In top xs -> fold_left op xs acc = top.
Proof.
  induction xs as [|x xs IH]; intros acc; [easy|].
  cbn [fold_left]. intros [->|Hin].
  - rewrite top_r. apply fold_absorbed.
  - now apply IH.
Qed.

Lemma reduce_absorbs d : In top d -> Np.reduce op d = Some top.
Proof.
  destruct d as [|x xs]; [easy|]. cbn [Np.reduce]. intros [->|Hin].
  - now rewrite fold_absorbed.
  - now rewrite fold_absorbs.
Qed.

End Absorbing.

(** Whenever the test of line 87 fails, the grid is all zero, of the same
    shape. *)
Lemma png_image_fallback undef a lo hi :
  Np.nanmin a = Ok lo -> Np.nanmax a = Ok hi ->
  Np.scalar_isfinite lo && Np.scalar_isfinite hi && Np.scalar_gt hi lo = false ->
  Np.png_image undef a = Ok (Np.shape_of a, Np.zeros (Np.size_of a)).
Proof. intros L Hh C. unfold Np.png_image. now rewrite L, Hh, C. Qed.

(** The degenerate range: a grid whose samples are all equal. *)
Lemma png_image_constant undef signed bits sh (v : Z) (n : nat) :
  Np.png_image undef (Np.IntArray signed bits sh (repeat v (S n)))
  = Ok (sh, Np.zeros (S n)).
Proof.
  assert (Mn : forall k, fold_left Z.min (repeat v k) v = v)
    by (induction k; cbn; [|rewrite Z.min_id]; auto).
  assert (Mx : forall k, fold_left Z.max (repeat v k) v = v)
    by (induction k; cbn; [|rewrite Z.max_id]; auto).
  rewrite (png_image_fallback undef _ (Np.IntScalar v) (Np.IntScalar v)).
  - cbn [Np.shape_of Np.size_of]. now rewrite repeat_length.
  - cbn. now rewrite Mn.
  - cbn. now rewrite Mx.
  - cbn. now rewrite Z.ltb_irrefl.
Qed.

Example scale_0_50_100 undef :
  Np.png_image undef (Np.uint16 [3%nat] [0; 50; 100])
  = Ok ([3%nat], [0; 127; 255]).
Proof. vm_compute. reflexivity. Qed.

Example scale_all_42 undef :
  Np.png_image undef (Np.uint16 [2%nat; 2%nat] [42; 42; 42; 42])
  = Ok ([2%nat; 2%nat], [0; 0; 0; 0]).
Proof. exact (png_image_constant undef false 16 [2%nat; 2%nat] 42 3). Qed.

(** C4: on a signed 16-bit grid whose range exceeds 32767 the differences
    [pixel_array - min_val] and [max_val - min_val] wrap around.  For the
    samples -20000, 0, 20000 the bounds are -20000 and 20000, both finite,
    and the middle sample comes out as 0 where the specified scaling gives
    127. *)
Theorem int16_range_wraps (undef : Z) :
  let grid := Np.int16 [3%nat] [-20000; 0; 20000] in
  Np.nanmin grid = Ok (Np.IntScalar (-20000))
  /\ Np.nanmax grid = Ok (Np.IntScalar 20000)
  /\ Np.png_image undef grid = Ok ([3%nat], [0; 0; 255])
  /\ map (spec_scale (-20000) 20000) [-20000; 0; 20000] = [0; 127; 255].
Proof. repeat split; vm_compute; reflexivity. Qed.

(** C3, counterexample: for the samples 0, 1, +Inf the maximum used is
    +Inf, not 1, the maximum of the finite samples. *)
Lemma bounds_not_over_finite_samples : ~ bounds_over_finite_samples.
Proof.
  intros Hc.
  destruct (Hc Np.Binary64 [3%nat] [zero; one; pinf]) as [_ Hmax].
  - right. right. left. reflexivity.
  - vm_compute in Hmax. discriminate.
Qed.

(** A NaN among finite samples does not trigger the fallback: its scaled
    value is NaN, and the byte stored for it is whatever the cast leaves. *)
Example nan_sample_reaches_cast undef :
  Np.png_image undef (Np.FloatArray Np.Binary64 [3%nat] [zero; hundred; S754_nan])
  = Ok ([3%nat], [0; 255; undef]).
Proof. vm_compute. reflexivity. Qed.

(** C3, as amended: the bounds are computed ignoring NaN samples only;
    infinite samples take part.  Whenever the computed bounds are not both
    finite - which is the case when a sample is infinite, and when all
    samples are NaN - the result is an all-zero grid of the same shape. *)
Theorem bounds_ignore_nan_only (undef : Z) (f : Np.float_format)
        (sh : list nat) (d : list spec_float) :
  let a := Np.FloatArray f sh d in
  (List.filter not_nan d <> [] ->
   Np.nanmin a = Np.nanmin (Np.FloatArray f sh (List.filter not_nan d))
   /\ Np.nanmax a = Np.nanmax (Np.FloatArray f sh (List.filter not_nan d)))
  /\ (forall lo hi,
        Np.nanmin a = Ok lo -> Np.nanmax a = Ok hi ->
        Np.scalar_isfinite lo && Np.scalar_isfinite hi = false ->
        Np.png_image undef a = Ok (sh, Np.zeros (length d)))
  /\ (In pinf d \/ In ninf d ->
      Np.png_image undef a = Ok (sh, Np.zeros (length d)))
  /\ (d <> [] -> Forall (fun x => Np.isnan x = true) d ->
      Np.png_image undef a = Ok (sh, Np.zeros (length d))).
Proof.
  intros a. split; [|split; [|split]].
  - intros Hne. unfold a, Np.nanmin, Np.nanmax.
    rewrite (reduce_skips_nan Np.fmin fmin_nan_r fmin_nan_l d Hne).
    rewrite (reduce_skips_nan Np.fmax fmax_nan_r fmax_nan_l d Hne).
    split; reflexivity.
  - intros lo hi L Hh C.
    apply (png_image_fallback undef a lo hi L Hh). now rewrite C.
  - intros Hin.
    assert (Hne : d <> []) by (destruct Hin as [Hi|Hi]; now destruct d).
    destruct d as [|x xs]; [easy|].
    apply (png_image_fallback undef a
             (Np.FloatScalar (fold_left Np.fmin xs x))
             (Np.FloatScalar (fold_left Np.fmax xs x))); try reflexivity.
    destruct Hin as [Hi|Hi].
    + pose proof (reduce_absorbs Np.fmax pinf fmax_pinf_l fmax_pinf_r _ Hi) as R.
      cbn [Np.reduce] in R. injection R as ->. cbn.
      now rewrite andb_false_r.
    + pose proof (reduce_absorbs Np.fmin ninf fmin_ninf_l fmin_ninf_r _ Hi) as R.
      cbn [Np.reduce] in R. injection R as ->. reflexivity.
  - intros Hne Hall. destruct d as [|x xs]; [easy|].
    inversion Hall as [|? ? Hx Hxs]; subst.
    apply isnan_eq in Hx. subst x.
    apply (png_image_fallback undef a
             (Np.FloatScalar (fold_left Np.fmin xs S754_nan))
             (Np.FloatScalar (fold_left Np.fmax xs S754_nan))); try reflexivity.
    now rewrite (fold_all_nan Np.fmin fmin_nan_r xs Hxs).
Qed.

(** * The properties on concrete requests *)

Lemma str_of_Z_inj a b : str_of_Z a = str_of_Z b -> a = b.
Proof.
  unfold str_of_Z. intros E.
  apply (f_equal NilEmpty.int_of_string) in E.
  rewrite !NilEmpty.isi in E. injection E as E.
  apply (f_equal Z.of_int) in E. now rewrite !DecimalZ.of_to in E.
Qed.

Lemma sample_uuid4_distinct : @uuid4_distinct sample_external.
Proof.
  intros m n E. cbn in E. apply (f_equal chars) in E.
  rewrite !chars_app in E. apply app_inv_head in E.
  apply chars_inj, str_of_Z_inj in E. lia.
Qed.

Lemma sample_uuid4_nonempty : @uuid4_nonempty sample_external.
Proof. intros n E. cbn in E. apply (f_equal chars) in E.
  rewrite chars_app in E. discriminate. Qed.

(** The decimal digits of a number hold no slash. *)
Lemma string_of_uint_no_slash d :
  ~ In "/"%char (chars (NilEmpty.string_of_uint d)).
Proof.
  induction d as [|d IH|d IH|d IH|d IH|d IH|d IH|d IH|d IH|d IH|d IH];
    cbn; [tauto|..]; intros [E|E]; solve [discriminate E | exact (IH E)].
Qed.

Lemma str_of_Z_no_slash z : ~ In "/"%char (chars (str_of_Z z)).
Proof.
  unfold str_of_Z, NilEmpty.string_of_int.
  destruct (Z.to_int z) as [d|d].
  - apply string_of_uint_no_slash.
  - cbn. intros [E|E]; [discriminate E|].
    exact (string_of_uint_no_slash d E).
Qed.

Lemma sample_uuid4_one_segment : @uuid4_one_segment sample_external.
Proof.
  intros n. unfold one_segment. cbn [uuid4 sample_external].
  rewrite chars_app, in_app_iff. intros [E|E].
  - cbn in E. intuition discriminate.
  - exact (str_of_Z_no_slash _ E).
Qed.

Lemma empty_world_consistent `{External} : consistent empty_world.
Proof.
  repeat split.
  - intros h1 h2 id E. cbn in E. now rewrite lookup_empty in E.
  - intros n h _. cbn. now rewrite lookup_empty.
  - intros h id E. cbn in E. now rewrite lookup_empty in E.
Qed.

Lemma upload_errors_are_500_witness :
  @is_new_upload sample_external not_dicom empty_world
  /\ @dcmread sample_external true not_dicom
     = Raise (OtherError "InvalidDicomError"
                "File is missing DICOM File Meta Information header")
  /\ fst (@process_dicom sample_external not_dicom (Some "scan.dcm")
            "0010,0010" empty_world)
     = Raise (HTTPException 500
                "Error processing DICOM file: 400: The uploaded file is not a valid DICOM file").
Proof.
  split; [exact I|]. split; [reflexivity|].
  apply (proj1 (proj2 (@upload_errors_are_500 sample_external not_dicom
                         (Some "scan.dcm") "0010,0010" empty_world))
           (OtherError "InvalidDicomError"
              "File is missing DICOM File Meta Information header"));
    [exact I | reflexivity].
Defined.

Lemma bounds_ignore_nan_only_witness :
  In pinf [zero; pinf; one]
  /\ Np.png_image 7 (Np.FloatArray Np.Binary64 [3%nat] [zero; pinf; one])
     = Ok ([3%nat], [0; 0; 0]).
Proof.
  assert (A : In pinf [zero; pinf; one]) by (right; left; reflexivity).
  split; [exact A|].
  exact (proj1 (proj2 (proj2
           (bounds_ignore_nan_only 7 Np.Binary64 [3%nat] [zero; pinf; one])))
           (or_introl A)).
Defined.

Lemma unresolved_tag_is_500_witness :
  parse_dicom_tag "0008,0050" = Ok (8, 80)
  /\ Tag 8 80 = Ok 524368
  /\ get (elements no_pixels) 524368 = None
  /\ get (file_meta no_pixels) 524368 = None
  /\ @dicom_upload sample_external "id-0" "0008,0050" no_pixels
       {| r_file_id := "id-0"; r_filename := Some None; r_success := true;
          r_is_duplicate := Some false; r_tag_data := None;
          r_png_error := None |}
     = Raise (HTTPException 500
                "Error extracting tag: 404: Tag 0008,0050 not found in DICOM file").
Proof.
  repeat (split; [reflexivity|]).
  exact (proj1 (@unresolved_tag_is_500 sample_external "id-0" "0008,0050"
                  no_pixels _ 8 80 524368 eq_refl eq_refl)
           eq_refl eq_refl).
Defined.

Lemma oversized_tag_is_500_witness :
  parse_dicom_tag "12345,0010" = Ok (74565, 16)
  /\ 65535 < 74565
  /\ exists m,
       @dicom_upload sample_external "id-0" "12345,0010" no_pixels
         first_response
       = Raise (HTTPException 500 ("Error extracting tag: " ++ m)).
Proof.
  split; [reflexivity|]. split; [lia|].
  destruct (proj1 (@oversized_tag_is_500 sample_external no_pixels
                     first_response)
              "12345,0010" 74565 16 eq_refl (or_introl eq_refl))
    as (m & _ & _ & U).
  exists m. exact (U "id-0").
Defined.


Lemma decoder_failure_fails_upload_witness :
  @extract_tag sample_external "0010,0010" bad_pixels first_response
  = Ok (set_tag_data first_response
          {| td_tag := "(0010,0010)"; td_keyword := "PatientName";
             td_vr := "PN" |})
  /\ pixel_array bad_pixels
     = Raise (ValueError "The length of the pixel data in the dataset doesn't match the expected length")
  /\ is_AttributeError
       (ValueError "The length of the pixel data in the dataset doesn't match the expected length")
     = false
  /\ @dicom_upload sample_external "id-0" "0010,0010" bad_pixels first_response
     = Raise (ValueError "The length of the pixel data in the dataset doesn't match the expected length").
Proof.
  repeat (split; [reflexivity|]).
  exact (proj1 (@decoder_failure_fails_upload sample_external "id-0"
                  "0010,0010" bad_pixels first_response _ _
                  eq_refl eq_refl eq_refl)).
Defined.

Lemma failed_upload_is_atomic_witness :
  @is_new_upload sample_external not_dicom empty_world
  /\ @dcmread sample_external true not_dicom
     = Raise (OtherError "InvalidDicomError"
                "File is missing DICOM File Meta Information header")
  /\ exists e w',
       @process_dicom sample_external not_dicom (Some "scan.dcm") "0010,0010"
         empty_world = (Raise e, w')
       /\ FILE_HASH_MAP w' = FILE_HASH_MAP empty_world
       /\ hash_map_json w' = hash_map_json empty_world
       /\ files w' = delete "uploads/id-0.dcm" (files empty_world)
       /\ files w' !! "uploads/id-0.dcm" = None
       /\ (files empty_world !! "uploads/id-0.dcm" = None ->
           files w' = files empty_world)
       /\ trace w'
          = [EvWrite "uploads/id-0.dcm"; EvValidate "uploads/id-0.dcm";
             EvUnlink "uploads/id-0.dcm"].
Proof.
  split; [exact I|]. split; [reflexivity|].
  exact (@failed_upload_is_atomic sample_external not_dicom (Some "scan.dcm")
           "0010,0010" empty_world _ I eq_refl).
Defined.

(** * Further properties *)

(** ** White space in a tag string *)

Lemma blank_comma_free ws : blank ws -> comma_free ws.
Proof.
  intros B. eapply List.Forall_impl; [|exact B]. intros c Hc.
  destruct (Ascii.eqb c ","%char) eqn:E; [|reflexivity].
  apply Ascii.eqb_eq in E. subst c. discriminate.
Qed.

Lemma lstrip_chars_blank ws l :
  blank ws -> PyStr.lstrip_chars (ws ++ l)%list = PyStr.lstrip_chars l.
Proof.
  induction 1 as [|c ws Hc _ IH]; [reflexivity|].
  cbn [app PyStr.lstrip_chars]. now rewrite Hc.
Qed.

Lemma lstrip_chars_nil_blank l : PyStr.lstrip_chars l = [] -> blank l.
Proof.
  induction l as [|c l IH]; [constructor|].
  cbn [PyStr.lstrip_chars]. destruct (PyStr.isspace c) eqn:E; [|discriminate].
  intros Hl. constructor; [exact E | now apply IH].
Qed.

Lemma blank_lstrip_chars l : blank l -> PyStr.lstrip_chars l = [].
Proof.
  intros B. rewrite <- (app_nil_r l). now rewrite lstrip_chars_blank.
Qed.

Lemma lstrip_chars_app l m :
  PyStr.lstrip_chars l <> [] ->
  PyStr.lstrip_chars (l ++ m)%list = (PyStr.lstrip_chars l ++ m)%list.
Proof.
  induction l as [|c l IH]; [easy|].
  cbn [app PyStr.lstrip_chars]. destruct (PyStr.isspace c); auto.
Qed.

Lemma rstrip_chars_blank l ws :
  blank ws -> PyStr.rstrip_chars (l ++ ws)%list = PyStr.rstrip_chars l.
Proof.
  intros B. unfold PyStr.rstrip_chars. rewrite rev_app_distr.
  rewrite lstrip_chars_blank; [reflexivity|].
  now apply Stdlib.Lists.List.Forall_rev.
Qed.

(** Blanks around a string do not survive [strip]. *)
Lemma strip_chars_blank ws1 l ws2 :
  blank ws1 -> blank ws2 ->
  PyStr.strip_chars (ws1 ++ l ++ ws2)%list = PyStr.strip_chars l.
Proof.
  intros B1 B2. unfold PyStr.strip_chars. rewrite lstrip_chars_blank by exact B1.
  destruct (PyStr.lstrip_chars l) as [|c k] eqn:E.
  - apply lstrip_chars_nil_blank in E.
    rewrite blank_lstrip_chars; [reflexivity|].
    apply Forall_app. now split.
  - rewrite lstrip_chars_app by (rewrite E; discriminate).
    rewrite E. now apply rstrip_chars_blank.
Qed.

(** What [strip] removes is blank. *)
Lemma lstrip_chars_split l :
  exists ws, blank ws /\ l = (ws ++ PyStr.lstrip_chars l)%list.
Proof.
  induction l as [|c l (ws & B & E)]; [exists []; split; [constructor | reflexivity]|].
  cbn [PyStr.lstrip_chars]. destruct (PyStr.isspace c) eqn:Hc.
  - exists (c :: ws). split; [now constructor|]. cbn. now f_equal.
  - exists []. split; [constructor | reflexivity].
Qed.

Lemma strip_chars_split l :
  exists ws1 ws2,
    blank ws1 /\ blank ws2 /\ l = (ws1 ++ PyStr.strip_chars l ++ ws2)%list.
Proof.
  destruct (lstrip_chars_split l) as (ws1 & B1 & E1).
  destruct (lstrip_chars_split (rev (PyStr.lstrip_chars l))) as (ws2 & B2 & E2).
  exists ws1, (rev ws2). split; [exact B1|]. split.
  - now apply Stdlib.Lists.List.Forall_rev.
  - unfold PyStr.strip_chars, PyStr.rstrip_chars.
    rewrite <- rev_app_distr, <- E2, rev_involutive. exact E1.
Qed.

(** Splitting after appending or prepending comma-free characters. *)
Lemma split_chars_nonempty sep l : PyStr.split_chars sep l <> [].
Proof.
  destruct l as [|c l]; [discriminate|]. cbn.
  destruct (Ascii.eqb c sep); [discriminate|].
  destruct (PyStr.split_chars sep l); discriminate.
Qed.

Lemma split_chars_app_tail l tl :
  comma_free tl ->
  PyStr.split_chars ","%char (l ++ tl)%list
  = app_last (PyStr.split_chars ","%char l) tl.
Proof.
  intros F. induction l as [|c l IH].
  - cbn. now rewrite split_chars_none.
  - cbn [app PyStr.split_chars]. rewrite IH.
    destruct (Ascii.eqb c ","%char).
    + pose proof (split_chars_nonempty ","%char l) as N.
      destruct (PyStr.split_chars ","%char l) as [|p ps]; [easy|]. reflexivity.
    + pose proof (split_chars_nonempty ","%char l) as N.
      destruct (PyStr.split_chars ","%char l) as [|p [|q ps]]; [easy| |];
        reflexivity.
Qed.

Lemma split_chars_app_head hd l :
  comma_free hd ->
  PyStr.split_chars ","%char (hd ++ l)%list
  = match PyStr.split_chars ","%char l with
    | p :: ps => (hd ++ p)%list :: ps
    | [] => [hd]
    end.
Proof.
  intros F. induction F as [|c hd Hc F IH].
  - cbn. pose proof (split_chars_nonempty ","%char l).
    now destruct (PyStr.split_chars ","%char l).
  - cbn [app PyStr.split_chars]. rewrite Hc, IH.
    now destruct (PyStr.split_chars ","%char l).
Qed.

(** [parse_dicom_tag] on a list of characters, in closed form. *)
Lemma parse_dicom_tag_chars l :
  parse_dicom_tag (string_of_list_ascii l)
  = match map PyStr.strip_chars
            (PyStr.split_chars ","%char (PyStr.strip_chars l)) with
    | [p0; p1] =>
        match PyStr.int16_chars p0, PyStr.int16_chars p1 with
        | Some g, Some e => Ok (g, e)
        | _, _ =>
            Raise (ValueError
                     ("Invalid hex values in tag: '" ++ string_of_list_ascii p0
                      ++ "', '" ++ string_of_list_ascii p1 ++ "'."))
        end
    | _ =>
        Raise (ValueError
                 "Tag string must contain exactly one comma inside parentheses.")
    end.
Proof.
  unfold parse_dicom_tag, PyStr.split, PyStr.strip, PyStr.int16.
  rewrite !list_ascii_of_string_of_list_ascii.
  destruct (PyStr.split_chars _ _) as [|a [|b [|c k]]]; cbn [map]; try reflexivity.
  now rewrite !list_ascii_of_string_of_list_ascii.
Qed.

Lemma map_strip_app_last parts ws :
  blank ws -> parts <> [] ->
  map PyStr.strip_chars (app_last parts ws) = map PyStr.strip_chars parts.
Proof.
  intros B. induction parts as [|p ps IH]; [easy|]. intros _.
  destruct ps as [|q ps].
  - cbn. f_equal.
    rewrite <- (strip_chars_blank [] p ws) by (constructor || exact B).
    reflexivity.
  - change (app_last (p :: q :: ps) ws) with (p :: app_last (q :: ps) ws).
    cbn [map]. f_equal. now apply IH.
Qed.

(** Stripping the whole string first does not change the stripped parts. *)
Lemma strip_parts_of_stripped l :
  map PyStr.strip_chars (PyStr.split_chars ","%char (PyStr.strip_chars l))
  = map PyStr.strip_chars (PyStr.split_chars ","%char l).
Proof.
  destruct (strip_chars_split l) as (ws1 & ws2 & B1 & B2 & E).
  remember (PyStr.strip_chars l) as k eqn:Ek. clear Ek. subst l.
  rewrite split_chars_app_head by now apply blank_comma_free.
  rewrite split_chars_app_tail by now apply blank_comma_free.
  rewrite <- (map_strip_app_last (PyStr.split_chars ","%char k) ws2 B2)
    by apply split_chars_nonempty.
  assert (N : app_last (PyStr.split_chars ","%char k) ws2 <> []).
  { destruct (PyStr.split_chars ","%char k) as [|p [|q ps]]; discriminate. }
  destruct (app_last _ ws2) as [|p ps]; [easy|].
  cbn [map]. f_equal.
  rewrite <- (app_nil_r (ws1 ++ p)%list), <- app_assoc. symmetry.
  apply strip_chars_blank; [exact B1 | constructor].
Qed.

(** X1: blanks around the whole tag string and around each of its two
    components do not matter: the string parses as the one without them,
    to the same values or to the same error. *)
Theorem parse_dicom_tag_ignores_blanks (ws1 a ws2 ws3 b ws4 : list ascii) :
  blank ws1 -> blank ws2 -> blank ws3 -> blank ws4 ->
  comma_free a -> comma_free b ->
  parse_dicom_tag
    (string_of_list_ascii
       ((ws1 ++ a ++ ws2) ++ ","%char :: (ws3 ++ b ++ ws4))%list)
  = parse_dicom_tag (string_of_list_ascii (a ++ ","%char :: b)%list).
Proof.
  intros B1 B2 B3 B4 Fa Fb.
  assert (F1 : comma_free (ws1 ++ a ++ ws2)%list).
  { apply Forall_app; split; [now apply blank_comma_free|].
    apply Forall_app; split; [exact Fa | now apply blank_comma_free]. }
  assert (F2 : comma_free (ws3 ++ b ++ ws4)%list).
  { apply Forall_app; split; [now apply blank_comma_free|].
    apply Forall_app; split; [exact Fb | now apply blank_comma_free]. }
  rewrite !parse_dicom_tag_chars, !strip_parts_of_stripped.
  rewrite (split_chars_one _ _ _ F1 F2), (split_chars_one _ _ _ Fa Fb).
  cbn [map]. now rewrite !strip_chars_blank.
Qed.

Lemma parse_dicom_tag_ignores_blanks_witness :
  blank (chars " ") /\ blank (chars "  ") /\ blank [] /\ blank (chars " ")
  /\ comma_free (chars "7fe0") /\ comma_free (chars "0010")
  /\ parse_dicom_tag " 7fe0  ,0010 " = parse_dicom_tag "7fe0,0010".
Proof.
  assert (B1 : blank (chars " ")) by (repeat constructor).
  assert (B2 : blank (chars "  ")) by (repeat constructor).
  assert (B3 : blank []) by constructor.
  assert (Fa : comma_free (chars "7fe0")) by (repeat constructor).
  assert (Fb : comma_free (chars "0010")) by (repeat constructor).
  repeat (split; [assumption|]).
  exact (parse_dicom_tag_ignores_blanks (chars " ") (chars "7fe0") (chars "  ")
           [] (chars "0010") (chars " ") B1 B2 B3 B1 Fa Fb).
Defined.

(** ** Outcomes of the tag extraction *)

(** The table of outcomes of lines 117-144 of [dicom_upload]. *)
Lemma extract_tag_cases `{External} (s : string) (ds : FileDataset)
        (rd : response_data) :
  match parse_dicom_tag s with
  | Raise x =>
      extract_tag s ds rd
      = Raise (HTTPException 400 ("Invalid tag format: " ++ str_exn x))
  | Ok (g, e) =>
      if (65535 <? g) || (65535 <? e) then
        exists d, extract_tag s ds rd = Raise (HTTPException 500 d)
      else if (g <? 0) || (e <? 0) then
        exists d, extract_tag s ds rd = Raise (HTTPException 400 d)
      else
        match resolve ds (65536 * g + e) with
        | Some el =>
            extract_tag s ds rd
            = Ok (set_tag_data rd {| td_tag := str_tag (tag el);
                                     td_keyword := keyword el;
                                     td_vr := VR el |})
        | None =>
            extract_tag s ds rd
            = Raise (HTTPException 500
                       ("Error extracting tag: 404: Tag " ++ s
                        ++ " not found in DICOM file"))
        end
  end.
Proof.
  destruct (parse_dicom_tag s) as [[g e]|x] eqn:P.
  - destruct ((65535 <? g) || (65535 <? e)) eqn:O.
    + unfold extract_tag. rewrite P. cbn [bind]. unfold Tag. rewrite O.
      cbn. eauto.
    + apply orb_false_iff in O. destruct O as [Og Oe].
      apply Z.ltb_ge in Og, Oe.
      destruct ((g <? 0) || (e <? 0)) eqn:N.
      * unfold extract_tag. rewrite P. cbn [bind]. unfold Tag.
        destruct (Z.ltb_spec 65535 g); [lia|].
        destruct (Z.ltb_spec 65535 e); [lia|]. cbn [orb].
        assert (L : Z.lor (Z.shiftl g 16) e < 0).
        { apply Z.lor_neg. rewrite Z.shiftl_neg.
          apply orb_true_iff in N. destruct N as [N|N];
            apply Z.ltb_lt in N; auto. }
        destruct (Z.ltb_spec (Z.lor (Z.shiftl g 16) e) 0); [cbn; eauto | lia].
      * apply orb_false_iff in N. destruct N as [Ng Ne].
        apply Z.ltb_ge in Ng, Ne.
        destruct (Tag_in_range g e (conj Ng Og) (conj Ne Oe)) as (T & _).
        destruct (resolve ds (65536 * g + e)) as [el|] eqn:R.
        -- now apply (extract_tag_found s ds rd g e _ el P T).
        -- now apply (extract_tag_not_found s ds rd g e _ P T).
  - pose proof (parse_dicom_tag_raises s x P) as V.
    unfold extract_tag. rewrite P. cbn. now rewrite V.
Qed.

(** X2: the outcome of lines 117-144 of [dicom_upload], case by case.  A
    string that does not parse gives a 400; a component above 0xFFFF gives a
    500; a negative component gives a 400; a tag that resolves gives the
    response with its tag data; a tag that does not gives a 500 (quoting the
    404).  No other exception and no other status leaves. *)
Theorem extract_tag_outcome `{External} (s : string) (ds : FileDataset)
        (rd : response_data) :
  match parse_dicom_tag s with
  | Raise x =>
      extract_tag s ds rd
      = Raise (HTTPException 400 ("Invalid tag format: " ++ str_exn x))
  | Ok (g, e) =>
      if (65535 <? g) || (65535 <? e) then
        exists d, extract_tag s ds rd = Raise (HTTPException 500 d)
      else if (g <? 0) || (e <? 0) then
        exists d, extract_tag s ds rd = Raise (HTTPException 400 d)
      else
        match resolve ds (65536 * g + e) with
        | Some el =>
            extract_tag s ds rd
            = Ok (set_tag_data rd {| td_tag := str_tag (tag el);
                                     td_keyword := keyword el;
                                     td_vr := VR el |})
        | None =>
            extract_tag s ds rd
            = Raise (HTTPException 500
                       ("Error extracting tag: 404: Tag " ++ s
                        ++ " not found in DICOM file"))
        end
  end.
Proof. exact (extract_tag_cases s ds rd). Qed.

(** X3: a successful extraction describes an element that carries the tag
    asked for and comes from the primary table or, for group 0x0002 only,
    from the file-meta table; nothing but the tag data of the response is
    changed. *)
Theorem extract_tag_describes_requested `{External} (s : string)
        (ds : FileDataset) (rd rd1 : response_data) :
  extract_tag s ds rd = Ok rd1 ->
  exists g e el,
    parse_dicom_tag s = Ok (g, e)
    /\ 0 <= g <= 65535 /\ 0 <= e <= 65535
    /\ tag el = 65536 * g + e
    /\ (In el (elements ds) \/ (g = 2 /\ In el (file_meta ds)))
    /\ rd1 = set_tag_data rd {| td_tag := str_tag (tag el);
                                td_keyword := keyword el; td_vr := VR el |}.
Proof.
  intros E. pose proof (extract_tag_cases s ds rd) as O.
  destruct (parse_dicom_tag s) as [[g e]|x]; [|congruence].
  destruct ((65535 <? g) || (65535 <? e)) eqn:Ov;
    [destruct O; congruence|].
  destruct ((g <? 0) || (e <? 0)) eqn:N; [destruct O; congruence|].
  apply orb_false_iff in Ov, N. destruct Ov as [Og Oe], N as [Ng Ne].
  apply Z.ltb_ge in Og, Oe, Ng, Ne.
  destruct (resolve ds (65536 * g + e)) as [el|] eqn:R; [|congruence].
  rewrite O in E. injection E as <-.
  exists g, e, el. repeat split; try lia.
  - unfold resolve, get in R.
    destruct (List.find _ (elements ds)) as [el'|] eqn:F.
    + injection R as ->. apply find_some in F. now apply Z.eqb_eq.
    + destruct (_ && _); [|discriminate].
      apply find_some in R. now apply Z.eqb_eq.
  - unfold resolve, get in R.
    destruct (List.find _ (elements ds)) as [el'|] eqn:F.
    + injection R as ->. apply find_some in F. now left.
    + destruct (tag_group (65536 * g + e) =? 2) eqn:G; [|discriminate].
      destruct (negb _); [|discriminate].
      apply find_some in R. right. split; [|easy].
      apply Z.eqb_eq in G.
      destruct (Tag_in_range g e (conj Ng Og) (conj Ne Oe)) as (_ & Tg & _).
      congruence.
Qed.

Lemma extract_tag_describes_requested_witness :
  @extract_tag sample_external "0002,0010" no_pixels first_response
  = Ok (set_tag_data first_response
          {| td_tag := "(0002,0010)"; td_keyword := "TransferSyntaxUID";
             td_vr := "UI" |})
  /\ exists g e el,
       parse_dicom_tag "0002,0010" = Ok (g, e)
       /\ 0 <= g <= 65535 /\ 0 <= e <= 65535
       /\ tag el = 65536 * g + e
       /\ (In el (elements no_pixels) \/ (g = 2 /\ In el (file_meta no_pixels)))
       /\ set_tag_data first_response
            {| td_tag := "(0002,0010)"; td_keyword := "TransferSyntaxUID";
               td_vr := "UI" |}
          = set_tag_data first_response
              {| td_tag := @str_tag sample_external (tag el);
                 td_keyword := keyword el; td_vr := VR el |}.
Proof.
  split; [reflexivity|].
  exact (@extract_tag_describes_requested sample_external "0002,0010"
           no_pixels first_response _ eq_refl).
Defined.

(** ** More on header values *)

Lemma lstrip_chars_head_not_space l c k :
  PyStr.lstrip_chars l = c :: k -> PyStr.isspace c = false.
Proof.
  induction l as [|x l IH]; [discriminate|].
  cbn [PyStr.lstrip_chars]. destruct (PyStr.isspace x) eqn:E; [exact IH|].
  now intros [= <- _].
Qed.

Lemma lstrip_chars_fixed l :
  match l with c :: _ => PyStr.isspace c = false | [] => True end ->
  PyStr.lstrip_chars l = l.
Proof.
  destruct l as [|c l]; [reflexivity|]. intros E. now apply lstrip_chars_head.
Qed.

Lemma lstrip_chars_idem l :
  PyStr.lstrip_chars (PyStr.lstrip_chars l) = PyStr.lstrip_chars l.
Proof.
  apply lstrip_chars_fixed. destruct (PyStr.lstrip_chars l) as [|c k] eqn:E;
    [exact I|]. eapply lstrip_chars_head_not_space; exact E.
Qed.

Lemma rstrip_chars_idem l :
  PyStr.rstrip_chars (PyStr.rstrip_chars l) = PyStr.rstrip_chars l.
Proof.
  unfold PyStr.rstrip_chars. now rewrite rev_involutive, lstrip_chars_idem.
Qed.

(** What [rstrip] keeps is a prefix. *)
Lemma rstrip_chars_prefix l :
  exists ws, l = (PyStr.rstrip_chars l ++ ws)%list.
Proof.
  destruct (lstrip_chars_split (rev l)) as (ws & _ & E).
  exists (rev ws). unfold PyStr.rstrip_chars.
  rewrite <- rev_app_distr, <- E. now rewrite rev_involutive.
Qed.

Lemma strip_chars_idem l :
  PyStr.strip_chars (PyStr.strip_chars l) = PyStr.strip_chars l.
Proof.
  unfold PyStr.strip_chars at 1 2.
  set (m := PyStr.lstrip_chars l).
  assert (L : PyStr.lstrip_chars (PyStr.rstrip_chars m) = PyStr.rstrip_chars m).
  { apply lstrip_chars_fixed.
    destruct (PyStr.rstrip_chars m) as [|c k] eqn:E; [exact I|].
    destruct (rstrip_chars_prefix m) as [ws Em]. rewrite E in Em.
    apply (lstrip_chars_head_not_space l c (k ++ ws)%list). exact Em. }
  rewrite L. apply rstrip_chars_idem.
Qed.

Lemma strip_idem s : PyStr.strip (PyStr.strip s) = PyStr.strip s.
Proof.
  unfold PyStr.strip. rewrite list_ascii_of_string_of_list_ascii.
  now rewrite strip_chars_idem.
Qed.

(** X4: a header value has no white space at either end: stripping it again
    changes nothing. *)
Theorem header_value_is_stripped (elem : DataElement) (v : string) :
  dicom_value_to_header elem = Some v -> PyStr.strip v = v.
Proof.
  unfold dicom_value_to_header.
  destruct (String.eqb (VR elem) "SQ" || is_None (value elem));
    [discriminate|].
  destruct (stringify (value elem)) as [value0|]; [|discriminate].
  destruct (_ && _); [|discriminate].
  intros [= <-]. apply strip_idem.
Qed.

Lemma header_value_is_stripped_witness :
  dicom_value_to_header patient_name = Some "Doe^John"
  /\ PyStr.strip "Doe^John" = "Doe^John".
Proof.
  split; [reflexivity|].
  exact (header_value_is_stripped patient_name "Doe^John" eq_refl).
Defined.

Lemma str_all_ok ss : str_all (map Ok ss) = Ok ss.
Proof.
  induction ss as [|s ss IH]; [reflexivity|].
  cbn [map str_all bind]. now rewrite IH.
Qed.

Lemma str_all_raises items e :
  In (Raise e) items -> exists e', str_all items = Raise e'.
Proof.
  induction items as [|x items IH]; [easy|].
  intros [->|Hin]; cbn [str_all bind]; [eauto|].
  destruct x as [s|e0]; [|eauto].
  destruct (IH Hin) as [e' ->]. eauto.
Qed.

(** X5: for a value that is iterable and not a string, the items are
    joined with a comma and a blank before the line breaks are replaced and
    the blanks stripped; and one item whose [str()] raises makes the whole
    element give no header, without any exception leaving. *)
Theorem multi_valued_header (elem : DataElement)
        (items : list (result string)) :
  value elem = VIter items ->
  (forall ss, items = map Ok ss ->
     dicom_value_to_header elem
     = if String.eqb (VR elem) "SQ" then None
       else
         let v := PyStr.strip
                    (PyStr.replace CR ""
                       (PyStr.replace LF " " (PyStr.join ", " ss))) in
         if truthy v then Some v else None)
  /\ (forall e, In (Raise e) items -> dicom_value_to_header elem = None).
Proof.
  intros V. split.
  - intros ss ->. unfold dicom_value_to_header. rewrite V.
    cbn [is_None stringify]. rewrite str_all_ok. cbn [bind].
    destruct (String.eqb (VR elem) "SQ"); [reflexivity|]. cbn [orb].
    set (w := PyStr.replace CR "" _).
    destruct (truthy (PyStr.strip w)) eqn:T; [|now rewrite andb_false_r].
    rewrite andb_true_r. destruct (truthy w) eqn:Tw; [reflexivity|].
    exfalso. unfold truthy in Tw. apply negb_false_iff, String.eqb_eq in Tw.
    rewrite Tw in T. discriminate.
  - intros e Hin. unfold dicom_value_to_header. rewrite V.
    cbn [is_None stringify]. destruct (str_all_raises items e Hin) as [e' ->].
    cbn [bind]. now destruct (_ || _).
Qed.

Lemma multi_valued_header_witness :
  value {| tag := 2621488; keyword := "PixelSpacing"; VR := "DS";
           value := VIter [Ok "0.5"; Ok "0.5"] |}
  = VIter [Ok "0.5"; Ok "0.5"]
  /\ dicom_value_to_header
       {| tag := 2621488; keyword := "PixelSpacing"; VR := "DS";
          value := VIter [Ok "0.5"; Ok "0.5"] |}
     = Some "0.5, 0.5".
Proof.
  split; [reflexivity|].
  exact (proj1 (multi_valued_header
                  {| tag := 2621488; keyword := "PixelSpacing"; VR := "DS";
                     value := VIter [Ok "0.5"; Ok "0.5"] |}
                  [Ok "0.5"; Ok "0.5"] eq_refl) ["0.5"; "0.5"] eq_refl).
Defined.

(** ** The header dictionary *)

Lemma dict_get_set_eq d k v : dict_get (dict_set d k v) k = Some v.
Proof.
  induction d as [|[k' v'] d IH]; cbn.
  - now rewrite String.eqb_refl.
  - destruct (String.eqb k' k) eqn:E; cbn; now rewrite E.
Qed.

Lemma dict_get_set_ne d k v k' :
  k' <> k -> dict_get (dict_set d k v) k' = dict_get d k'.
Proof.
  intros Hne. induction d as [|[k0 v0] d IH]; cbn.
  - destruct (String.eqb_spec k k'); [congruence | reflexivity].
  - destruct (String.eqb_spec k0 k) as [->|N]; cbn.
    + destruct (String.eqb_spec k k'); [congruence | reflexivity].
    + now rewrite IH.
Qed.

Lemma dict_set_keys d k v x :
  In x (map fst (dict_set d k v)) <-> In x (map fst d) \/ x = k.
Proof.
  induction d as [|[k0 v0] d IH]; cbn.
  - intuition.
  - destruct (String.eqb_spec k0 k) as [->|N]; cbn; [intuition|].
    rewrite IH. intuition.
Qed.

Lemma dict_set_NoDup d k v :
  List.NoDup (map fst d) -> List.NoDup (map fst (dict_set d k v)).
Proof.
  induction d as [|[k0 v0] d IH]; cbn; intros N.
  - constructor; [easy | constructor].
  - inversion N as [|? ? Hn Nd]; subst.
    destruct (String.eqb_spec k0 k) as [->|Ne]; cbn; [now constructor|].
    constructor; [|now apply IH].
    rewrite dict_set_keys. intros [Hin| ->]; [easy | congruence].
Qed.

Lemma dict_set_In d k v k' v' :
  In (k', v') (dict_set d k v) -> In (k', v') d \/ (k' = k /\ v' = v).
Proof.
  induction d as [|[k0 v0] d IH]; cbn.
  - intros [[= <- <-]|[]]. now right.
  - destruct (String.eqb_spec k0 k) as [->|Ne]; cbn.
    + intros [[= <- <-]|Hin]; [now right | now left; right].
    + intros [E|Hin]; [now left; left|].
      destruct (IH Hin) as [?|?]; [left; now right | now right].
Qed.

Lemma add_header_eq `{External} hs elem :
  add_header hs elem
  = if image_related elem then
      match dicom_value_to_header elem with
      | Some v => dict_set hs (header_name elem) v
      | None => hs
      end
    else hs.
Proof.
  unfold add_header, image_related, header_name.
  destruct (existsb _ _); [|reflexivity].
  destruct (dicom_value_to_header elem) as [v|] eqn:E; [|reflexivity].
  apply dicom_value_to_header_single_line in E. destruct E as [Hne _].
  unfold truthy at 1. destruct (String.eqb_spec v ""); [contradiction|].
  reflexivity.
Qed.

Lemma x_dicom_unfold r :
  "X-DICOM-" ++ r
  = String "X" (String "-" (String "D" (String "I" (String "C"
      (String "O" (String "M" (String "-" r))))))).
Proof. reflexivity. Qed.

Lemma header_name_prefix elem : exists r, header_name elem = "X-DICOM-" ++ r.
Proof. unfold header_name. destruct (truthy _); eauto. Qed.

(** The loop keeps the names of the dictionary distinct. *)
Lemma headers_loop_NoDup `{External} els : forall hs,
  List.NoDup (map fst hs) ->
  List.NoDup (map fst (fold_left add_header els hs)).
Proof.
  induction els as [|el els IH]; intros hs N; [exact N|].
  cbn [fold_left]. apply IH. rewrite add_header_eq.
  destruct (image_related el); [|exact N].
  destruct (dicom_value_to_header el); [|exact N].
  now apply dict_set_NoDup.
Qed.

(** An entry under a name the loop does not use is still there after it. *)
Lemma headers_loop_get `{External} els k : forall hs,
  (forall el, In el els -> image_related el = true -> header_name el <> k) ->
  dict_get (fold_left add_header els hs) k = dict_get hs k.
Proof.
  induction els as [|el els IH]; intros hs Hk; [reflexivity|].
  cbn [fold_left]. rewrite IH by (intros; apply Hk; [now right | assumption]).
  rewrite add_header_eq.
  destruct (image_related el) eqn:G; [|reflexivity].
  destruct (dicom_value_to_header el); [|reflexivity].
  apply dict_get_set_ne. intros E. symmetry in E. revert E.
  apply Hk; [now left | exact G].
Qed.

(** Where the entries of the final dictionary come from. *)
Lemma headers_loop_In `{External} els k v : forall hs,
  In (k, v) (fold_left add_header els hs) ->
  In (k, v) hs
  \/ exists el, In el els /\ image_related el = true
                /\ dicom_value_to_header el = Some v /\ k = header_name el.
Proof.
  induction els as [|el els IH]; intros hs Hin; [now left|].
  cbn [fold_left] in Hin. destruct (IH _ Hin) as [Hh|(el' & I' & R)].
  - rewrite add_header_eq in Hh.
    destruct (image_related el) eqn:G; [|now left].
    destruct (dicom_value_to_header el) as [v'|] eqn:D; [|now left].
    apply dict_set_In in Hh. destruct Hh as [?|[-> ->]]; [now left|].
    right. exists el. repeat split; auto. now left.
  - right. exists el'. split; [now right | exact R].
Qed.

Lemma render_image_inv `{External} file_id ds rd content media hs :
  render file_id ds rd = Ok (StreamingResponse content media hs) ->
  exists t,
    r_tag_data rd = Some t
    /\ convert_dicom_to_png ds = Ok content
    /\ media = "image/png"
    /\ hs = fold_left add_header (elements ds) (five_headers file_id t).
Proof.
  unfold render. destruct (hasattr (pixel_array ds)) as [[|]|x];
    cbn [bind]; try discriminate.
  unfold try_except, bind.
  destruct (convert_dicom_to_png ds) as [png|e]; [|discriminate].
  unfold fixed_headers. destruct (r_tag_data rd) as [t|]; [|discriminate].
  intros [= <- <- <-]. exists t. auto.
Qed.

Lemma dicom_upload_image_inv `{External} file_id s ds rd content media hs :
  dicom_upload file_id s ds rd = Ok (StreamingResponse content media hs) ->
  exists td,
    extract_tag s ds rd = Ok (set_tag_data rd td)
    /\ convert_dicom_to_png ds = Ok content
    /\ media = "image/png"
    /\ hs = fold_left add_header (elements ds) (five_headers file_id td).
Proof.
  unfold dicom_upload. destruct (extract_tag s ds rd) as [rd1|x] eqn:E;
    [|discriminate]. cbn [bind]. intros R.
  destruct (extract_tag_ok_any s ds rd rd1 E) as (td & -> & _).
  apply render_image_inv in R. destruct R as (t & T & C & M & Hs).
  cbn in T. injection T as <-. exists td. auto.
Qed.

Lemma header_name_not_fixed elem k :
  In k ["Content-Disposition"; "X-Tag"; "X-Keyword"; "X-VR"] ->
  header_name elem <> k.
Proof.
  destruct (header_name_prefix elem) as [r ->]. rewrite x_dicom_unfold.
  intros [<-|[<-|[<-|[<-|[]]]]]; discriminate.
Qed.

Lemma header_name_not_id elem :
  image_related elem = true -> keyword elem <> "ID" ->
  header_name elem <> "X-DICOM-ID".
Proof.
  intros G K. unfold header_name. destruct (truthy (keyword elem)).
  - rewrite x_dicom_unfold. intros [= E]. contradiction.
  - unfold image_related, image_related_groups in G. cbn [existsb] in G.
    rewrite orb_false_r in G.
    set (r := str_of_Z (tag_element (tag elem))). clearbody r.
    apply orb_true_iff in G. destruct G as [G|G];
      [|apply orb_true_iff in G; destruct G as [G|G]];
      apply Z.eqb_eq in G; rewrite G; rewrite x_dicom_unfold;
      intros [= E]; vm_compute in E; discriminate.
Qed.

(** X6: in an image response the header names are pairwise distinct, the
    media type is [image/png], and the entries [Content-Disposition],
    [X-Tag], [X-Keyword] and [X-VR] are those of the resolved tag whatever
    the data set holds; [X-DICOM-ID] is the file identifier unless an
    element is filed under the keyword ["ID"]. *)
Theorem image_response_headers `{External} (file_id s : string)
        (ds : FileDataset) (rd : response_data) (content : list Byte.byte)
        (media : string) (hs : list (string * string)) :
  dicom_upload file_id s ds rd = Ok (StreamingResponse content media hs) ->
  exists td,
    extract_tag s ds rd = Ok (set_tag_data rd td)
    /\ media = "image/png"
    /\ List.NoDup (map fst hs)
    /\ dict_get hs "Content-Disposition"
       = Some ("inline; filename=" ++ file_id ++ ".png")
    /\ dict_get hs "X-Tag" = Some (td_tag td)
    /\ dict_get hs "X-Keyword" = Some (td_keyword td)
    /\ dict_get hs "X-VR" = Some (td_vr td)
    /\ ((forall el, In el (elements ds) -> keyword el <> "ID") ->
        dict_get hs "X-DICOM-ID" = Some file_id).
Proof.
  intros U. apply dicom_upload_image_inv in U.
  destruct U as (td & E & _ & M & ->). exists td.
  split; [exact E|]. split; [exact M|]. split.
  - apply headers_loop_NoDup. cbn.
    repeat (constructor; [cbn; intuition discriminate|]). constructor.
  - repeat split;
      try (rewrite headers_loop_get;
           [reflexivity
           | intros el _ _; apply header_name_not_fixed; cbn; tauto]).
    intros K. rewrite headers_loop_get; [reflexivity|].
    intros el I G. apply header_name_not_id; auto.
Qed.

Lemma image_response_headers_witness :
  @dicom_upload sample_external "id-0" "0010,0010" ramp first_response
  = Ok (StreamingResponse
          (map (fun v => match Byte.of_N (Z.to_N v) with
                         | Some b => b | None => Byte.x00 end) [0; 127; 255])
          "image/png"
          [("Content-Disposition", "inline; filename=id-0.png");
           ("X-DICOM-ID", "id-0"); ("X-Tag", "(0010,0010)");
           ("X-Keyword", "PatientName"); ("X-VR", "PN");
           ("X-DICOM-StudyDescription", "Line1 Line2")])
  /\ exists td,
       @extract_tag sample_external "0010,0010" ramp first_response
       = Ok (set_tag_data first_response td)
       /\ "image/png" = "image/png"
       /\ List.NoDup
            ["Content-Disposition"; "X-DICOM-ID"; "X-Tag"; "X-Keyword";
             "X-VR"; "X-DICOM-StudyDescription"]
       /\ Some "inline; filename=id-0.png"
          = Some ("inline; filename=" ++ "id-0" ++ ".png")
       /\ Some "(0010,0010)" = Some (td_tag td)
       /\ Some "PatientName" = Some (td_keyword td)
       /\ Some "PN" = Some (td_vr td)
       /\ ((forall el, In el (elements ramp) -> keyword el <> "ID") ->
           Some "id-0" = Some "id-0").
Proof.
  split; [vm_compute; reflexivity|].
  exact (@image_response_headers sample_external "id-0" "0010,0010" ramp
           first_response _ _ _ eq_refl).
Defined.

(** X7: every header of an image response is one of the five fixed ones or
    was produced by the loop from an element of the groups 0x0008, 0x0018
    and 0x0028: its name starts with [X-DICOM-] and its value is not empty
    and holds neither a line feed nor a carriage return. *)
Theorem loop_headers_single_line `{External} (file_id s : string)
        (ds : FileDataset) (rd : response_data) (content : list Byte.byte)
        (media : string) (hs : list (string * string)) (k v : string) :
  dicom_upload file_id s ds rd = Ok (StreamingResponse content media hs) ->
  In (k, v) hs ->
  In k ["Content-Disposition"; "X-DICOM-ID"; "X-Tag"; "X-Keyword"; "X-VR"]
  \/ ((exists r, k = "X-DICOM-" ++ r) /\ single_line v
      /\ exists el, In el (elements ds) /\ image_related el = true
                    /\ dicom_value_to_header el = Some v).
Proof.
  intros U Hin. apply dicom_upload_image_inv in U.
  destruct U as (td & _ & _ & _ & ->).
  apply headers_loop_In in Hin. destruct Hin as [F|(el & I & G & D & ->)].
  - left. cbn in F. cbn.
    destruct F as [[= <- _]|[[= <- _]|[[= <- _]|[[= <- _]|[[= <- _]|[]]]]]];
      tauto.
  - right. split; [exact (header_name_prefix el)|]. split.
    + exact (dicom_value_to_header_single_line el v D).
    + exists el. auto.
Qed.

Lemma loop_headers_single_line_witness :
  @dicom_upload sample_external "id-0" "0010,0010" ramp first_response
  = Ok (StreamingResponse
          (map (fun v => match Byte.of_N (Z.to_N v) with
                         | Some b => b | None => Byte.x00 end) [0; 127; 255])
          "image/png"
          [("Content-Disposition", "inline; filename=id-0.png");
           ("X-DICOM-ID", "id-0"); ("X-Tag", "(0010,0010)");
           ("X-Keyword", "PatientName"); ("X-VR", "PN");
           ("X-DICOM-StudyDescription", "Line1 Line2")])
  /\ In ("X-DICOM-StudyDescription", "Line1 Line2")
        [("Content-Disposition", "inline; filename=id-0.png");
         ("X-DICOM-ID", "id-0"); ("X-Tag", "(0010,0010)");
         ("X-Keyword", "PatientName"); ("X-VR", "PN");
         ("X-DICOM-StudyDescription", "Line1 Line2")]
  /\ (In "X-DICOM-StudyDescription"
         ["Content-Disposition"; "X-DICOM-ID"; "X-Tag"; "X-Keyword"; "X-VR"]
      \/ ((exists r, "X-DICOM-StudyDescription" = "X-DICOM-" ++ r)
          /\ single_line "Line1 Line2"
          /\ exists el, In el (elements ramp) /\ image_related el = true
                        /\ dicom_value_to_header el = Some "Line1 Line2")).
Proof.
  assert (I6 : In ("X-DICOM-StudyDescription", "Line1 Line2")
                  [("Content-Disposition", "inline; filename=id-0.png");
                   ("X-DICOM-ID", "id-0"); ("X-Tag", "(0010,0010)");
                   ("X-Keyword", "PatientName"); ("X-VR", "PN");
                   ("X-DICOM-StudyDescription", "Line1 Line2")])
    by (do 5 right; left; reflexivity).
  split; [vm_compute; reflexivity|]. split; [exact I6|].
  exact (@loop_headers_single_line sample_external "id-0" "0010,0010" ramp
           first_response _ _ _ _ _ eq_refl I6).
Defined.

(** *** What becomes of a stringified value *)

Lemma replace_lf_cr l :
  PyStr.replace_chars CR [] (PyStr.replace_chars LF [" "%char] l)
  = flat_map (fun c => if Ascii.eqb c LF then [" "%char]
                       else if Ascii.eqb c CR then [] else [c]) l.
Proof.
  induction l as [|c l IH]; [reflexivity|].
  cbn [PyStr.replace_chars flat_map].
  destruct (Ascii.eqb c LF).
  - cbn [app PyStr.replace_chars]. change (Ascii.eqb " " CR) with false.
    cbn iota. now rewrite IH.
  - cbn [PyStr.replace_chars]. destruct (Ascii.eqb c CR); cbn [app];
      now rewrite IH.
Qed.

(** The replacements neither make white space nor remove anything else. *)
Lemma blank_replaced l :
  blank (flat_map (fun c => if Ascii.eqb c LF then [" "%char]
                            else if Ascii.eqb c CR then [] else [c]) l)
  <-> blank l.
Proof.
  unfold blank. induction l as [|c l IH]; [easy|].
  cbn [flat_map]. rewrite Forall_app, Forall_cons_iff, IH.
  destruct (Ascii.eqb_spec c LF) as [->|_];
    [|destruct (Ascii.eqb_spec c CR) as [->|_]].
  - split; [intros [_ B] | intros [_ B]]; (split; [|exact B]).
    + reflexivity.
    + repeat constructor.
  - split; [intros [_ B] | intros [_ B]]; (split; [|exact B]).
    + reflexivity.
    + constructor.
  - rewrite Forall_cons_iff. split.
    + intros [[Hc _] B]. now split.
    + intros [Hc B]. repeat split; [exact Hc | constructor | exact B].
Qed.

Lemma blank_of_lstrip_chars l : blank (PyStr.lstrip_chars l) -> blank l.
Proof.
  unfold blank. induction l as [|c l IH]; [easy|].
  cbn [PyStr.lstrip_chars]. destruct (PyStr.isspace c) eqn:E; [|easy].
  intros B. constructor; [exact E | now apply IH].
Qed.

(** Stripping leaves nothing exactly of white space. *)
Lemma strip_chars_nil_iff l : PyStr.strip_chars l = [] <-> blank l.
Proof.
  unfold PyStr.strip_chars, PyStr.rstrip_chars. split.
  - intros E. apply blank_of_lstrip_chars.
    apply (f_equal (@rev ascii)) in E. rewrite rev_involutive in E.
    cbn [rev] in E. apply lstrip_chars_nil_blank in E.
    unfold blank in *. apply Stdlib.Lists.List.Forall_rev in E.
    now rewrite rev_involutive in E.
  - intros B. rewrite (blank_lstrip_chars l B). reflexivity.
Qed.

(** The value of the header, from the stringified value of the element. *)
Lemma dicom_value_to_header_value elem value0 :
  VR elem <> "SQ" -> value elem <> VNone ->
  stringify (value elem) = Ok value0 ->
  (~ blank (chars value0) ->
   dicom_value_to_header elem
   = Some (string_of_list_ascii (one_line (chars value0))))
  /\ (blank (chars value0) -> dicom_value_to_header elem = None).
Proof.
  intros Hvr Hv Hs. unfold dicom_value_to_header. rewrite Hs.
  destruct (String.eqb_spec (VR elem) "SQ") as [|_]; [contradiction|].
  assert (N : is_None (value elem) = false)
    by (destruct (value elem); [contradiction | reflexivity..]).
  rewrite N. cbn [orb].
  set (value1 := PyStr.replace CR "" (PyStr.replace LF " " value0)).
  assert (S1 : PyStr.strip value1
               = string_of_list_ascii (one_line (chars value0))).
  { unfold value1, PyStr.strip, PyStr.replace, one_line.
    rewrite !list_ascii_of_string_of_list_ascii.
    change (list_ascii_of_string " ") with [" "%char].
    change (list_ascii_of_string "") with (@nil ascii).
    now rewrite replace_lf_cr. }
  assert (E0 : PyStr.strip value1 = "" <-> blank (chars value0)).
  { rewrite S1. unfold one_line. rewrite <- blank_replaced.
    rewrite <- strip_chars_nil_iff. split.
    - intros E. apply (f_equal chars) in E. now rewrite chars_of_list in E.
    - intros ->. reflexivity. }
  assert (T : truthy (PyStr.strip value1) = true -> truthy value1 = true).
  { unfold truthy. destruct (String.eqb_spec value1 "") as [->|]; [|easy].
    easy. }
  unfold truthy in *. split.
  - intros B. destruct (String.eqb_spec (PyStr.strip value1) "") as [E|_].
    + now apply E0 in E.
    + rewrite T by reflexivity. cbn. now rewrite S1.
  - intros B. apply E0 in B. rewrite B. cbn. now rewrite andb_false_r.
Qed.

(** C8: every element whose value is stringified.  Its header value is the
    stringified value with each line feed turned into a blank, each carriage
    return dropped, every other character kept, and the white space at both
    ends taken off; so a header value is never empty and holds neither a
    line feed nor a carriage return.  A value with a character that is no
    white space always gives a header, which the loop files under the name
    of the element (for the groups it looks at); a value of white space only
    gives none, and the loop skips the element.  ["Line1\nLine2"] becomes
    ["Line1 Line2"]. *)
Theorem header_value_single_line `{External} (elem : DataElement) :
  (forall v, dicom_value_to_header elem = Some v ->
             v <> "" /\ ~ In LF (chars v) /\ ~ In CR (chars v))
  /\ (forall value0,
        VR elem <> "SQ" -> value elem <> VNone ->
        stringify (value elem) = Ok value0 ->
        (~ blank (chars value0) ->
         dicom_value_to_header elem
         = Some (string_of_list_ascii (one_line (chars value0)))
         /\ (image_related elem = true ->
             forall hs,
               add_header hs elem
               = dict_set hs (header_name elem)
                   (string_of_list_ascii (one_line (chars value0)))))
        /\ (blank (chars value0) ->
            dicom_value_to_header elem = None
            /\ forall hs, add_header hs elem = hs))
  /\ (forall value0,
        stringify (value elem) = Ok value0 ->
        PyStr.strip (PyStr.replace CR "" (PyStr.replace LF " " value0)) = "" ->
        dicom_value_to_header elem = None
        /\ forall hs, add_header hs elem = hs)
  /\ dicom_value_to_header line1_line2 = Some "Line1 Line2".
Proof.
  split; [intros v; apply dicom_value_to_header_single_line|].
  split; [|split; [|reflexivity]].
  - intros value0 Hvr Hv Hs.
    destruct (dicom_value_to_header_value elem value0 Hvr Hv Hs) as [P N].
    split.
    + intros B. pose proof (P B) as E. split; [exact E|].
      intros G hs. now rewrite add_header_eq, G, E.
    + intros B. pose proof (N B) as E. split; [exact E|].
      intros hs. now apply add_header_skip.
  - intros value0 Hv Hs.
    pose proof (dicom_value_to_header_empty elem value0 Hv Hs) as E.
    split; [exact E|]. intros hs. now apply add_header_skip.
Qed.

Lemma header_value_single_line_witness :
  VR line1_line2 <> "SQ" /\ value line1_line2 <> VNone
  /\ stringify (value line1_line2) = Ok ("Line1" ++ String LF "Line2")
  /\ ~ blank (chars ("Line1" ++ String LF "Line2"))
  /\ dicom_value_to_header line1_line2 = Some "Line1 Line2"
  /\ forall hs,
       add_header hs line1_line2
       = dict_set hs "X-DICOM-StudyDescription" "Line1 Line2".
Proof.
  assert (A : VR line1_line2 <> "SQ") by discriminate.
  assert (B : value line1_line2 <> VNone) by discriminate.
  assert (C : ~ blank (chars ("Line1" ++ String LF "Line2"))).
  { intros F. inversion F as [|c l Hc _]. discriminate Hc. }
  split; [exact A|]. split; [exact B|]. split; [reflexivity|].
  split; [exact C|].
  destruct (proj1 (proj1 (proj2 (@header_value_single_line sample_external
                                   line1_line2))
                     ("Line1" ++ String LF "Line2") A B eq_refl) C)
    as [E L].
  split; [exact E | exact (L eq_refl)].
Defined.

(** ** More on the conversion to an image *)

(** X9: [convert_dicom_to_png] raises nothing but [ValueError].  An
    [AttributeError] from anywhere in its body - the missing pixel data, but
    also one raised by the encoder - is reported as missing pixel data; a
    grid without samples and any other failure are reported with the cause
    in the message. *)
Theorem conversion_failures `{External} (ds : FileDataset) :
  (forall e, convert_dicom_to_png ds = Raise e -> is_ValueError e = true)
  /\ (forall a sh g m,
        pixel_array ds = Raise (AttributeError m)
        \/ (pixel_array ds = Ok a /\ Np.png_image undef_uint8 a = Ok (sh, g)
            /\ png_save sh g = Raise (AttributeError m)) ->
        convert_dicom_to_png ds
        = Raise (ValueError "DICOM dataset doesn't contain pixel data"))
  /\ (forall a, pixel_array ds = Ok a -> Np.size_of a = 0%nat ->
        convert_dicom_to_png ds
        = Raise (ValueError
                   "Error processing DICOM pixel data: zero-size array to reduction operation fmin which has no identity"))
  /\ (forall a sh g x,
        pixel_array ds = Ok a -> Np.png_image undef_uint8 a = Ok (sh, g) ->
        png_save sh g = Raise x -> is_AttributeError x = false ->
        convert_dicom_to_png ds
        = Raise (ValueError
                   ("Error processing DICOM pixel data: " ++ str_exn x))).
Proof.
  unfold convert_dicom_to_png, try_except. repeat split.
  - intros e. destruct (bind (pixel_array ds) _) as [b|x]; [discriminate|].
    destruct (is_AttributeError x); intros [= <-]; reflexivity.
  - intros a sh g m [P|(P & I & S)]; rewrite P; cbn [bind]; [reflexivity|].
    rewrite I. cbn [bind]. now rewrite S.
  - intros a P Z. rewrite P. cbn [bind].
    destruct a as [sg b sh [|x d]|f sh [|x d]]; try discriminate; reflexivity.
  - intros a sh g x P I S A. rewrite P. cbn [bind]. rewrite I. cbn [bind].
    rewrite S. now rewrite A.
Qed.

Lemma conversion_failures_witness :
  pixel_array no_pixels
  = Raise (AttributeError "Unable to convert the pixel data")
  /\ @convert_dicom_to_png sample_external no_pixels
     = Raise (ValueError "DICOM dataset doesn't contain pixel data").
Proof.
  split; [reflexivity|].
  exact (proj1 (proj2 (@conversion_failures sample_external no_pixels))
           (Np.uint8 [] []) [] [] "Unable to convert the pixel data"
           (or_introl eq_refl)).
Defined.

Lemma astype_uint8_range undef x :
  0 <= undef <= 255 -> 0 <= Np.astype_uint8 undef x <= 255.
Proof.
  intros U. unfold Np.astype_uint8. destruct (Np.trunc x) as [v|]; [|exact U].
  destruct (Z.leb_spec 0 v), (Z.leb_spec v 255); cbn [andb]; lia.
Qed.

(** X10: the 8-bit grid has the shape of the pixel grid, one sample for
    each of its samples (at least one), and every sample lies in
    [0, 255] (provided the byte that an undefined cast leaves does). *)
Theorem png_image_is_8_bit (undef : Z) (a : Np.ndarray) (sh : list nat)
        (g : list Z) :
  Np.png_image undef a = Ok (sh, g) ->
  sh = Np.shape_of a /\ length g = Np.size_of a /\ (0 < length g)%nat
  /\ (0 <= undef <= 255 -> Forall (fun v => 0 <= v <= 255) g).
Proof.
  intros P.
  assert (Z0 : (0 < Np.size_of a)%nat).
  { unfold Np.png_image in P.
    destruct a as [sg b s [|x d]|f s [|x d]]; cbn in P; try discriminate;
      cbn; lia. }
  assert (Zr : Forall (fun v => 0 <= v <= 255) (Np.zeros (Np.size_of a))).
  { unfold Np.zeros. apply List.Forall_forall. intros v Hv.
    apply repeat_spec in Hv. lia. }
  unfold Np.png_image in P.
  destruct (Np.nanmin a) as [lo|]; [|discriminate].
  destruct (Np.nanmax a) as [hi|]; [|discriminate].
  destruct (_ && _).
  - destruct a as [sg b s d|f s d], lo as [lo|lo], hi as [hi|hi];
      injection P as <- <-; cbn [Np.shape_of Np.size_of] in *;
      repeat split; auto;
      try (unfold Np.zeros; now rewrite repeat_length);
      try (now rewrite length_map);
      try (rewrite length_map; exact Z0);
      try (unfold Np.zeros; rewrite repeat_length; exact Z0);
      intros U; apply List.Forall_forall; intros v Hv;
      apply in_map_iff in Hv; destruct Hv as (s0 & <- & _);
      now apply astype_uint8_range.
  - injection P as <- <-. repeat split; auto;
      unfold Np.zeros; rewrite repeat_length; auto.
Qed.

Lemma png_image_is_8_bit_witness :
  Np.png_image 0 (Np.uint16 [3%nat] [0; 50; 100]) = Ok ([3%nat], [0; 127; 255])
  /\ [3%nat] = [3%nat] /\ 3%nat = 3%nat /\ (0 < 3)%nat
  /\ (0 <= 0 <= 255 -> Forall (fun v => 0 <= v <= 255) [0; 127; 255]).
Proof.
  split; [vm_compute; reflexivity|].
  exact (png_image_is_8_bit 0 (Np.uint16 [3%nat] [0; 50; 100]) [3%nat]
           [0; 127; 255] eq_refl).
Defined.

Lemma SFltb_irrefl x : SFltb x x = false.
Proof.
  destruct x as [[]|[]| |[] m e]; try reflexivity;
    unfold SFltb, SFcompare;
    rewrite Z.compare_refl, Pos.compare_cont_refl; reflexivity.
Qed.

Lemma fold_fmin_repeat x n : fold_left Np.fmin (repeat x n) x = x.
Proof.
  induction n as [|n IH]; [reflexivity|]. cbn [repeat fold_left].
  replace (Np.fmin x x) with x; [exact IH|].
  unfold Np.fmin. now destruct (_ || _).
Qed.

Lemma fold_fmax_repeat x n : fold_left Np.fmax (repeat x n) x = x.
Proof.
  induction n as [|n IH]; [reflexivity|]. cbn [repeat fold_left].
  replace (Np.fmax x x) with x; [exact IH|].
  unfold Np.fmax. now destruct (_ || _).
Qed.

(** X11: a grid whose samples are all equal - integers of any width, or
    floats, be they finite, infinite or NaN - gives an all-zero image of the
    same shape, not an error. *)
Theorem constant_grid_is_black (undef : Z) (sh : list nat) (n : nat) :
  (forall signed bits v,
     Np.png_image undef (Np.IntArray signed bits sh (repeat v (S n)))
     = Ok (sh, Np.zeros (S n)))
  /\ (forall f x,
        Np.png_image undef (Np.FloatArray f sh (repeat x (S n)))
        = Ok (sh, Np.zeros (S n))).
Proof.
  split.
  - intros signed bits v. apply png_image_constant.
  - intros f x.
    rewrite (png_image_fallback undef _ (Np.FloatScalar x) (Np.FloatScalar x)).
    + cbn [Np.shape_of Np.size_of]. now rewrite repeat_length.
    + cbn. now rewrite fold_fmin_repeat.
    + cbn. now rewrite fold_fmax_repeat.
    + cbn. rewrite SFltb_irrefl. now rewrite andb_false_r.
Qed.

Lemma fold_min_spec xs : forall x,
  fold_left Z.min xs x <= x
  /\ (forall s, In s xs -> fold_left Z.min xs x <= s)
  /\ In (fold_left Z.min xs x) (x :: xs).
Proof.
  induction xs as [|y xs IH]; intros x; cbn [fold_left].
  - split; [lia|]. split; [easy | now left].
  - destruct (IH (Z.min x y)) as (L & A & I). split; [lia|]. split.
    + intros s [<-|Hs]; [lia | now apply A].
    + destruct I as [E|I]; [|now right; right].
      rewrite <- E. destruct (Z.min_spec x y) as [[_ ->]|[_ ->]];
        [now left | now right; left].
Qed.

Lemma fold_max_spec xs : forall x,
  x <= fold_left Z.max xs x
  /\ (forall s, In s xs -> s <= fold_left Z.max xs x)
  /\ In (fold_left Z.max xs x) (x :: xs).
Proof.
  induction xs as [|y xs IH]; intros x; cbn [fold_left].
  - split; [lia|]. split; [easy | now left].
  - destruct (IH (Z.max x y)) as (L & A & I). split; [lia|]. split.
    + intros s [<-|Hs]; [lia | now apply A].
    + destruct I as [E|I]; [|now right; right].
      rewrite <- E. destruct (Z.max_spec x y) as [[_ ->]|[_ ->]];
        [now right; left | now left].
Qed.

Lemma wrap_fits signed bits d s t :
  range_fits signed bits d -> In s d -> In t d -> t <= s ->
  Np.wrap signed bits (s - t) = s - t.
Proof.
  unfold range_fits, Np.wrap. intros R Hs Ht L. destruct signed.
  - destruct R as [B R]. pose proof (R s t Hs Ht) as F.
    assert (P : 2 ^ bits = 2 * 2 ^ (bits - 1)).
    { rewrite <- Z.pow_succ_r by lia. f_equal. lia. }
    assert (Q : 0 < 2 ^ (bits - 1)) by (apply Z.pow_pos_nonneg; lia).
    rewrite Z.mod_small by lia. cbn [andb].
    destruct (Z.leb_spec (2 ^ (bits - 1)) (s - t)); [lia | reflexivity].
  - destruct R as [B R]. pose proof (R s Hs). pose proof (R t Ht).
    cbn [andb]. apply Z.mod_small. lia.
Qed.

(** X12: as long as the samples and their range fit the integer type of the
    grid (always so for unsigned grids), no difference wraps around: every
    sample is scaled from the exact differences [s - min] and [max - min],
    by a double division and a double multiplication by 255, clipped and
    truncated. *)
Theorem scaling_without_overflow (undef : Z) (signed : bool) (bits : Z)
        (sh : list nat) (d : list Z) (lo hi : Z) :
  range_fits signed bits d ->
  Np.reduce Z.min d = Some lo -> Np.reduce Z.max d = Some hi -> lo < hi ->
  Np.png_image undef (Np.IntArray signed bits sh d)
  = Ok (sh, map (fun s => Np.astype_uint8 undef
                            (Np.clip Np.Binary64 (scale_exact lo hi s))) d).
Proof.
  intros R Hlo Hhi L. unfold Np.png_image, Np.nanmin, Np.nanmax.
  rewrite Hlo, Hhi. cbn [Np.scalar_isfinite Np.scalar_gt andb].
  destruct (Z.ltb_spec lo hi); [|lia]. do 2 f_equal.
  destruct d as [|x xs]; [discriminate|].
  cbn [Np.reduce] in Hlo, Hhi. injection Hlo as Hlo. injection Hhi as Hhi.
  destruct (fold_min_spec xs x) as (Lx & La & Li).
  destruct (fold_max_spec xs x) as (Ux & Ua & Ui).
  rewrite Hlo in Lx, La, Li. rewrite Hhi in Ux, Ua, Ui.
  apply map_ext_in. intros s Hs. unfold Np.scale_int, scale_exact.
  rewrite (wrap_fits signed bits (x :: xs) s lo R Hs Li)
    by (destruct Hs as [<-|Hs]; [exact Lx | now apply La]).
  rewrite (wrap_fits signed bits (x :: xs) hi lo R Ui Li) by lia.
  reflexivity.
Qed.

Lemma scaling_without_overflow_witness :
  range_fits false 16 [0; 50; 100]
  /\ Np.reduce Z.min [0; 50; 100] = Some 0
  /\ Np.reduce Z.max [0; 50; 100] = Some 100
  /\ 0 < 100
  /\ Np.png_image 0 (Np.IntArray false 16 [3%nat] [0; 50; 100])
     = Ok ([3%nat],
           map (fun s => Np.astype_uint8 0
                           (Np.clip Np.Binary64 (scale_exact 0 100 s)))
               [0; 50; 100]).
Proof.
  assert (R : range_fits false 16 [0; 50; 100]).
  { split; [lia|]. intros s [<-|[<-|[<-|[]]]]; cbn; lia. }
  split; [exact R|]. split; [reflexivity|]. split; [reflexivity|].
  split; [lia|].
  exact (scaling_without_overflow 0 false 16 [3%nat] [0; 50; 100] 0 100
           R eq_refl eq_refl eq_refl).
Defined.

(** ** The durable state across requests *)

Lemma step_in_sync `{External} w w' : step w w' -> in_sync w -> in_sync w'.
Proof.
  unfold in_sync.
  intros [content r w0 w1 E | ev w0]; [|easy]. intros S.
  rewrite ingest_eq in E.
  assert (N : forall ex, as_new content w0 ex = (r, w1) ->
                         match hash_map_json w1 with
                         | Some dumped => FILE_HASH_MAP w1 = dumped
                         | None => FILE_HASH_MAP w1 = ∅
                         end).
  { intros ex. unfold as_new.
    destruct (dcmread true content) as [ds|x] eqn:V.
    - destruct (store_new_valid content (calculate_file_hash content) w0 ds V)
        as (w2 & -> & I & _ & J & _). intros [= _ <-]. now rewrite I, J.
    - destruct (store_new_invalid content (calculate_file_hash content) w0 x V)
        as (w2 & -> & I & _ & J & _). intros [= _ <-]. now rewrite I, J. }
  destruct (existing_of _ w0) as [id|]; [|now apply (N None)].
  destruct (truthy id); [|now apply (N (Some id))].
  injection E as _ <-. exact S.
Qed.

Lemma steps_in_sync `{External} w w' : rtc step w w' -> in_sync w -> in_sync w'.
Proof.
  induction 1 as [|w wm w' St _ IH]; [easy|].
  intros S. apply IH. eapply step_in_sync; eauto.
Qed.

Lemma process_existing_file_steps `{External} pick tag_str w r w' :
  process_existing_file pick tag_str w = (r, w') ->
  w' = w \/ exists ev, w' = log ev w.
Proof.
  unfold process_existing_file, io_try, io_bind at 1, iterdir at 1.
  destruct (Nat.eqb _ 0).
  - unfold io_raise. intros [= _ <-]. now left.
  - unfold io_bind at 1, iterdir at 1, io_bind at 1, io_lift at 1.
    destruct (random_choice pick _) as [name|x].
    + unfold io_bind, dcmread_path, io_lift, io_raise.
      destruct (files w !! _) as [c|].
      * destruct (dcmread false c) as [ds|x].
        -- destruct (dicom_upload _ _ _ _); intros [= _ <-]; right; eauto.
        -- intros [= _ <-]. right; eauto.
      * intros [= _ <-]. right; eauto.
    + unfold io_raise. intros [= _ <-]. now left.
Qed.

Lemma ingest_frame `{External} content w r w' :
  ingest content w = (r, w') ->
  (forall h, h <> calculate_file_hash content ->
             FILE_HASH_MAP w' !! h = FILE_HASH_MAP w !! h)
  /\ (forall p, p <> get_file_path (uuid4 (uuid_draws w)) UPLOAD_DIR ->
                files w' !! p = files w !! p).
Proof.
  intros E.
  destruct (ingest_shape content w) as [(id & _ & _ & _ & Ei) | (_ & ex & Ei)];
    rewrite Ei in E.
  - injection E as _ <-. now split.
  - apply as_new_world in E. destruct E as (_ & [(_ & I & F) | (_ & I & F)]);
      rewrite I, F; split; intros x Hx;
      rewrite ?lookup_insert_ne, ?lookup_delete_ne by congruence; reflexivity.
Qed.

Lemma process_dicom_world `{External} content filename tag_str w r w' :
  process_dicom content filename tag_str w = (r, w') ->
  exists ri wi,
    ingest content w = (ri, wi)
    /\ FILE_HASH_MAP w' = FILE_HASH_MAP wi /\ files w' = files wi
    /\ hash_map_json w' = hash_map_json wi /\ uuid_draws w' = uuid_draws wi.
Proof.
  unfold process_dicom, io_try, io_bind at 1.
  destruct (ingest content w) as [[[[file_id file_path] existing]|e] wi] eqn:E.
  - unfold io_bind, dcmread_path, io_lift, io_raise. intros P.
    exists (Ok (file_id, file_path, existing)), wi. split; [reflexivity|].
    destruct (files wi !! file_path) as [c|].
    + destruct (dcmread false c) as [ds|x].
      * destruct (dicom_upload _ _ _ _); injection P as _ <-; now cbn.
      * injection P as _ <-. now cbn.
    + injection P as _ <-. now cbn.
  - unfold io_raise. intros [= _ <-]. exists (Raise e), wi. auto.
Qed.

(** X13: the index file never falls behind.  If the dictionary last dumped
    to the index file is the index in memory (or nothing was dumped and the
    index is empty), this is so again after every request to either
    handler, whatever its outcome; and [process_dicom] rewrites the file
    only to add the entry of the uploaded digest under the identifier just
    drawn. *)
Theorem index_file_is_current `{External} (w w' : world) :
  in_sync w ->
  (forall content filename tag_str r,
     process_dicom content filename tag_str w = (r, w') ->
     in_sync w'
     /\ (hash_map_json w' = hash_map_json w
         \/ hash_map_json w'
            = Some (<[calculate_file_hash content := uuid4 (uuid_draws w)]>
                      (FILE_HASH_MAP w))))
  /\ (forall pick tag_str r,
        process_existing_file pick tag_str w = (r, w') ->
        in_sync w' /\ hash_map_json w' = hash_map_json w).
Proof.
  intros S. split.
  - intros content filename tag_str r P. split.
    + apply process_dicom_steps in P. eapply steps_in_sync; eauto.
    + apply process_dicom_world in P.
      destruct P as (ri & wi & E & _ & _ & -> & _).
      rewrite ingest_eq in E.
      assert (N : forall ex, as_new content w ex = (ri, wi) ->
                    hash_map_json wi = hash_map_json w
                    \/ hash_map_json wi
                       = Some (<[calculate_file_hash content
                                 := uuid4 (uuid_draws w)]> (FILE_HASH_MAP w))).
      { intros ex. unfold as_new.
        destruct (dcmread true content) as [ds|x] eqn:V.
        - destruct (store_new_valid content (calculate_file_hash content) w
                      ds V) as (w2 & -> & _ & _ & J & _).
          intros [= _ <-]. now right.
        - destruct (store_new_invalid content (calculate_file_hash content) w
                      x V) as (w2 & -> & _ & _ & J & _).
          intros [= _ <-]. now left. }
      destruct (existing_of _ w) as [id|]; [|now apply (N None)].
      destruct (truthy id); [|now apply (N (Some id))].
      injection E as _ <-. now left.
  - intros pick tag_str r P.
    apply process_existing_file_steps in P. destruct P as [->|[ev ->]]; auto.
Qed.

Lemma index_file_is_current_witness :
  in_sync empty_world
  /\ in_sync (snd (@process_dicom sample_external dicm0 (Some "scan.dcm")
                     "0010,0010" empty_world)).
Proof.
  assert (S : in_sync empty_world) by reflexivity.
  split; [exact S|].
  exact (proj1 (proj1 (@index_file_is_current sample_external empty_world _ S)
                  dicm0 (Some "scan.dcm") "0010,0010" _
                  (surjective_pairing _))).
Defined.

(** X14: an upload touches nothing but its own: the index entries of all
    other digests and all stored files other than the one of the identifier
    it may draw are left as they were. *)
Theorem upload_touches_only_its_own `{External} (content : list Byte.byte)
        (filename : option string) (tag_str : string) (w w' : world)
        (r : result response) :
  process_dicom content filename tag_str w = (r, w') ->
  (forall h, h <> calculate_file_hash content ->
             FILE_HASH_MAP w' !! h = FILE_HASH_MAP w !! h)
  /\ (forall p, p <> get_file_path (uuid4 (uuid_draws w)) UPLOAD_DIR ->
                files w' !! p = files w !! p).
Proof.
  intros P. apply process_dicom_world in P.
  destruct P as (ri & wi & E & -> & -> & _). now apply (ingest_frame content w ri).
Qed.

Lemma upload_touches_only_its_own_witness :
  @process_dicom sample_external dicm1 None "0010,0010" after_dicm0
  = (fst (@process_dicom sample_external dicm1 None "0010,0010" after_dicm0),
     snd (@process_dicom sample_external dicm1 None "0010,0010" after_dicm0))
  /\ FILE_HASH_MAP
       (snd (@process_dicom sample_external dicm1 None "0010,0010" after_dicm0))
       !! "DICM0"
     = FILE_HASH_MAP after_dicm0 !! "DICM0".
Proof.
  split; [apply surjective_pairing|].
  apply (proj1 (@upload_touches_only_its_own sample_external dicm1 None
                  "0010,0010" after_dicm0 _ _ (surjective_pairing _))).
  discriminate.
Defined.

Lemma step_validated `{External} w w' :
  uuid4_one_segment ->
  step w w' -> consistent w -> entries_validated w -> entries_validated w'.
Proof.
  intros Hs [content r w0 w1 E | ev w0]; [|easy]. intros (_ & Fr & Seg) V.
  rewrite ingest_eq in E.
  assert (N : forall ex, as_new content w0 ex = (r, w1) -> entries_validated w1).
  { intros ex. unfold as_new.
    set (h := calculate_file_hash content).
    destruct (dcmread true content) as [ds|x] eqn:D.
    - destruct (store_new_valid content h w0 ds D) as (w2 & -> & I & F & _).
      intros [= _ <-]. intros h0 id0 c0. rewrite I, F.
      rewrite lookup_insert. case_decide as Hh.
      + intros [= <-]. rewrite lookup_insert_eq. intros [= <-]. subst h0.
        split; [reflexivity | eauto].
      + intros Hi. rewrite lookup_insert_ne; [now apply V|].
        intros G. apply get_file_path_inj in G; [|apply Hs | eapply Seg, Hi].
        subst id0. now apply Fr in Hi.
    - destruct (store_new_invalid content h w0 x D) as (w2 & -> & I & F & _).
      intros [= _ <-]. intros h0 id0 c0. rewrite I, F.
      intros Hi Hf. apply lookup_delete_Some in Hf. destruct Hf as [_ Hf].
      now apply (V h0 id0 c0). }
  destruct (existing_of _ w0) as [id|]; [|now apply (N None)].
  destruct (truthy id); [|now apply (N (Some id))].
  injection E as _ <-. exact V.
Qed.

(** X15: the reason why a duplicate need not be validated again.  If no
    identifier is drawn twice and none holds a slash, the index is
    injective, holds no identifier yet to be drawn and none with a slash,
    and every stored file the index refers to holds validated bytes of the
    recorded digest, then all of this holds again after any upload,
    accepted or not. *)
Theorem stored_entries_stay_validated `{External} (content : list Byte.byte)
        (filename : option string) (tag_str : string) (w w' : world)
        (r : result response) :
  uuid4_distinct -> uuid4_one_segment ->
  consistent w -> entries_validated w ->
  process_dicom content filename tag_str w = (r, w') ->
  consistent w' /\ entries_validated w'.
Proof.
  intros Hd Hs C V P. apply process_dicom_world in P.
  destruct P as (ri & wi & E & I & F & _ & D).
  assert (St : step w wi) by (eapply step_ingest; exact E).
  pose proof (step_consistent w wi Hd Hs St C) as (Ci & Cf & Cs).
  pose proof (step_validated w wi Hs St C V) as Vi.
  split; [repeat split|].
  - intros h1 h2 id. rewrite I. apply Ci.
  - intros n h. rewrite I, D. apply Cf.
  - intros h id. rewrite I. apply Cs.
  - intros h id c. rewrite I, F. apply Vi.
Qed.

Lemma stored_entries_stay_validated_witness :
  @uuid4_distinct sample_external
  /\ @uuid4_one_segment sample_external
  /\ @consistent sample_external empty_world
  /\ @entries_validated sample_external empty_world
  /\ @consistent sample_external
       (snd (@process_dicom sample_external dicm0 None "0010,0010" empty_world))
  /\ @entries_validated sample_external
       (snd (@process_dicom sample_external dicm0 None "0010,0010" empty_world)).
Proof.
  assert (V : @entries_validated sample_external empty_world).
  { intros h id c E. cbn in E. now rewrite lookup_empty in E. }
  split; [exact sample_uuid4_distinct|].
  split; [exact sample_uuid4_one_segment|].
  split; [exact empty_world_consistent|]. split; [exact V|].
  exact (@stored_entries_stay_validated sample_external dicm0 None "0010,0010"
           empty_world _ _ sample_uuid4_distinct sample_uuid4_one_segment
           empty_world_consistent V (surjective_pairing _)).
Defined.

(** X16: what an accepted upload leaves behind.  Whenever [process_dicom]
    returns a response, the index maps the digest of the uploaded bytes to
    an identifier whose file is stored; a dictionary response carries that
    identifier, the client's file name, [success = true], the tag data and
    an image error, and an image response names it in its
    [Content-Disposition]. *)
Theorem accepted_upload_is_recorded `{External} (content : list Byte.byte)
        (filename : option string) (tag_str : string) (w w' : world)
        (r : response) :
  process_dicom content filename tag_str w = (Ok r, w') ->
  exists file_id,
    FILE_HASH_MAP w' !! calculate_file_hash content = Some file_id
    /\ is_Some (files w' !! get_file_path file_id UPLOAD_DIR)
    /\ match r with
       | JsonResponse body =>
           r_file_id body = file_id /\ r_filename body = Some filename
           /\ r_success body = true /\ r_tag_data body <> None
           /\ r_png_error body <> None
       | StreamingResponse _ _ hs =>
           dict_get hs "Content-Disposition"
           = Some ("inline; filename=" ++ file_id ++ ".png")
       end.
Proof.
  intros P. pose proof P as Q. apply process_dicom_ok in Q.
  destruct Q as (fid & fp & ex & wi & stored & ds & Ei & Hf & _ & U & ->).
  exists fid. cbn [log FILE_HASH_MAP files].
  assert (R : fp = get_file_path fid UPLOAD_DIR
              /\ FILE_HASH_MAP wi !! calculate_file_hash content = Some fid).
  { destruct (ingest_shape content w) as [(id & Hi & _ & _ & E) | (_ & e' & E)];
      rewrite E in Ei.
    - injection Ei as <- <- _ <-. auto.
    - apply as_new_world in Ei.
      destruct Ei as (_ & [(Ri & I & _) | ([e Ri] & _)]); [|discriminate].
      injection Ri as -> -> _. rewrite I. split; [reflexivity|].
      apply lookup_insert_eq. }
  destruct R as [-> Hi]. split; [exact Hi|]. split; [eauto|].
  destruct r as [body|c m hs].
  - pose proof U as J. apply dicom_upload_json_fields in J.
    destruct J as (J1 & _ & J3 & J4). split; [exact J1|].
    unfold dicom_upload in U.
    destruct (extract_tag tag_str ds _) as [rd1|x] eqn:E; [|discriminate].
    cbn [bind] in U. destruct (extract_tag_ok_any _ _ _ _ E) as (td & -> & _).
    unfold render in U. destruct (hasattr (pixel_array ds)) as [[|]|x];
      cbn [bind] in U; try discriminate.
    + unfold try_except, bind in U.
      destruct (convert_dicom_to_png ds); cbn in U.
      * discriminate.
      * injection U as <-. cbn. auto.
    + injection U as <-. cbn. auto.
  - apply dicom_upload_image_inv in U. destruct U as (td & _ & _ & _ & ->).
    rewrite headers_loop_get; [reflexivity|].
    intros el _ _. apply header_name_not_fixed. cbn. tauto.
Qed.

Lemma accepted_upload_is_recorded_witness :
  @process_dicom sample_external dicm0 (Some "scan.dcm") "0010,0010"
    empty_world
  = (Ok (JsonResponse
           (set_png_error
              (set_tag_data first_response
                 {| td_tag := "(0010,0010)"; td_keyword := "PatientName";
                    td_vr := "PN" |})
              "DICOM file does not contain image data")),
     snd (@process_dicom sample_external dicm0 (Some "scan.dcm") "0010,0010"
            empty_world))
  /\ exists file_id,
       FILE_HASH_MAP
         (snd (@process_dicom sample_external dicm0 (Some "scan.dcm")
                 "0010,0010" empty_world))
         !! @calculate_file_hash sample_external dicm0 = Some file_id
       /\ is_Some
            (files
               (snd (@process_dicom sample_external dicm0 (Some "scan.dcm")
                       "0010,0010" empty_world))
               !! get_file_path file_id UPLOAD_DIR)
       /\ "id-0" = file_id /\ Some (Some "scan.dcm") = Some (Some "scan.dcm")
       /\ true = true
       /\ Some {| td_tag := "(0010,0010)"; td_keyword := "PatientName";
                  td_vr := "PN" |} <> None
       /\ Some "DICOM file does not contain image data" <> None.
Proof.
  assert (E : @process_dicom sample_external dicm0 (Some "scan.dcm")
                "0010,0010" empty_world
              = (Ok (JsonResponse
                       (set_png_error
                          (set_tag_data first_response
                             {| td_tag := "(0010,0010)";
                                td_keyword := "PatientName"; td_vr := "PN" |})
                          "DICOM file does not contain image data")),
                 snd (@process_dicom sample_external dicm0 (Some "scan.dcm")
                        "0010,0010" empty_world)))
    by (vm_compute; reflexivity).
  split; [exact E|].
  exact (@accepted_upload_is_recorded sample_external dicm0 (Some "scan.dcm")
           "0010,0010" empty_world _ _ E).
Defined.

(** ** The same bytes again *)

Lemma content_disposition_inj a b :
  "inline; filename=" ++ a ++ ".png" = "inline; filename=" ++ b ++ ".png" ->
  a = b.
Proof.
  intros E. apply (f_equal chars) in E. rewrite !chars_app in E.
  apply app_inv_head in E. apply app_inv_tail in E. now apply chars_inj.
Qed.

(** Where a response shows the identifier it was made for. *)
Lemma dicom_upload_names_id `{External} file_id s ds rd r :
  r_file_id rd = file_id ->
  dicom_upload file_id s ds rd = Ok r ->
  match r with
  | JsonResponse body =>
      r_file_id body = file_id /\ r_is_duplicate body = r_is_duplicate rd
  | StreamingResponse _ _ hs =>
      dict_get hs "Content-Disposition"
      = Some ("inline; filename=" ++ file_id ++ ".png")
  end.
Proof.
  intros Hid U. destruct r as [body|c m hs].
  - apply dicom_upload_json_fields in U. destruct U as (U1 & U2 & _).
    split; congruence.
  - apply dicom_upload_image_inv in U. destruct U as (td & _ & _ & _ & ->).
    rewrite headers_loop_get; [reflexivity|].
    intros el _ _. apply header_name_not_fixed. cbn. tauto.
Qed.

(** C6: once an upload of some bytes has been accepted under an identifier,
    every later upload of the same bytes, whatever was uploaded in between,
    is a duplicate.  The stored file is still there with the bytes it had;
    the handler draws no identifier, writes, validates and dumps nothing, and
    only reads that file: its answer is what [dicom_upload] makes of it for
    the same identifier with [is_duplicate] true, so a dictionary response
    carries the identifier and the flag, and an image response names the
    identifier.  An upload of bytes with another SHA-256 digest is never
    answered with that identifier.  Assumed of [uuid4]: no identifier is
    drawn twice, none is empty, none holds a slash; of the index the service
    started from: it maps no two digests to one identifier, and holds no
    identifier yet to be drawn and none with a slash. *)
Theorem same_bytes_same_identifier `{External} (b1 : list Byte.byte)
        (w0 w1 wk : world) (id1 p1 : string) (ex1 : option string) :
  uuid4_distinct -> uuid4_nonempty -> uuid4_one_segment -> consistent w0 ->
  ingest b1 w0 = (Ok (id1, p1, ex1), w1) ->
  rtc step w1 wk ->
  exists stored,
    files w1 !! p1 = Some stored
    /\ files wk !! p1 = Some stored
    /\ (ex1 = None -> stored = b1)
    /\ ingest b1 wk = (Ok (id1, p1, Some id1), wk)
    /\ (forall filename tag_str,
          process_dicom b1 filename tag_str wk
          = (match dcmread false stored with
             | Ok ds =>
                 match dicom_upload id1 tag_str ds
                         {| r_file_id := id1; r_filename := Some filename;
                            r_success := true; r_is_duplicate := Some true;
                            r_tag_data := None; r_png_error := None |} with
                 | Ok r => Ok r
                 | Raise e =>
                     Raise (HTTPException 500
                              ("Error processing DICOM file: " ++ str_exn e))
                 end
             | Raise e =>
                 Raise (HTTPException 500
                          ("Error processing DICOM file: " ++ str_exn e))
             end,
             log (EvRead p1) wk))
    /\ (forall filename tag_str r w2,
          process_dicom b1 filename tag_str wk = (Ok r, w2) ->
          w2 = log (EvRead p1) wk
          /\ match r with
             | JsonResponse body =>
                 r_file_id body = id1 /\ r_is_duplicate body = Some true
             | StreamingResponse _ _ hs =>
                 dict_get hs "Content-Disposition"
                 = Some ("inline; filename=" ++ id1 ++ ".png")
             end)
    /\ (forall b2 filename tag_str r w2,
          sha256_hexdigest b2 <> sha256_hexdigest b1 ->
          process_dicom b2 filename tag_str wk = (Ok r, w2) ->
          match r with
          | JsonResponse body => r_file_id body <> id1
          | StreamingResponse _ _ hs =>
              dict_get hs "Content-Disposition"
              <> Some ("inline; filename=" ++ id1 ++ ".png")
          end)
    /\ (forall b2 id2 p2 ex2 w2,
          sha256_hexdigest b2 <> sha256_hexdigest b1 ->
          ingest b2 wk = (Ok (id2, p2, ex2), w2) ->
          id2 <> id1).
Proof.
  intros Hd Hn Hs C0 E1 Sts.
  destruct (ingest_records b1 w0 id1 p1 ex1 w1 Hn E1)
    as (-> & Hne & Hi & [stored Hf]).
  exists stored.
  assert (C1 : consistent w1).
  { eapply step_consistent; [exact Hd | exact Hs | | exact C0].
    eapply step_ingest, E1. }
  destruct (steps_keep w1 wk _ id1 stored Hd Hs Sts C1 Hne Hi Hf)
    as (Ck & Hik & Hfk).
  assert (Ek : ingest b1 wk
               = (Ok (id1, get_file_path id1 UPLOAD_DIR, Some id1), wk)).
  { apply ingest_duplicate; [|exact Hne].
    rewrite find_existing_eq. unfold existing_of. rewrite Hik.
    rewrite bool_decide_eq_true_2; [reflexivity | eauto]. }
  assert (Other : forall b2 id2 p2 ex2 w2,
             sha256_hexdigest b2 <> sha256_hexdigest b1 ->
             ingest b2 wk = (Ok (id2, p2, ex2), w2) -> id2 <> id1).
  { intros b2 id2 p2 ex2 w2 Hh E2 ->.
    destruct Ck as (Inj & Fr & _).
    destruct (ingest_shape b2 wk) as [(id & Hi2 & _ & _ & Ei) | (_ & ex & Ei)];
      rewrite Ei in E2.
    - injection E2 as -> _ _ _. apply Hh.
      exact (Inj _ _ _ Hi2 Hik).
    - apply as_new_world in E2.
      destruct E2 as (_ & [(R & _) | ([e R] & _)]); [|discriminate].
      injection R as -> _ _. now apply Fr in Hik. }
  split; [exact Hf|]. split; [exact Hfk|]. split.
  { intros ->.
    destruct (ingest_shape b1 w0) as [(id & _ & _ & _ & Ei) | (_ & ex & Ei)];
      rewrite Ei in E1; [discriminate|].
    apply as_new_world in E1.
    destruct E1 as (_ & [(R & _ & F) | ([e R] & _)]); [|discriminate].
    assert (X : id1 = uuid4 (uuid_draws w0)) by congruence. subst id1.
    rewrite F, lookup_insert_eq in Hf. congruence. }
  split; [exact Ek|]. split; [|split; [|split; [|exact Other]]].
  - intros filename tag_str.
    unfold process_dicom, io_try, io_bind at 1. rewrite Ek.
    unfold io_bind, dcmread_path. rewrite Hfk. unfold io_lift, io_raise.
    cbn [is_not_None].
    destruct (dcmread false stored) as [ds|x]; [|reflexivity].
    destruct (dicom_upload _ _ _ _); reflexivity.
  - intros filename tag_str r w2 P.
    apply process_dicom_ok in P.
    destruct P as (fid & fp & ex & wi & st & ds & Ei & _ & _ & U & ->).
    rewrite Ek in Ei. injection Ei as <- <- <- <-. split; [reflexivity|].
    apply dicom_upload_names_id in U; [|reflexivity].
    destruct r; [|exact U]. destruct U as [U1 U2]. split; [exact U1|].
    rewrite U2. reflexivity.
  - intros b2 filename tag_str r w2 Hh P.
    apply process_dicom_ok in P.
    destruct P as (fid & fp & ex & wi & st & ds & Ei & _ & _ & U & ->).
    pose proof (Other b2 fid fp ex wi Hh Ei) as Hne2.
    apply dicom_upload_names_id in U; [|reflexivity].
    destruct r as [body|c m hs].
    + destruct U as [U1 _]. congruence.
    + rewrite U. intros G. apply Hne2, content_disposition_inj.
      congruence.
Qed.

Lemma same_bytes_same_identifier_witness :
  @uuid4_distinct sample_external
  /\ @uuid4_nonempty sample_external
  /\ @uuid4_one_segment sample_external
  /\ @consistent sample_external empty_world
  /\ @ingest sample_external dicm0 empty_world
     = (Ok ("id-0", "uploads/id-0.dcm", None), after_dicm0)
  /\ rtc (@step sample_external) after_dicm0 after_dicm0_dicm1
  /\ @ingest sample_external dicm0 after_dicm0_dicm1
     = (Ok ("id-0", "uploads/id-0.dcm", Some "id-0"), after_dicm0_dicm1)
  /\ @process_dicom sample_external dicm0 (Some "again.dcm") "0010,0010"
       after_dicm0_dicm1
     = (Ok (JsonResponse
              (set_png_error
                 (set_tag_data
                    {| r_file_id := "id-0";
                       r_filename := Some (Some "again.dcm");
                       r_success := true; r_is_duplicate := Some true;
                       r_tag_data := None; r_png_error := None |}
                    {| td_tag := "(0010,0010)"; td_keyword := "PatientName";
                       td_vr := "PN" |})
                 "DICOM file does not contain image data")),
        log (EvRead "uploads/id-0.dcm") after_dicm0_dicm1).
Proof.
  assert (E : @ingest sample_external dicm0 empty_world
              = (Ok ("id-0", "uploads/id-0.dcm", None), after_dicm0))
    by (vm_compute; reflexivity).
  assert (Sts : rtc (@step sample_external) after_dicm0 after_dicm0_dicm1)
    by exact (@process_dicom_steps sample_external dicm1 None "0010,0010"
                after_dicm0 _ _ (surjective_pairing _)).
  split; [exact sample_uuid4_distinct|].
  split; [exact sample_uuid4_nonempty|].
  split; [exact sample_uuid4_one_segment|].
  split; [exact empty_world_consistent|].
  split; [exact E|]. split; [exact Sts|].
  destruct (@same_bytes_same_identifier sample_external dicm0 empty_world
              after_dicm0 after_dicm0_dicm1 "id-0" "uploads/id-0.dcm" None
              sample_uuid4_distinct sample_uuid4_nonempty
              sample_uuid4_one_segment empty_world_consistent E Sts)
    as (stored & _ & _ & St & Ek & Pc & _).
  pose proof (St eq_refl) as ->.
  split; [exact Ek|]. exact (Pc (Some "again.dcm") "0010,0010").
Defined.

(** ** Stored paths *)

(** X17: for identifiers without a slash the stored path is the upload
    directory, a slash, the identifier and [.dcm]; two such identifiers
    never share a stored file, and none has the index file as its stored
    file.  A slash breaks this: [./a] names the file of [a], and [/a] names a
    file outside the upload directory. *)
Theorem stored_paths_are_apart (a b : string) :
  one_segment a -> one_segment b ->
  get_file_path a UPLOAD_DIR = UPLOAD_DIR ++ "/" ++ a ++ ".dcm"
  /\ (get_file_path a UPLOAD_DIR = get_file_path b UPLOAD_DIR -> a = b)
  /\ get_file_path a UPLOAD_DIR <> HASH_MAP_PATH
  /\ get_file_path ("./" ++ a) UPLOAD_DIR = get_file_path a UPLOAD_DIR
  /\ get_file_path ("/" ++ a) UPLOAD_DIR = "/" ++ a ++ ".dcm".
Proof.
  intros Ha Hb. pose proof (get_file_path_one_segment a Ha) as Pa.
  split; [exact Pa|]. split; [now apply get_file_path_inj|].
  apply one_segment_sep_free in Ha.
  set (k := (chars a ++ chars ".dcm")%list).
  assert (Fk : Forall (fun c => Ascii.eqb c PurePosixPath.sep = false) k).
  { apply Forall_app. split; [exact Ha|]. repeat constructor. }
  assert (Sk : PurePosixPath.starts_with_sep k = false).
  { destruct Fk as [|c l Hc _]; [reflexivity | exact Hc]. }
  assert (Kk : PurePosixPath.kept k = true) by apply kept_dcm.
  pose proof (split_chars_none PurePosixPath.sep k Fk) as Nk.
  split; [|split].
  - rewrite Pa. intros E. apply (f_equal chars) in E.
    rewrite !chars_app in E.
    change (chars HASH_MAP_PATH)
      with (chars UPLOAD_DIR ++ chars "/" ++ chars HASH_MAP_NAME)%list in E.
    do 2 apply app_inv_head in E.
    apply (f_equal (@rev ascii)) in E. rewrite rev_app_distr in E.
    discriminate.
  - rewrite Pa. apply chars_inj.
    unfold get_file_path, PurePosixPath.joinpath. rewrite chars_of_list.
    change (list_ascii_of_string (("./" ++ a) ++ ".dcm"))
      with (chars (("./" ++ a) ++ ".dcm")).
    rewrite !chars_app, <- ?app_assoc. fold k.
    change (chars "./" ++ k)%list with ("."%char :: "/"%char :: k).
    unfold PurePosixPath.join, PurePosixPath.str_chars.
    clearbody k. cbn. rewrite Nk. cbn. rewrite Kk. reflexivity.
  - apply chars_inj.
    unfold get_file_path, PurePosixPath.joinpath. rewrite chars_of_list.
    change (list_ascii_of_string (("/" ++ a) ++ ".dcm"))
      with (chars (("/" ++ a) ++ ".dcm")).
    rewrite !chars_app, <- ?app_assoc. fold k.
    change (chars "/" ++ k)%list with ("/"%char :: k). clearbody k.
    unfold PurePosixPath.join, PurePosixPath.str_chars.
    cbn [PurePosixPath.starts_with_sep PurePosixPath.sep Ascii.eqb Bool.eqb
         PurePosixPath.splitroot].
    destruct k as [|c k'] eqn:Ek; [inversion Kk|].
    cbn [PurePosixPath.starts_with_sep] in Sk. rewrite Sk.
    rewrite Nk. cbn [List.filter]. rewrite Kk. reflexivity.
Qed.

Lemma stored_paths_are_apart_witness :
  one_segment "id-0" /\ one_segment "id-1"
  /\ get_file_path "id-0" UPLOAD_DIR = "uploads/id-0.dcm"
  /\ get_file_path "./id-0" UPLOAD_DIR = get_file_path "id-0" UPLOAD_DIR
  /\ get_file_path "/id-0" UPLOAD_DIR = "/id-0.dcm".
Proof.
  assert (A : one_segment "id-0")
    by (unfold one_segment; cbn; intuition discriminate).
  assert (B : one_segment "id-1")
    by (unfold one_segment; cbn; intuition discriminate).
  split; [exact A|]. split; [exact B|].
  pose proof (stored_paths_are_apart "id-0" "id-1" A B) as (P1 & _ & _ & P4 & P5).
  split; [exact P1|]. split; [exact P4 | exact P5].
Defined.

(** ** The handler of [POST /random_file] *)

Lemma process_existing_file_eq `{External} pick tag_str w :
  process_existing_file pick tag_str w
  = io_try
      (if Nat.eqb
            (length (remove_dups (omap dir_entry (map fst (map_to_list (files w))))
                     ++ match hash_map_json w with
                        | Some _ => [(HASH_MAP_NAME, true)]
                        | None => []
                        end)%list) 0
       then io_raise (HTTPException 404
                        "No DICOM files found in uploads directory")
       else
         dicom_file <~ io_lift (random_choice pick (candidates w)) ;;
         dicom_dataset <~ dcmread_path (UPLOAD_DIR ++ "/" ++ dicom_file) false ;;
         io_lift
           (dicom_upload (str_replace ".dcm" "" dicom_file) tag_str
              dicom_dataset
              {| r_file_id := str_replace ".dcm" "" dicom_file;
                 r_filename := None; r_success := true;
                 r_is_duplicate := None; r_tag_data := None;
                 r_png_error := None |}))
      (fun e =>
         io_raise (HTTPException 500
                     ("Error processing DICOM file: " ++ str_exn e)))
      w.
Proof.
  unfold process_existing_file, io_try, io_bind at 1, iterdir at 1.
  destruct (Nat.eqb _ 0); [reflexivity|].
  unfold io_bind at 1, iterdir at 1. reflexivity.
Qed.

Lemma process_existing_file_raises_500 `{External} pick tag_str w e w' :
  process_existing_file pick tag_str w = (Raise e, w') ->
  exists d, e = HTTPException 500 d.
Proof.
  unfold process_existing_file, io_try.
  destruct (io_bind _ _ w) as [[r|x] w1]; [discriminate|].
  unfold io_raise. intros [= <- _]. eauto.
Qed.

(** X18: the random-file handler answers every failure with a 500, the
    "no files" 404 it raises itself included: with an empty upload directory
    the answer is a 500 quoting the 404, and with nothing but the index file
    in it the answer is a 500 for the failed choice.  *)
Theorem random_file_errors_are_500 `{External} (pick : nat)
        (tag_str : string) (w : world) :
  (forall e w', process_existing_file pick tag_str w = (Raise e, w') ->
                exists d, e = HTTPException 500 d)
  /\ (files w = ∅ -> hash_map_json w = None ->
      process_existing_file pick tag_str w
      = (Raise (HTTPException 500
                  "Error processing DICOM file: 404: No DICOM files found in uploads directory"),
         w))
  /\ (files w = ∅ -> hash_map_json w <> None ->
      process_existing_file pick tag_str w
      = (Raise (HTTPException 500
                  "Error processing DICOM file: Cannot choose from an empty sequence"),
         w)).
Proof.
  split; [intros e w'; apply process_existing_file_raises_500|]. split.
  - intros F J. rewrite process_existing_file_eq, F, J.
    rewrite map_to_list_empty. reflexivity.
  - intros F J. rewrite process_existing_file_eq. unfold candidates.
    rewrite F. destruct (hash_map_json w); [|contradiction].
    rewrite map_to_list_empty. reflexivity.
Qed.

Lemma random_file_errors_are_500_witness :
  files empty_world = ∅ /\ hash_map_json empty_world = None
  /\ @process_existing_file sample_external 0 "0010,0010" empty_world
     = (Raise (HTTPException 500
                 "Error processing DICOM file: 404: No DICOM files found in uploads directory"),
        empty_world).
Proof.
  split; [reflexivity|]. split; [reflexivity|].
  exact (proj1 (proj2 (@random_file_errors_are_500 sample_external 0
                         "0010,0010" empty_world)) eq_refl eq_refl).
Defined.

(** X19: the random-file handler changes nothing durable: the index, its
    dumped copy and the stored files are as before, and no identifier is
    drawn. *)
Theorem random_file_is_read_only `{External} (pick : nat) (tag_str : string)
        (w w' : world) (r : result response) :
  process_existing_file pick tag_str w = (r, w') ->
  FILE_HASH_MAP w' = FILE_HASH_MAP w /\ files w' = files w
  /\ hash_map_json w' = hash_map_json w /\ uuid_draws w' = uuid_draws w.
Proof.
  intros P. apply process_existing_file_steps in P.
  destruct P as [->|[ev ->]]; now cbn.
Qed.

Lemma random_file_is_read_only_witness :
  @process_existing_file sample_external 0 "0010,0010" after_dicm0
  = (fst (@process_existing_file sample_external 0 "0010,0010" after_dicm0),
     snd (@process_existing_file sample_external 0 "0010,0010" after_dicm0))
  /\ FILE_HASH_MAP
       (snd (@process_existing_file sample_external 0 "0010,0010" after_dicm0))
     = FILE_HASH_MAP after_dicm0.
Proof.
  split; [apply surjective_pairing|].
  exact (proj1 (@random_file_is_read_only sample_external 0 "0010,0010"
                  after_dicm0 _ _ (surjective_pairing _))).
Defined.

Lemma replace_sub_chars_suffix l :
  ~ In "."%char l ->
  replace_sub_chars (chars ".dcm") [] 0 (l ++ chars ".dcm")%list = l.
Proof.
  induction l as [|c l IH]; intros N; [reflexivity|].
  cbn [app replace_sub_chars].
  assert (C : Ascii.eqb "."%char c = false).
  { destruct (Ascii.eqb_spec "."%char c) as [<-|]; [|reflexivity].
    exfalso. apply N. now left. }
  unfold starts_with_chars, chars. cbn [list_ascii_of_string strip_prefix_chars].
  rewrite C. f_equal. apply IH. intros H. apply N. now right.
Qed.

(** Removing [".dcm"] from the name of a stored file gives the identifier
    back, for an identifier without a dot. *)
Lemma str_replace_dcm file_id :
  ~ In "."%char (chars file_id) ->
  str_replace ".dcm" "" (file_id ++ ".dcm") = file_id.
Proof.
  intros N.
  transitivity (string_of_list_ascii
                  (replace_sub_chars (chars ".dcm") [] 0
                     (chars (file_id ++ ".dcm")))); [reflexivity|].
  rewrite chars_app, replace_sub_chars_suffix by exact N.
  apply string_of_list_ascii_of_string.
Qed.

(** The listing shows a stored file under its name. *)
Lemma dir_entry_stored file_id :
  ~ In "/"%char (chars file_id) ->
  dir_entry (get_file_path file_id UPLOAD_DIR) = Some (file_id ++ ".dcm", true).
Proof.
  intros N. rewrite (get_file_path_one_segment file_id N). unfold dir_entry.
  change (list_ascii_of_string (UPLOAD_DIR ++ "/" ++ file_id ++ ".dcm"))
    with (chars (UPLOAD_DIR ++ "/" ++ file_id ++ ".dcm")).
  rewrite !chars_app.
  change (list_ascii_of_string (UPLOAD_DIR ++ "/")) with (chars "uploads/").
  change (chars UPLOAD_DIR ++ chars "/" ++ chars file_id ++ chars ".dcm")%list
    with (chars "uploads/" ++ (chars file_id ++ chars ".dcm"))%list.
  assert (P : forall p l, strip_prefix_chars p (p ++ l)%list = Some l).
  { induction p as [|c p IH]; intros l; [reflexivity|].
    cbn. now rewrite Ascii.eqb_refl. }
  rewrite P. rewrite split_chars_none.
  - rewrite <- chars_app. unfold chars.
    rewrite string_of_list_ascii_of_string.
    destruct (list_ascii_of_string (file_id ++ ".dcm")) eqn:E; [|reflexivity].
    apply (f_equal (@length ascii)) in E.
    change (list_ascii_of_string (file_id ++ ".dcm"))
      with (chars (file_id ++ ".dcm")) in E.
    rewrite chars_app, length_app in E. cbn in E. lia.
  - apply Forall_app. split.
    + apply List.Forall_forall. intros c Hc.
      destruct (Ascii.eqb_spec c "/"%char) as [->|]; [contradiction|reflexivity].
    + repeat constructor.
Qed.

Lemma candidates_stored w name :
  In name (candidates w) ->
  exists p, is_Some (files w !! p) /\ dir_entry p = Some (name, true).
Proof.
  unfold candidates. intros Hin. apply in_map_iff in Hin.
  destruct Hin as ([n f] & <- & Hin). cbn [fst].
  apply filter_In in Hin. destruct Hin as [Hin Hc]. cbn [fst snd] in Hc.
  apply andb_true_iff in Hc. destruct Hc as [-> Hn].
  apply in_app_iff in Hin. destruct Hin as [Hin|Hin].
  - apply list_elem_of_In, elem_of_remove_dups, list_elem_of_omap in Hin.
    destruct Hin as (p & Hp & D). exists p. split; [|exact D].
    apply list_elem_of_In, in_map_iff in Hp. destruct Hp as ([p' c] & <- & Hp).
    apply list_elem_of_In, elem_of_map_to_list in Hp. cbn. eauto.
  - exfalso. destruct (hash_map_json w); [|easy].
    destruct Hin as [[= <-]|[]]. unfold HASH_MAP_NAME in Hn.
    now rewrite String.eqb_refl in Hn.
Qed.

Lemma random_choice_In pick seq x : random_choice pick seq = Ok x -> In x seq.
Proof.
  unfold random_choice. destruct seq as [|y ys]; [discriminate|].
  intros E.
  assert (X : x = nth (pick mod length (y :: ys)) (y :: ys) y) by congruence.
  rewrite X. apply nth_In. apply Nat.mod_upper_bound. discriminate.
Qed.

Lemma process_existing_file_ok `{External} pick tag_str w r w' :
  process_existing_file pick tag_str w = (Ok r, w') ->
  exists name content ds,
    In name (candidates w)
    /\ files w !! (UPLOAD_DIR ++ "/" ++ name) = Some content
    /\ dcmread false content = Ok ds
    /\ dicom_upload (str_replace ".dcm" "" name) tag_str ds
         {| r_file_id := str_replace ".dcm" "" name; r_filename := None;
            r_success := true; r_is_duplicate := None; r_tag_data := None;
            r_png_error := None |} = Ok r.
Proof.
  rewrite process_existing_file_eq. unfold io_try.
  destruct (Nat.eqb _ 0); [discriminate|].
  unfold io_bind at 1, io_lift at 1.
  destruct (random_choice pick (candidates w)) as [name|x] eqn:C;
    [|discriminate].
  unfold io_bind, dcmread_path, io_lift, io_raise.
  destruct (files w !! _) as [c|] eqn:F; [|discriminate].
  destruct (dcmread false c) as [ds|x] eqn:D; [|discriminate].
  destruct (dicom_upload _ _ _ _) as [r'|x] eqn:U; [|discriminate].
  intros [= <- _]. exists name, c, ds. split; [|auto].
  eapply random_choice_In; exact C.
Qed.

(** X20: when the upload directory holds nothing but uploads stored under
    identifiers without dot or slash (as [process_dicom] stores them), a
    response of the random-file handler names one of them: the identifier
    it reports is that of a stored file, recovered from the file name; the
    dictionary carries neither a file name nor a duplicate flag. *)
Theorem random_file_names_a_stored_upload `{External} (pick : nat)
        (tag_str : string) (w w' : world) (r : response) :
  (forall p, is_Some (files w !! p) ->
             exists file_id, p = get_file_path file_id UPLOAD_DIR
                             /\ plain_id file_id) ->
  process_existing_file pick tag_str w = (Ok r, w') ->
  exists file_id,
    is_Some (files w !! get_file_path file_id UPLOAD_DIR)
    /\ match r with
       | JsonResponse body =>
           r_file_id body = file_id /\ r_filename body = None
           /\ r_is_duplicate body = None
       | StreamingResponse _ _ hs =>
           dict_get hs "Content-Disposition"
           = Some ("inline; filename=" ++ file_id ++ ".png")
       end.
Proof.
  intros Hw P. apply process_existing_file_ok in P.
  destruct P as (name & c & ds & Hin & F & _ & U).
  apply candidates_stored in Hin. destruct Hin as (p & Hp & D).
  destruct (Hw p Hp) as (id & -> & Hdot & Hslash).
  rewrite (dir_entry_stored id Hslash) in D. injection D as <-.
  rewrite (str_replace_dcm id Hdot) in U.
  exists id. split; [exact Hp|].
  destruct r as [body|content media hs].
  - pose proof U as J. apply dicom_upload_json_fields in J.
    destruct J as (J1 & J2 & _). split; [exact J1|]. split; [|exact J2].
    unfold dicom_upload in U.
    destruct (extract_tag tag_str ds _) as [rd1|x] eqn:E; [|discriminate].
    cbn [bind] in U. destruct (extract_tag_ok_any _ _ _ _ E) as (td & -> & _).
    unfold render in U. destruct (hasattr (pixel_array ds)) as [[|]|x];
      cbn [bind] in U; try discriminate.
    + unfold try_except, bind in U.
      destruct (convert_dicom_to_png ds); cbn in U.
      * discriminate.
      * injection U as <-. reflexivity.
    + injection U as <-. reflexivity.
  - apply dicom_upload_image_inv in U. destruct U as (td & _ & _ & _ & ->).
    rewrite headers_loop_get; [reflexivity|].
    intros el _ _. apply header_name_not_fixed. cbn. tauto.
Qed.

Lemma after_dicm0_files p :
  is_Some (files after_dicm0 !! p) ->
  exists file_id, p = get_file_path file_id UPLOAD_DIR /\ plain_id file_id.
Proof.
  assert (F : files after_dicm0 = {[ "uploads/id-0.dcm" := dicm0 ]})
    by (vm_compute; reflexivity).
  rewrite F. intros [c Hc]. apply lookup_singleton_Some in Hc.
  destruct Hc as [<- _]. exists "id-0". split; [reflexivity|].
  split; cbn; intuition discriminate.
Qed.

Lemma random_file_names_a_stored_upload_witness :
  (forall p, is_Some (files after_dicm0 !! p) ->
             exists file_id, p = get_file_path file_id UPLOAD_DIR
                             /\ plain_id file_id)
  /\ @process_existing_file sample_external 0 "0010,0010" after_dicm0
     = (Ok (JsonResponse
              (set_png_error
                 (set_tag_data
                    {| r_file_id := "id-0"; r_filename := None;
                       r_success := true; r_is_duplicate := None;
                       r_tag_data := None; r_png_error := None |}
                    {| td_tag := "(0010,0010)"; td_keyword := "PatientName";
                       td_vr := "PN" |})
                 "DICOM file does not contain image data")),
        log (EvRead "uploads/id-0.dcm") after_dicm0)
  /\ exists file_id,
       is_Some (files after_dicm0 !! get_file_path file_id UPLOAD_DIR)
       /\ "id-0" = file_id /\ @None (option string) = None
       /\ @None bool = None.
Proof.
  assert (E : @process_existing_file sample_external 0 "0010,0010" after_dicm0
              = (Ok (JsonResponse
                       (set_png_error
                          (set_tag_data
                             {| r_file_id := "id-0"; r_filename := None;
                                r_success := true; r_is_duplicate := None;
                                r_tag_data := None; r_png_error := None |}
                             {| td_tag := "(0010,0010)";
                                td_keyword := "PatientName"; td_vr := "PN" |})
                          "DICOM file does not contain image data")),
                 log (EvRead "uploads/id-0.dcm") after_dicm0))
    by (vm_compute; reflexivity).
  split; [exact after_dicm0_files|]. split; [exact E|].
  exact (@random_file_names_a_stored_upload sample_external 0 "0010,0010"
           after_dicm0 _ _ after_dicm0_files E).
Defined.
